(** * humbldata: the Fetcher TET pipeline and its parameter models

    A shallow embedding of

      - [humbldata/core/standard_models/portfolio/__init__.py]
        ([PortfolioQueryParams.upper_symbol]),
      - [humbldata/core/standard_models/toolbox/technical/momentum.py]
        ([MomentumQueryParams], [MomentumData], [MomentumFetcher]),
      - [humbldata/core/standard_models/toolbox/technical/mandelbrot_channel.py]
        ([MandelbrotChannelQueryParams], [MandelbrotChannelData],
        [MandelbrotChannelFetcher]).

    Python objects that are shared and mutated (the context parameters, the
    warning lists) live in an explicit store; a method of a Fetcher is a
    computation in a state-and-exception monad over that store. *)

From Stdlib Require Import Ascii String ZArith List Bool Lia.
From stdpp Require Import base option list gmap strings pretty.

Local Open Scope string_scope.
Set Warnings "-register-all".

(** ** Python values and exceptions *)

(** A raised Python exception: its class name, [str(e)], the exception named
    by [raise ... from] ([__cause__]) and the exception that was being
    handled when it was raised ([__context__]). *)
Inductive exn : Type :=
| Exn (cls : string) (msg : string) (cause : option exn) (context : option exn).

Definition exn_cls (e : exn) : string := let '(Exn c _ _ _) := e in c.
Definition exn_msg (e : exn) : string := let '(Exn _ m _ _) := e in m.
Definition exn_cause (e : exn) : option exn := let '(Exn _ _ c _) := e in c.
Definition exn_context (e : exn) : option exn := let '(Exn _ _ _ c) := e in c.

(** An exception raised outside of any handler. *)
Definition new_exn (cls msg : string) : exn := Exn cls msg None None.

(** The classes that derive from [BaseException] and not from [Exception]:
    those of Python itself, [asyncio.CancelledError], and the
    [PanicException] of polars. Every other class name stands for a class
    that derives from [Exception]. *)
Definition base_exceptions : list string :=
  ["BaseException"; "BaseExceptionGroup"; "GeneratorExit";
   "KeyboardInterrupt"; "SystemExit"; "CancelledError"; "PanicException"].

(** [isinstance(e, Exception)] *)
Definition isinstance_Exception (e : exn) : bool :=
  bool_decide (exn_cls e ∉ base_exceptions).

(** The result of evaluating an expression that may raise. *)
Inductive outcome (A : Type) : Type :=
| Ok (a : A)
| Raise (e : exn).
Arguments Ok {A} a.
Arguments Raise {A} e.

Definition obind {A B} (x : outcome A) (k : A → outcome B) : outcome B :=
  match x with
  | Ok a => k a
  | Raise e => Raise e
  end.

(** The dynamically typed values that reach the parameter models. Objects
    of other classes are not modelled: a [bytearray], or an instance of a
    class with a [strip] method of its own, is none of these values. *)
Inductive pyval : Type :=
| VNone
| VBool (b : bool)
| VInt (z : Z)
| VStr (s : string)
| VBytes (s : string)
| VList (l : list pyval).

(** [type(v).__name__] *)
Definition type_name (v : pyval) : string :=
  match v with
  | VNone => "NoneType"
  | VBool _ => "bool"
  | VInt _ => "int"
  | VStr _ => "str"
  | VBytes _ => "bytes"
  | VList _ => "list"
  end.

(** ** String methods used by the validators

    Strings are taken to be ASCII: [upper] and [strip] act on the ASCII
    letters and the ASCII white space. *)

Module PyStr.

(** [str.isspace] on the ASCII range: TAB..CR, FS..US and the space. *)
Definition is_space (c : ascii) : bool :=
  let n := nat_of_ascii c in
  (((9 <=? n) && (n <=? 13)) || ((28 <=? n) && (n <=? 32)))%nat.

Definition upper_char (c : ascii) : ascii :=
  let n := nat_of_ascii c in
  if ((97 <=? n) && (n <=? 122))%nat then ascii_of_nat (n - 32) else c.

(** [s.upper()] *)
Fixpoint upper (s : string) : string :=
  match s with
  | EmptyString => EmptyString
  | String c s' => String (upper_char c) (upper s')
  end.

(** [s.lstrip()] *)
Fixpoint lstrip (s : string) : string :=
  match s with
  | EmptyString => EmptyString
  | String c s' => if is_space c then lstrip s' else s
  end.

(** [s.rstrip()] *)
Fixpoint rstrip (s : string) : string :=
  match s with
  | EmptyString => EmptyString
  | String c s' =>
      match rstrip s' with
      | EmptyString => if is_space c then EmptyString else String c EmptyString
      | r => String c r
      end
  end.

(** [s.strip()] *)
Definition strip (s : string) : string := rstrip (lstrip s).

(** [s.split(sep)] for a one-character separator: never the empty list. *)
Fixpoint split (sep : ascii) (s : string) : list string :=
  match s with
  | EmptyString => [EmptyString]
  | String c s' =>
      if Ascii.eqb c sep then EmptyString :: split sep s'
      else match split sep s' with
           | x :: xs => String c x :: xs
           | [] => [String c EmptyString]
           end
  end.

(** [sep.join(l)] *)
Fixpoint join (sep : string) (l : list string) : string :=
  match l with
  | [] => EmptyString
  | [x] => x
  | x :: xs => x ++ sep ++ join sep xs
  end.

(** [c in s] for a character [c] *)
Fixpoint contains (c : ascii) (s : string) : bool :=
  match s with
  | EmptyString => false
  | String d s' => Ascii.eqb d c || contains c s'
  end.

End PyStr.

Definition comma : ascii := ","%char.

(** ** pydantic's treatment of exceptions raised in a field validator

    A [ValueError] or [AssertionError] raised by a validator is collected
    into the model's [ValidationError]; any other exception leaves the
    constructor as it is. *)
Definition field_validator_exn (model field : string) (e : exn) : exn :=
  if decide (exn_cls e = "ValueError" ∨ exn_cls e = "AssertionError")
  then new_exn "ValidationError"
         ("1 validation error for " ++ model ++ ": " ++ field ++ ": " ++ exn_msg e)
  else e.

(** ** [PortfolioQueryParams] *)

Module PortfolioQueryParams.

(** [item.strip()] on an element: of the values modelled, a [str] and a
    [bytes] have the method, and [None], a [bool], an [int] and a [list]
    have none. *)
Definition strip_item (item : pyval) : outcome pyval :=
  match item with
  | VStr s => Ok (VStr (PyStr.strip s))
  | VBytes b => Ok (VBytes (PyStr.strip b))
  | _ => Raise (new_exn "AttributeError"
                  ("'" ++ type_name item ++ "' object has no attribute 'strip'"))
  end.

Definition isinstance_str (v : pyval) : bool :=
  match v with VStr _ => true | _ => false end.

(** [iter(v)]: the elements a [for] loop over [v] visits. *)
Definition iterate (v : pyval) : outcome (list pyval) :=
  match v with
  | VList l => Ok l
  | VStr s => Ok ((λ c, VStr (String c EmptyString)) <$> list_ascii_of_string s)
  | VBytes b => Ok ((λ c, VInt (Z.of_nat (nat_of_ascii c))) <$> list_ascii_of_string b)
  | _ => Raise (new_exn "TypeError"
                  ("'" ++ type_name v ++ "' object is not iterable"))
  end.

(** [all(isinstance(item.strip(), str) for item in v)]: the generator is
    consumed from the left, stops at the first [False] and lets the first
    exception through. *)
Fixpoint all_strip_str (items : list pyval) : outcome bool :=
  match items with
  | [] => Ok true
  | item :: rest =>
      obind (strip_item item) (λ stripped,
        if isinstance_str stripped then all_strip_str rest else Ok false)
  end.

(** [[symbol.strip().upper() for symbol in v]] *)
Fixpoint strip_upper_all (items : list pyval) : outcome (list pyval) :=
  match items with
  | [] => Ok []
  | item :: rest =>
      obind (strip_item item) (λ stripped,
        match stripped with
        | VStr s =>
            obind (strip_upper_all rest) (λ out, Ok (VStr (PyStr.upper s) :: out))
        | VBytes b =>
            obind (strip_upper_all rest) (λ out, Ok (VBytes (PyStr.upper b) :: out))
        | other =>
            Raise (new_exn "AttributeError"
                     ("'" ++ type_name other ++ "' object has no attribute 'upper'"))
        end)
  end.

(** [PortfolioQueryParams.upper_symbol(cls, v)] *)
Definition upper_symbol (v : pyval) : outcome pyval :=
  let v := match v with
           | VStr s => VList (VStr <$> PyStr.split comma s)
           | _ => v
           end in
  obind (iterate v) (λ items,
  obind (all_strip_str items) (λ ok,
    if negb ok
    then Raise (new_exn "ValueError" "Every element in `symbol` list must be a `str`")
    else obind (strip_upper_all items) (λ out, Ok (VList out)))).

(** The [symbol] field as the constructor sees it: the [mode="before"]
    validator run under pydantic's exception handling. *)
Definition validate_symbol (v : pyval) : outcome pyval :=
  match upper_symbol v with
  | Ok r => Ok r
  | Raise e => Raise (field_validator_exn "PortfolioQueryParams" "symbol" e)
  end.

End PortfolioQueryParams.

(** ** Tables

    A polars frame as its columns, in order; a lazy frame is modelled by the
    table it collects to. Cells carry their polars type; a float is kept as
    its binary64 bit pattern, the fetchers never compute with it. *)

Inductive dtype : Type := Date | Utf8 | Float64 | Int64.

Global Instance dtype_eq_dec : EqDecision dtype.
Proof. solve_decision. Defined.

Inductive cell : Type :=
| CNull
| CDate (days : Z)
| CStr (s : string)
| CFloat (bits : Z)
| CInt (z : Z).

Global Instance cell_eq_dec : EqDecision cell.
Proof. solve_decision. Defined.

Definition cell_has_type (ty : dtype) (c : cell) : bool :=
  match ty, c with
  | Date, CDate _ | Utf8, CStr _ | Float64, CFloat _ | Int64, CInt _ => true
  | _, _ => false
  end.

Definition Table : Type := list (string * list cell).

Module Polars.

Definition columns (t : Table) : list string := t.*1.

Definition height (t : Table) : nat :=
  match t with
  | [] => 0
  | (_, c) :: _ => length c
  end.

(** [frame.drop(names)]: the named columns are removed where present. *)
Definition drop (names : list string) (t : Table) : Table :=
  filter (λ col, col.1 ∉ names) t.

Fixpoint replace_column (name : string) (c : list cell) (t : Table) : Table :=
  match t with
  | [] => []
  | (n, old) :: rest =>
      if decide (n = name) then (n, c) :: rest
      else (n, old) :: replace_column name c rest
  end.

(** [frame.with_columns(name=pl.lit(v))]: the literal is broadcast to the
    height of the frame (a frame without columns gets one row); a column
    of that name is replaced where it stands, a new one goes last. *)
Definition with_columns_lit (name : string) (v : cell) (t : Table) : Table :=
  let c := replicate (match t with [] => 1 | _ => height t end) v in
  if decide (name ∈ columns t) then replace_column name c t
  else (t ++ [(name, c)])%list.

(** [frame[name]]: the first column of that name. *)
Fixpoint get_column (name : string) (t : Table) : option (list cell) :=
  match t with
  | [] => None
  | (n, c) :: rest => if decide (n = name) then Some c else get_column name rest
  end.

End Polars.

(** ** The shared store *)

(** A warning record, by its message. *)
Definition Warning_ : Type := string.

(** The address of a Python list object. *)
Definition loc : Type := nat.

(** [ToolboxQueryParams], the context parameters. The class is declared
    outside the files embedded here; the fetchers read these attributes of
    it. [symbols] is the list of requested tickers ([MomentumFetcher] reads
    it as [.symbols], [MandelbrotChannelFetcher] as [.symbol]); [warnings]
    is [None] when [hasattr(context_params, "warnings")] is false. *)
Module Toolbox.
Record QueryParams : Type := {
  symbols : list string;
  start_date : option string;
  end_date : option string;
  provider : string;
  warnings : option loc;
}.

Definition set_warnings (c : QueryParams) (l : loc) : QueryParams :=
  {| symbols := symbols c; start_date := start_date c; end_date := end_date c;
     provider := provider c; warnings := Some l |}.
End Toolbox.

(** The keyword arguments of one [obb.equity.price.historical] call. *)
Record Request : Type := {
  req_symbol : list string;
  req_start_date : option string;
  req_end_date : option string;
  req_provider : string;
}.

(** What outlives a Fetcher: the context parameters object every Fetcher of
    the session refers to, the list objects, and the provider calls made so
    far. *)
Record World : Type := {
  context_params : Toolbox.QueryParams;
  lists : list (list Warning_);
  provider_calls : list Request;
}.

(** The store after one more provider call. *)
Definition called (r : Request) (w : World) : World :=
  {| context_params := context_params w;
     lists := lists w;
     provider_calls := (provider_calls w ++ [r])%list |}.

(** ** External collaborators *)

Record Collaborators : Type := {
  (** [obb.equity.price.historical(...).to_polars()] *)
  historical : Request → outcome Table;
  (** [momentum(data=, method=, period=).collect()] of
      [humbldata.toolbox.technical.momentum.model] *)
  momentum : Table → string → Z → outcome Table;
  (** [calc_mandelbrot_channel(data, window=, rv_adjustment=, _rv_method=,
      _rv_grouped_mean=, _rs_method=, _live_price=)] *)
  calc_mandelbrot_channel :
    Table → string → bool → string → bool → string → bool → outcome Table;
  (** [_window_format(v, _return_timedelta=False)] *)
  _window_format : string → outcome string;
  (** pydantic's lax-mode coercions of a value that is not already of the
      field's type *)
  lax_int : pyval → option Z;
  lax_bool : pyval → option bool;
  lax_str : pyval → option string;
  (** whether the [model_config] of the abstract [QueryParams] forbids
      fields that are not declared *)
  extra_forbid : bool;
}.

(** ** The state-and-exception monad of a method body *)

Section Method.
Context {F : Type}.

Record State : Type := { world : World; self : F }.

Definition M (A : Type) : Type := State → outcome A * State.

Definition ret {A} (a : A) : M A := λ s, (Ok a, s).

Definition bind {A B} (m : M A) (k : A → M B) : M B :=
  λ s, match m s with
       | (Ok a, s') => k a s'
       | (Raise e, s') => (Raise e, s')
       end.

Definition raise {A} (e : exn) : M A := λ s, (Raise e, s).

Definition lift {A} (x : outcome A) : M A := λ s, (x, s).

(** [try: body  except Exception as e: handler(e)]: an exception that is
    not an [Exception] passes through the statement. *)
Definition try_except {A} (body : M A) (handler : exn → M A) : M A :=
  λ s, match body s with
       | (Ok a, s') => (Ok a, s')
       | (Raise e, s') =>
           if isinstance_Exception e then handler e s' else (Raise e, s')
       end.

Definition get_self : M F := λ s, (Ok (self s), s).
Definition put_self (f : F) : M unit :=
  λ s, (Ok (), {| world := world s; self := f |}).

(** [self.context_params] *)
Definition get_context : M Toolbox.QueryParams :=
  λ s, (Ok (context_params (world s)), s).

Definition put_context (c : Toolbox.QueryParams) : M unit :=
  λ s, (Ok (), {| world := {| context_params := c; lists := lists (world s);
                              provider_calls := provider_calls (world s) |};
                  self := self s |}).

(** A new list object. *)
Definition alloc (v : list Warning_) : M loc :=
  λ s, let w := world s in
       (Ok (length (lists w)),
        {| world := {| context_params := context_params w;
                       lists := (lists w ++ [v])%list;
                       provider_calls := provider_calls w |};
           self := self s |}).

(** The elements of a list object. *)
Definition deref (l : loc) : M (list Warning_) :=
  λ s, (Ok (default [] (lists (world s) !! l)), s).

(** One call of the provider, recorded in the store. *)
Definition call_provider (E : Collaborators) (r : Request) : M Table :=
  λ s, let w := world s in
       (historical E r,
        {| world := {| context_params := context_params w;
                       lists := lists w;
                       provider_calls := (provider_calls w ++ [r])%list |};
           self := self s |}).

(** [obj.name] where the attribute may not have been set. *)
Definition getattr {A} (cls name : string) (a : option A) : M A :=
  match a with
  | Some x => ret x
  | None => raise (new_exn "AttributeError"
                     ("'" ++ cls ++ "' object has no attribute '" ++ name ++ "'"))
  end.

End Method.
Arguments State : clear implicits.
Arguments M : clear implicits.

Notation "'let*' x ':=' m 'in' k" := (bind m (λ x, k))
  (at level 10, x name, m at level 100, k at level 200, only parsing).
Notation "m ';;;' k" := (bind m (λ _, k))
  (at level 100, k at level 200, right associativity, only parsing).

(** ** The data models *)

Definition Schema : Type := list (string * dtype).

(** Modelled from the spec: the abstract [Data] class (a pandera model, in
    [humbldata.core.standard_models.abstract.data]) is not among the embedded
    files. A frame satisfies the schema a [Data] subclass declares when it
    has exactly the declared columns, by name and in order, and every cell
    of a column has the declared type. *)
Fixpoint conforms (sch : Schema) (t : Table) : bool :=
  match sch, t with
  | [], [] => true
  | (name, ty) :: sch', (n, c) :: t' =>
      bool_decide (name = n) && forallb (cell_has_type ty) c && conforms sch' t'
  | _, _ => false
  end.

(** Modelled from the spec: calling a [Data] subclass on a frame validates
    the frame and returns it; a frame that does not satisfy the schema, an
    unknown or a missing column included, is an error. *)
Definition Data_validate (model : string) (sch : Schema) (t : Table) : outcome Table :=
  if conforms sch t then Ok t
  else Raise (new_exn "SchemaError" ("frame does not conform to " ++ model)).

(** [MomentumData] *)
Definition MomentumData : Schema := [("example_column", Date)].

(** [MandelbrotChannelData] *)
Definition MandelbrotChannelData : Schema :=
  [("date", Date); ("symbol", Utf8); ("bottom_price", Float64);
   ("recent_price", Float64); ("top_price", Float64)].

(** What the envelope holds as [results]: a collected frame, or the
    serialization of a frame. *)
Inductive Results : Type :=
| Frame (t : Table)
| Serialized (t : Table).

(** [frame.serialize()] *)
Definition serialize (t : Table) : Results := Serialized t.

(** ** pydantic model construction *)

Module Pydantic.

(** The outcome of one field: the validated value or an error message. *)
Inductive field (A : Type) : Type :=
| Valid (a : A)
| Invalid (msg : string).
Arguments Valid {A} a.
Arguments Invalid {A} msg.

Definition errors_of {A} (name : string) (r : field A) : list (string * string) :=
  match r with
  | Valid _ => []
  | Invalid msg => [(name, msg)]
  end.

(** Keyword arguments that name no declared field. *)
Definition extra_errors (E : Collaborators) (declared : list string)
    (kw : gmap string pyval) : list (string * string) :=
  if extra_forbid E
  then (λ k, (k, "Extra inputs are not permitted"))
         <$> filter (λ k, k ∉ declared) (map_to_list kw).*1
  else [].

Definition show_error (e : string * string) : string := e.1 ++ ": " ++ e.2.

(** The [ValidationError] of a model: it counts and names the offending
    fields. *)
Definition ValidationError (model : string) (errs : list (string * string)) : exn :=
  new_exn "ValidationError"
    (pretty (length errs) ++ " validation error for " ++ model ++ ": "
       ++ PyStr.join "; " (show_error <$> errs)).

(** A field of type [int]. *)
Definition as_int (E : Collaborators) (v : pyval) : field Z :=
  match v with
  | VInt z => Valid z
  | _ => match lax_int E v with
         | Some z => Valid z
         | None => Invalid "Input should be a valid integer"
         end
  end.

(** A field of type [bool]. *)
Definition as_bool (E : Collaborators) (v : pyval) : field bool :=
  match v with
  | VBool b => Valid b
  | _ => match lax_bool E v with
         | Some b => Valid b
         | None => Invalid "Input should be a valid boolean"
         end
  end.

(** A field of type [str]. *)
Definition as_str (E : Collaborators) (v : pyval) : field string :=
  match v with
  | VStr s => Valid s
  | _ => match lax_str E v with
         | Some s => Valid s
         | None => Invalid "Input should be a valid string"
         end
  end.

(** A field of type [Literal[...]]. *)
Definition as_literal (allowed : list string) (v : pyval) : field string :=
  match v with
  | VStr s =>
      if decide (s ∈ allowed) then Valid s
      else Invalid ("Input should be one of " ++ PyStr.join ", " allowed)
  | _ => Invalid ("Input should be one of " ++ PyStr.join ", " allowed)
  end.

(** An [after] validator: it runs on the coerced value; a [ValueError] or
    [AssertionError] it raises is an error of the field, any other
    exception leaves the constructor. *)
Definition after {A} (r : field A) (validator : A → outcome A) : outcome (field A) :=
  match r with
  | Invalid msg => Ok (Invalid msg)
  | Valid a =>
      match validator a with
      | Ok a' => Ok (Valid a')
      | Raise e =>
          if decide (exn_cls e = "ValueError" ∨ exn_cls e = "AssertionError")
          then Ok (Invalid (exn_msg e))
          else Raise e
      end
  end.

(** The command parameters a Fetcher is constructed with: [None], a
    mapping of raw field values, or a model instance. *)
Inductive command_arg (Q : Type) : Type :=
| CmdNone
| CmdDict (kw : gmap string pyval)
| CmdModel (q : Q).
Arguments CmdNone {Q}.
Arguments CmdDict {Q} kw.
Arguments CmdModel {Q} q.

(** [bool(command_params)]: [None] and the empty mapping are falsy, a
    model instance is truthy. *)
Definition truthy {Q} (c : command_arg Q) : bool :=
  match c with
  | CmdNone => false
  | CmdDict kw => negb (bool_decide (kw = ∅))
  | CmdModel _ => true
  end.

(** Keyword unpacking of [command_params] into the constructor of the
    model: only a mapping can be unpacked. *)
Definition unpack {Q} (model : string) (c : command_arg Q) : outcome (gmap string pyval) :=
  match c with
  | CmdDict kw => Ok kw
  | CmdNone =>
      Raise (new_exn "TypeError"
               (model ++ "() argument after ** must be a mapping, not NoneType"))
  | CmdModel _ =>
      Raise (new_exn "TypeError"
               (model ++ "() argument after ** must be a mapping, not " ++ model))
  end.

End Pydantic.

(** ** [HumblObject], the result envelope

    The class is declared outside the files embedded here; the record has
    the keyword arguments the fetchers pass, one field for each keyword.
    [MomentumFetcher] passes [context_params], [command_params] and
    [extra]; [MandelbrotChannelFetcher] passes [_context_params] and
    [_command_params] and no [extra]. A keyword that is not passed is
    [None] here: what the class makes of it is outside these files.
    [warnings] is the address of a list object or [None]. *)

Definition Chart : Type := string.

(** The context parameters are passed by reference: the envelope refers to
    the context object of the store. *)
Inductive context_ref : Type := ContextObject.

Module HumblObject.
Record t (Q : Type) : Type := {
  results : Results;
  provider : string;
  warnings : option loc;
  chart : option Chart;
  context_params : option context_ref;
  command_params : option (Pydantic.command_arg Q);
  extra : option (gmap string pyval);
  _context_params : option context_ref;
  _command_params : option (Pydantic.command_arg Q);
}.
Arguments results {Q} _.
Arguments provider {Q} _.
Arguments warnings {Q} _.
Arguments chart {Q} _.
Arguments context_params {Q} _.
Arguments command_params {Q} _.
Arguments extra {Q} _.
Arguments _context_params {Q} _.
Arguments _command_params {Q} _.
End HumblObject.

(** Modelled from the spec: the decorator [log_start_end] of
    [humbldata.core.utils.logger] is not among the embedded files; logging
    is outside the pipeline's contract, and the decorated method returns and
    raises as its body does. *)
Definition log_start_end {F A} (body : M F A) : M F A := body.

(** Evaluating a global name of a module: a name the module does not bind is
    a [NameError], raised while [handling] is being handled. *)
Definition global_name {F} (bound : list string) (name : string)
    (handling : option exn) : M F unit :=
  if decide (name ∈ bound) then ret ()
  else raise (Exn "NameError" ("name '" ++ name ++ "' is not defined") None handling).

(** ** [momentum.py] *)

Module Momentum.

(** The names bound at the top level of the module: its imports, its
    assignments and its classes. *)
Definition module_globals : list string :=
  ["Literal"; "TypeVar"; "pa"; "pl"; "obb"; "Field"; "field_validator";
   "Data"; "HumblObject"; "QueryParams"; "ToolboxQueryParams"; "Env";
   "log_start_end"; "setup_logger"; "env"; "Q"; "logger";
   "MOMENTUM_QUERY_DESCRIPTIONS"; "MomentumQueryParams"; "MomentumData";
   "MomentumFetcher"].

(** [MomentumQueryParams] *)
Record QueryParams : Type := {
  method : string;
  period : Z;
}.

Definition methods : list string := ["log"; "simple"; "shift"].

(** [MomentumQueryParams.validate_method] *)
Definition validate_method (v : string) : outcome string := Ok v.

(** [ge=1] *)
Definition ge (bound : Z) (r : Pydantic.field Z) : Pydantic.field Z :=
  match r with
  | Pydantic.Valid z =>
      if (bound <=? z)%Z then Pydantic.Valid z
      else Pydantic.Invalid "Input should be greater than or equal to 1"
  | Pydantic.Invalid msg => Pydantic.Invalid msg
  end.

Definition field_method (kw : gmap string pyval) : outcome (Pydantic.field string) :=
  match kw !! "method" with
  | None => Ok (Pydantic.Valid "log")
  | Some v => Pydantic.after (Pydantic.as_literal methods v) validate_method
  end.

Definition field_period (E : Collaborators) (kw : gmap string pyval) : Pydantic.field Z :=
  match kw !! "period" with
  | None => Pydantic.Valid 1%Z
  | Some v => ge 1 (Pydantic.as_int E v)
  end.

(** The constructor of [MomentumQueryParams], on keyword arguments [kw]. *)
Definition QueryParams_new (E : Collaborators) (kw : gmap string pyval)
    : outcome QueryParams :=
  obind (field_method kw) (λ m,
  let p := field_period E kw in
  let errs := (Pydantic.errors_of "method" m ++ Pydantic.errors_of "period" p
               ++ Pydantic.extra_errors E ["method"; "period"] kw)%list in
  match m, p, errs with
  | Pydantic.Valid m, Pydantic.Valid p, [] => Ok {| method := m; period := p |}
  | _, _, _ => Raise (Pydantic.ValidationError "MomentumQueryParams" errs)
  end).

(** The attributes of a [MomentumFetcher]; an attribute that has not been
    set is [None]. [context_params] is the context object of the store. *)
Record Fetcher : Type := {
  command_params : Pydantic.command_arg QueryParams;
  warnings : option loc;
  extra : option (gmap string pyval);
  chart : option Chart;
  equity_historical_data : option Table;
  transformed_data : option Table;
}.

Definition set_command_params (f : Fetcher) (c : Pydantic.command_arg QueryParams) :=
  {| command_params := c; warnings := warnings f; extra := extra f; chart := chart f;
     equity_historical_data := equity_historical_data f;
     transformed_data := transformed_data f |}.
Definition set_warnings (f : Fetcher) (l : loc) :=
  {| command_params := command_params f; warnings := Some l; extra := extra f;
     chart := chart f; equity_historical_data := equity_historical_data f;
     transformed_data := transformed_data f |}.
Definition set_extra (f : Fetcher) (x : gmap string pyval) :=
  {| command_params := command_params f; warnings := warnings f; extra := Some x;
     chart := chart f; equity_historical_data := equity_historical_data f;
     transformed_data := transformed_data f |}.
Definition set_equity_historical_data (f : Fetcher) (t : Table) :=
  {| command_params := command_params f; warnings := warnings f; extra := extra f;
     chart := chart f; equity_historical_data := Some t;
     transformed_data := transformed_data f |}.
Definition set_transformed_data (f : Fetcher) (t : Table) :=
  {| command_params := command_params f; warnings := warnings f; extra := extra f;
     chart := chart f; equity_historical_data := equity_historical_data f;
     transformed_data := Some t |}.

Definition update_self (g : Fetcher → Fetcher) : M Fetcher unit :=
  let* f := get_self in put_self (g f).

(** [MomentumFetcher.__init__(self, context_params, command_params)], in
    a store whose context object is [context_params]: [self.warnings] is
    a new empty list. *)
Definition __init__ (command_params : Pydantic.command_arg QueryParams)
    (w : World) : State Fetcher :=
  {| world := {| context_params := context_params w;
                 lists := (lists w ++ [[]])%list;
                 provider_calls := provider_calls w |};
     self := {| command_params := command_params;
                warnings := Some (length (lists w));
                extra := Some ∅;
                chart := None;
                equity_historical_data := None;
                transformed_data := None |} |}.

Section Methods.
Context (E : Collaborators).

(** [MomentumFetcher.transform_query] *)
Definition transform_query : M Fetcher unit :=
  let* f := get_self in
  if negb (Pydantic.truthy (command_params f))
  then
    let* q := lift (QueryParams_new E ∅) in
    update_self (λ f, set_command_params f (Pydantic.CmdModel q))
  else
    let* kw := lift (Pydantic.unpack "MomentumQueryParams" (command_params f)) in
    let* q := lift (QueryParams_new E kw) in
    update_self (λ f, set_command_params f (Pydantic.CmdModel q)).

Definition request_of (c : Toolbox.QueryParams) : Request :=
  {| req_symbol := Toolbox.symbols c;
     req_start_date := Toolbox.start_date c;
     req_end_date := Toolbox.end_date c;
     req_provider := Toolbox.provider c |}.

(** [MomentumFetcher.extract_data] *)
Definition extract_data : M Fetcher unit :=
  let* c := get_context in
  let* t := call_provider E (request_of c) in
  update_self (λ f, set_equity_historical_data f t) ;;;
  let* c := get_context in
  if (length (Toolbox.symbols c) =? 1)%nat
  then
    let* f := get_self in
    let* data := getattr "MomentumFetcher" "equity_historical_data"
                   (equity_historical_data f) in
    let* s := match Toolbox.symbols c with
              | s :: _ => ret s
              | [] => raise (new_exn "IndexError" "list index out of range")
              end in
    update_self (λ f, set_equity_historical_data f
                        (Polars.with_columns_lit "symbol" (CStr s) data))
  else ret ().

(** [self.command_params.<field>] *)
Definition command_field {A} (name : string) (proj : QueryParams → A) : M Fetcher A :=
  let* f := get_self in
  match command_params f with
  | Pydantic.CmdModel q => ret (proj q)
  | Pydantic.CmdDict _ =>
      raise (new_exn "AttributeError"
               ("'dict' object has no attribute '" ++ name ++ "'"))
  | Pydantic.CmdNone =>
      raise (new_exn "AttributeError"
               ("'NoneType' object has no attribute '" ++ name ++ "'"))
  end.

(** [MomentumFetcher.transform_data] *)
Definition transform_data : M Fetcher unit :=
  try_except
    (let* f := get_self in
     let* x := getattr "MomentumFetcher" "extra" (extra f) in
     update_self (λ f, set_extra f
       (<["calculation_method" := VStr "log"]> (<["period" := VInt 1]> x))) ;;;
     let* f := get_self in
     let* data := getattr "MomentumFetcher" "equity_historical_data"
                    (equity_historical_data f) in
     let* m := command_field "method" method in
     let* p := command_field "period" period in
     let* out := lift (momentum E data m p) in
     update_self (λ f, set_transformed_data f out))
    (λ e,
       global_name module_globals "HumblDataError" (Some e) ;;;
       raise (Exn "HumblDataError"
                ("Momentum transformation failed: " ++ exn_msg e) (Some e) (Some e))).

(** [MomentumFetcher.fetch_data] *)
Definition fetch_data : M Fetcher (HumblObject.t QueryParams) :=
  log_start_end (
    transform_query ;;;
    extract_data ;;;
    transform_data ;;;
    let* c := get_context in
    (match Toolbox.warnings c with
     | None => let* l := alloc [] in
               let* c := get_context in put_context (Toolbox.set_warnings c l)
     | Some _ => ret ()
     end) ;;;
    let* f := get_self in
    (match warnings f with
     | None => let* l := alloc [] in update_self (λ f, set_warnings f l)
     | Some _ => ret ()
     end) ;;;
    let* f := get_self in
    (match extra f with
     | None => update_self (λ f, set_extra f ∅)
     | Some _ => ret ()
     end) ;;;
    let* c := get_context in
    let* cl := getattr "ToolboxQueryParams" "warnings" (Toolbox.warnings c) in
    let* cw := deref cl in
    let* f := get_self in
    let* fl := getattr "MomentumFetcher" "warnings" (warnings f) in
    let* fw := deref fl in
    let* all_warnings := alloc (cw ++ fw)%list in
    let* f := get_self in
    let* td := getattr "MomentumFetcher" "transformed_data" (transformed_data f) in
    let* c := get_context in
    ret {| HumblObject.results := Frame td;
           HumblObject.provider := Toolbox.provider c;
           HumblObject.warnings := Some all_warnings;
           HumblObject.chart := chart f;
           HumblObject.context_params := Some ContextObject;
           HumblObject.command_params := Some (command_params f);
           HumblObject.extra := extra f;
           HumblObject._context_params := None;
           HumblObject._command_params := None |}).

End Methods.

End Momentum.

(** ** [mandelbrot_channel.py] *)

Module MandelbrotChannel.

(** [MandelbrotChannelQueryParams] *)
Record QueryParams : Type := {
  window : string;
  rv_adjustment : bool;
  rv_method : string;
  rs_method : string;
  rv_grouped_mean : bool;
  live_price : bool;
}.

Definition rv_methods : list string :=
  ["std"; "parkinson"; "garman_klass"; "gk"; "hodges_tompkins"; "ht";
   "rogers_satchell"; "rs"; "yang_zhang"; "yz"; "squared_returns"; "sq"].

Definition rs_methods : list string := ["RS"; "RS_min"; "RS_max"; "RS_mean"].

Definition declared : list string :=
  ["window"; "rv_adjustment"; "rv_method"; "rs_method"; "rv_grouped_mean";
   "live_price"].

(** [MandelbrotChannelQueryParams.window_format]; as an [after] validator
    it is handed the coerced value, a [str]. *)
Definition window_format (E : Collaborators) (v : pyval) : outcome string :=
  match v with
  | VStr s => _window_format E s
  | _ => Raise (new_exn "ValueError" "Window must be a string.")
  end.

Definition field_window (E : Collaborators) (kw : gmap string pyval)
    : outcome (Pydantic.field string) :=
  match kw !! "window" with
  | None => Ok (Pydantic.Valid "1mo")
  | Some v => Pydantic.after (Pydantic.as_str E v) (λ s, window_format E (VStr s))
  end.

Definition field_bool (E : Collaborators) (kw : gmap string pyval)
    (name : string) (dflt : bool) : Pydantic.field bool :=
  match kw !! name with
  | None => Pydantic.Valid dflt
  | Some v => Pydantic.as_bool E v
  end.

Definition field_literal (kw : gmap string pyval) (name : string)
    (dflt : string) (allowed : list string) : Pydantic.field string :=
  match kw !! name with
  | None => Pydantic.Valid dflt
  | Some v => Pydantic.as_literal allowed v
  end.

(** The constructor of [MandelbrotChannelQueryParams], on keyword
    arguments [kw]. *)
Definition QueryParams_new (E : Collaborators) (kw : gmap string pyval)
    : outcome QueryParams :=
  obind (field_window E kw) (λ w,
  let a := field_bool E kw "rv_adjustment" true in
  let m := field_literal kw "rv_method" "std" rv_methods in
  let r := field_literal kw "rs_method" "RS" rs_methods in
  let g := field_bool E kw "rv_grouped_mean" false in
  let l := field_bool E kw "live_price" false in
  let errs := (Pydantic.errors_of "window" w ++ Pydantic.errors_of "rv_adjustment" a
               ++ Pydantic.errors_of "rv_method" m ++ Pydantic.errors_of "rs_method" r
               ++ Pydantic.errors_of "rv_grouped_mean" g
               ++ Pydantic.errors_of "live_price" l
               ++ Pydantic.extra_errors E declared kw)%list in
  match w, a, m, r, g, l, errs with
  | Pydantic.Valid w, Pydantic.Valid a, Pydantic.Valid m, Pydantic.Valid r,
    Pydantic.Valid g, Pydantic.Valid l, [] =>
      Ok {| window := w; rv_adjustment := a; rv_method := m; rs_method := r;
            rv_grouped_mean := g; live_price := l |}
  | _, _, _, _, _, _, _ =>
      Raise (Pydantic.ValidationError "MandelbrotChannelQueryParams" errs)
  end).

(** The attributes of a [MandelbrotChannelFetcher]; an attribute that has
    not been set is [None]. [context_params] is the context object of the
    store. *)
Record Fetcher : Type := {
  command_params : Pydantic.command_arg QueryParams;
  equity_historical_data : option Table;
  transformed_data : option Results;
}.

Definition set_command_params (f : Fetcher) (c : Pydantic.command_arg QueryParams) :=
  {| command_params := c; equity_historical_data := equity_historical_data f;
     transformed_data := transformed_data f |}.
Definition set_equity_historical_data (f : Fetcher) (t : Table) :=
  {| command_params := command_params f; equity_historical_data := Some t;
     transformed_data := transformed_data f |}.
Definition set_transformed_data (f : Fetcher) (r : Results) :=
  {| command_params := command_params f;
     equity_historical_data := equity_historical_data f;
     transformed_data := Some r |}.

Definition update_self (g : Fetcher → Fetcher) : M Fetcher unit :=
  let* f := get_self in put_self (g f).

(** [MandelbrotChannelFetcher.__init__(self, context_params,
    command_params)], in a store whose context object is
    [context_params]. *)
Definition __init__ (command_params : Pydantic.command_arg QueryParams)
    (w : World) : State Fetcher :=
  {| world := w;
     self := {| command_params := command_params;
                equity_historical_data := None;
                transformed_data := None |} |}.

Section Methods.
Context (E : Collaborators).

(** [MandelbrotChannelFetcher.transform_query] *)
Definition transform_query : M Fetcher unit :=
  let* f := get_self in
  if negb (Pydantic.truthy (command_params f))
  then
    update_self (λ f, set_command_params f Pydantic.CmdNone) ;;;
    let* q := lift (QueryParams_new E ∅) in
    update_self (λ f, set_command_params f (Pydantic.CmdModel q))
  else
    let* kw := lift (Pydantic.unpack "MandelbrotChannelQueryParams" (command_params f)) in
    let* q := lift (QueryParams_new E kw) in
    update_self (λ f, set_command_params f (Pydantic.CmdModel q)).

Definition request_of (c : Toolbox.QueryParams) : Request :=
  {| req_symbol := Toolbox.symbols c;
     req_start_date := Toolbox.start_date c;
     req_end_date := Toolbox.end_date c;
     req_provider := Toolbox.provider c |}.

(** [MandelbrotChannelFetcher.extract_data] *)
Definition extract_data : M Fetcher Table :=
  let* c := get_context in
  let* t := call_provider E (request_of c) in
  let equity_historical_data := Polars.drop ["dividends"; "stock_splits"] t in
  let* c := get_context in
  if (length (Toolbox.symbols c) =? 1)%nat
  then
    let* s := match Toolbox.symbols c with
              | s :: _ => ret s
              | [] => raise (new_exn "IndexError" "list index out of range")
              end in
    ret (Polars.with_columns_lit "symbol" (CStr s) equity_historical_data)
  else ret equity_historical_data.

(** [self.command_params.<field>] *)
Definition command_field {A} (name : string) (proj : QueryParams → A) : M Fetcher A :=
  let* f := get_self in
  match command_params f with
  | Pydantic.CmdModel q => ret (proj q)
  | Pydantic.CmdDict _ =>
      raise (new_exn "AttributeError"
               ("'dict' object has no attribute '" ++ name ++ "'"))
  | Pydantic.CmdNone =>
      raise (new_exn "AttributeError"
               ("'NoneType' object has no attribute '" ++ name ++ "'"))
  end.

(** [MandelbrotChannelFetcher.transform_data] *)
Definition transform_data : M Fetcher Table :=
  let* f := get_self in
  let* data := getattr "MandelbrotChannelFetcher" "equity_historical_data"
                 (equity_historical_data f) in
  let* w := command_field "window" window in
  let* a := command_field "rv_adjustment" rv_adjustment in
  let* m := command_field "rv_method" rv_method in
  let* g := command_field "rv_grouped_mean" rv_grouped_mean in
  let* r := command_field "rs_method" rs_method in
  let* l := command_field "live_price" live_price in
  lift (calc_mandelbrot_channel E data w a m g r l).

(** [MandelbrotChannelFetcher.fetch_data] *)
Definition fetch_data : M Fetcher (HumblObject.t QueryParams) :=
  transform_query ;;;
  let* t := extract_data in
  update_self (λ f, set_equity_historical_data f t) ;;;
  let* out := transform_data in
  let* validated := lift (Data_validate "MandelbrotChannelData" MandelbrotChannelData out) in
  update_self (λ f, set_transformed_data f (serialize validated)) ;;;
  let* f := get_self in
  let* td := getattr "MandelbrotChannelFetcher" "transformed_data" (transformed_data f) in
  let* c := get_context in
  ret {| HumblObject.results := td;
         HumblObject.provider := Toolbox.provider c;
         HumblObject.warnings := None;
         HumblObject.chart := None;
         HumblObject.context_params := None;
         HumblObject.command_params := None;
         HumblObject.extra := None;
         HumblObject._context_params := Some ContextObject;
         HumblObject._command_params := Some (command_params f) |}.

End Methods.

End MandelbrotChannel.

(** ** Vocabulary for the statements about [MomentumFetcher] *)

Module MomentumStages.
Import Momentum.

(** The model instance [transform_query] builds, or the exception of its
    constructor. *)
Definition query_of (E : Collaborators) (c : Pydantic.command_arg QueryParams)
    : outcome QueryParams :=
  if negb (Pydantic.truthy c) then QueryParams_new E ∅
  else obind (Pydantic.unpack "MomentumQueryParams" c) (QueryParams_new E).

(** The table [extract_data] stores for the symbols [syms] when the
    provider returns [t]. *)
Definition extracted (syms : list string) (t : Table) : Table :=
  match syms with
  | [sym] => Polars.with_columns_lit "symbol" (CStr sym) t
  | _ => t
  end.

(** The [extra] mapping after [self.extra.update(...)]. *)
Definition recorded (x : gmap string pyval) : gmap string pyval :=
  <["calculation_method" := VStr "log"]> (<["period" := VInt 1]> x).

(** [MomentumQueryParams()]: every field at its declared default. *)
Definition defaults : QueryParams := {| method := "log"; period := 1 |}.

(** A model instance whose fields satisfy the declared constraints. *)
Definition validated (q : QueryParams) : Prop :=
  method q ∈ methods ∧ (1 ≤ period q)%Z.

(** The warnings a list attribute stands for: the elements of the list
    object, or those of the empty list the pipeline creates when the
    attribute is missing. *)
Definition warnings_of (w : World) (attr : option loc) : list Warning_ :=
  match attr with
  | Some l => default [] (lists w !! l)
  | None => []
  end.

End MomentumStages.

(** ** Vocabulary for the statements about [MandelbrotChannelFetcher] *)

Module MandelbrotStages.
Import MandelbrotChannel.

(** The model instance [transform_query] builds, or the exception of its
    constructor. *)
Definition query_of (E : Collaborators) (c : Pydantic.command_arg QueryParams)
    : outcome QueryParams :=
  if negb (Pydantic.truthy c) then QueryParams_new E ∅
  else obind (Pydantic.unpack "MandelbrotChannelQueryParams" c) (QueryParams_new E).

(** The table [extract_data] returns for the symbols [syms] when the
    provider returns [t]. *)
Definition extracted (syms : list string) (t : Table) : Table :=
  match syms with
  | [sym] => Polars.with_columns_lit "symbol" (CStr sym)
               (Polars.drop ["dividends"; "stock_splits"] t)
  | _ => Polars.drop ["dividends"; "stock_splits"] t
  end.

(** [MandelbrotChannelQueryParams()]: every field at its declared
    default. *)
Definition defaults : QueryParams :=
  {| window := "1mo"; rv_adjustment := true; rv_method := "std";
     rs_method := "RS"; rv_grouped_mean := false; live_price := false |}.

(** A model instance whose fields satisfy the declared constraints: the
    window is the default or a result of [_window_format], the methods
    are members of their enumerations. *)
Definition validated (E : Collaborators) (q : QueryParams) : Prop :=
  (window q = "1mo" ∨ ∃ s, _window_format E s = Ok (window q))
  ∧ rv_method q ∈ rv_methods
  ∧ rs_method q ∈ rs_methods.

(** The kernel call of [transform_data]. *)
Definition kernel (E : Collaborators) (data : Table) (q : QueryParams) : outcome Table :=
  calc_mandelbrot_channel E data (window q) (rv_adjustment q) (rv_method q)
    (rv_grouped_mean q) (rs_method q) (live_price q).

End MandelbrotStages.

(** ** Vocabulary for the statements about the envelope *)

(** The elements of the envelope's [warnings], read in the store [w]. *)
Definition envelope_warnings {Q} (w : World) (env : HumblObject.t Q)
    : option (list Warning_) :=
  match HumblObject.warnings env with
  | Some l => lists w !! l
  | None => None
  end.

(** [env.extra[key]] *)
Definition extra_entry {Q} (env : HumblObject.t Q) (key : string) : option pyval :=
  match HumblObject.extra env with
  | Some x => x !! key
  | None => None
  end.

(** The elements of the context's [warnings], read in the store [w]. *)
Definition context_warnings (w : World) : option (list Warning_) :=
  match Toolbox.warnings (context_params w) with
  | Some l => lists w !! l
  | None => None
  end.

(** ** A concrete session, for running the pipelines *)

Module Demo.

Definition prices : Table :=
  [("date", [CDate 19000; CDate 19001]);
   ("close", [CFloat 4636737291354636288; CFloat 4636807660098813952]);
   ("dividends", [CFloat 0; CFloat 0]);
   ("stock_splits", [CFloat 0; CFloat 0])].

Definition channel : Table :=
  [("date", [CDate 19001]); ("symbol", [CStr "AAPL"]);
   ("bottom_price", [CFloat 4636666922610458624]);
   ("recent_price", [CFloat 4636807660098813952]);
   ("top_price", [CFloat 4636948397587169280])].

(** The momentum kernel's output: the input and one more column. *)
Definition with_momentum (t : Table) : Table :=
  (t ++ [("momentum", replicate (Polars.height t) (CFloat 0))])%list.

Definition collaborators : Collaborators :=
  {| historical := λ _, Ok prices;
     momentum := λ t _ _, Ok (with_momentum t);
     calc_mandelbrot_channel := λ _ _ _ _ _ _ _, Ok channel;
     _window_format := λ s, Ok s;
     lax_int := λ _, None;
     lax_bool := λ _, None;
     lax_str := λ _, None;
     extra_forbid := false |}.

(** The provider is down. *)
Definition offline : Collaborators :=
  {| historical := λ _, Raise (new_exn "ConnectionError" "provider unreachable");
     momentum := momentum collaborators;
     calc_mandelbrot_channel := calc_mandelbrot_channel collaborators;
     _window_format := _window_format collaborators;
     lax_int := lax_int collaborators;
     lax_bool := lax_bool collaborators;
     lax_str := lax_str collaborators;
     extra_forbid := extra_forbid collaborators |}.

(** The kernels fail. *)
Definition failing_kernel : Collaborators :=
  {| historical := historical collaborators;
     momentum := λ _ _ _, Raise (new_exn "ComputeError" "close column is missing");
     calc_mandelbrot_channel :=
       λ _ _ _ _ _ _ _, Raise (new_exn "ComputeError" "close column is missing");
     _window_format := _window_format collaborators;
     lax_int := lax_int collaborators;
     lax_bool := lax_bool collaborators;
     lax_str := lax_str collaborators;
     extra_forbid := extra_forbid collaborators |}.

(** The channel kernel hands back the prices it was given. *)
Definition unshaped_kernel : Collaborators :=
  {| historical := historical collaborators;
     momentum := momentum collaborators;
     calc_mandelbrot_channel := λ t _ _ _ _ _ _, Ok t;
     _window_format := _window_format collaborators;
     lax_int := lax_int collaborators;
     lax_bool := lax_bool collaborators;
     lax_str := lax_str collaborators;
     extra_forbid := extra_forbid collaborators |}.

(** The momentum kernel leaves a trace of the arguments it is applied
    to: a column named after the method that holds the period. *)
Definition tracing : Collaborators :=
  {| historical := historical collaborators;
     momentum := λ t m p, Ok (t ++ [(m, replicate (Polars.height t) (CInt p))])%list;
     calc_mandelbrot_channel := calc_mandelbrot_channel collaborators;
     _window_format := _window_format collaborators;
     lax_int := lax_int collaborators;
     lax_bool := lax_bool collaborators;
     lax_str := lax_str collaborators;
     extra_forbid := extra_forbid collaborators |}.

Definition channel_defaults : MandelbrotChannel.QueryParams :=
  MandelbrotStages.defaults.

Definition momentum_defaults : Momentum.QueryParams :=
  MomentumStages.defaults.

(** A context for one symbol whose warnings are the list object 0. *)
Definition context : Toolbox.QueryParams :=
  {| Toolbox.symbols := ["AAPL"];
     Toolbox.start_date := Some "2022-01-01";
     Toolbox.end_date := Some "2022-12-31";
     Toolbox.provider := "yahoo";
     Toolbox.warnings := Some 0%nat |}.

Definition session : World :=
  {| context_params := context;
     lists := [["A"; "B"]];
     provider_calls := [] |}.

(** A [MomentumFetcher] of that session, before [fetch_data], to whose
    own warnings (the list object 1) the warning C has been added. *)
Definition warned : State Momentum.Fetcher :=
  {| world := {| context_params := context;
                 lists := [["A"; "B"]; ["C"]];
                 provider_calls := [] |};
     self := {| Momentum.command_params := Pydantic.CmdNone;
                Momentum.warnings := Some 1%nat;
                Momentum.extra := Some ∅;
                Momentum.chart := None;
                Momentum.equity_historical_data := None;
                Momentum.transformed_data := None |} |}.

(** The same session, asking for two symbols. *)
Definition pair_session : World :=
  {| context_params :=
       {| Toolbox.symbols := ["AAPL"; "MSFT"];
          Toolbox.start_date := Some "2022-01-01";
          Toolbox.end_date := Some "2022-12-31";
          Toolbox.provider := "yahoo";
          Toolbox.warnings := Some 0%nat |};
     lists := [["A"; "B"]];
     provider_calls := [] |}.

(** A [MandelbrotChannelFetcher] of that session after [transform_query]
    and [extract_data]. *)
Definition channel_ready : State MandelbrotChannel.Fetcher :=
  {| world := session;
     self := {| MandelbrotChannel.command_params := Pydantic.CmdModel channel_defaults;
                MandelbrotChannel.equity_historical_data := Some prices;
                MandelbrotChannel.transformed_data := None |} |}.

(** A [MomentumFetcher] of that session after [transform_query] and
    [extract_data]. *)
Definition momentum_ready : State Momentum.Fetcher :=
  {| world := session;
     self := {| Momentum.command_params := Pydantic.CmdModel momentum_defaults;
                Momentum.warnings := None;
                Momentum.extra := Some ∅;
                Momentum.chart := None;
                Momentum.equity_historical_data := Some prices;
                Momentum.transformed_data := None |} |}.

End Demo.

(** ** Vocabulary for the statements about strings *)

Module Chars.

(** [c.islower()] on the ASCII range. *)
Definition is_lower (c : ascii) : bool :=
  let n := nat_of_ascii c in ((97 <=? n) && (n <=? 122))%nat.

(** Some character of [s] is an ASCII lower-case letter. *)
Fixpoint has_lower (s : string) : bool :=
  match s with
  | EmptyString => false
  | String c s' => is_lower c || has_lower s'
  end.

(** The first character of [s] is white space. *)
Definition starts_with_space (s : string) : bool :=
  match s with
  | EmptyString => false
  | String c _ => PyStr.is_space c
  end.

(** The last character of [s] is white space. *)
Fixpoint ends_with_space (s : string) : bool :=
  match s with
  | EmptyString => false
  | String c EmptyString => PyStr.is_space c
  | String _ s' => ends_with_space s'
  end.

(** [s.count(c)] for a character [c]. *)
Fixpoint count (c : ascii) (s : string) : nat :=
  match s with
  | EmptyString => 0
  | String d s' => (if Ascii.eqb d c then 1 else 0) + count c s'
  end.

(** What [upper_symbol] makes of one symbol. *)
Definition normal (s : string) : string := PyStr.upper (PyStr.strip s).

(** [sub in s] for a string [sub]. *)
Fixpoint occurs (sub s : string) : bool :=
  String.prefix sub s
  || match s with
     | EmptyString => false
     | String _ s' => occurs sub s'
     end.

End Chars.

(** ** The constructor of [PortfolioQueryParams] *)

Module PortfolioModel.

(** An instance of [PortfolioQueryParams]: [symbol] is a [str] or a list
    of [str]. *)
Record t : Type := {
  symbol : pyval;
  provider : string;
}.

(** A value of type [str | list[str]]. *)
Definition as_str_or_list (v : pyval) : Pydantic.field pyval :=
  match v with
  | VStr s => Pydantic.Valid (VStr s)
  | VList l =>
      if forallb PortfolioQueryParams.isinstance_str l then Pydantic.Valid (VList l)
      else Pydantic.Invalid "Input should be a valid string"
  | _ => Pydantic.Invalid "Input should be a valid string"
  end.

(** The [symbol] field: absent, the default "AAPL" is taken as it is;
    given, [upper_symbol] runs before the type is checked. *)
Definition field_symbol (kw : gmap string pyval) : outcome (Pydantic.field pyval) :=
  match kw !! "symbol" with
  | None => Ok (Pydantic.Valid (VStr "AAPL"))
  | Some v =>
      match PortfolioQueryParams.upper_symbol v with
      | Ok r => Ok (as_str_or_list r)
      | Raise e =>
          if decide (exn_cls e = "ValueError" ∨ exn_cls e = "AssertionError")
          then Ok (Pydantic.Invalid (exn_msg e))
          else Raise e
      end
  end.

(** The [provider] field; [providers] are the members of
    [OBB_EQUITY_PRICE_HISTORICAL_PROVIDERS], a constant of
    [humbldata.core.utils.constants]. *)
Definition field_provider (providers : list string) (kw : gmap string pyval)
    : Pydantic.field string :=
  match kw !! "provider" with
  | None => Pydantic.Valid "yahoo"
  | Some v => Pydantic.as_literal providers v
  end.

(** The constructor of [PortfolioQueryParams], on keyword arguments [kw]. *)
Definition QueryParams_new (E : Collaborators) (providers : list string)
    (kw : gmap string pyval) : outcome t :=
  obind (field_symbol kw) (λ sy,
  let pr := field_provider providers kw in
  let errs := (Pydantic.errors_of "symbol" sy ++ Pydantic.errors_of "provider" pr
               ++ Pydantic.extra_errors E ["symbol"; "provider"] kw)%list in
  match sy, pr, errs with
  | Pydantic.Valid sy, Pydantic.Valid pr, [] => Ok {| symbol := sy; provider := pr |}
  | _, _, _ => Raise (Pydantic.ValidationError "PortfolioQueryParams" errs)
  end).

End PortfolioModel.

(** ** The field values of a model instance *)

Module Fields.

(** The mapping of the fields of a [MomentumQueryParams] instance. *)
Definition of_momentum (q : Momentum.QueryParams) : gmap string pyval :=
  {[ "method" := VStr (Momentum.method q); "period" := VInt (Momentum.period q) ]}.


End Fields.

(** ** Further sessions *)

Module Cases.

(** A session whose context has no [warnings] attribute. *)
Definition unwarned_session : World :=
  {| context_params :=
       {| Toolbox.symbols := ["AAPL"];
          Toolbox.start_date := None;
          Toolbox.end_date := None;
          Toolbox.provider := "yahoo";
          Toolbox.warnings := None |};
     lists := [];
     provider_calls := [] |}.

(** The provider's table has a [symbol] column already. *)
Definition labelled_prices : Table :=
  [("date", [CDate 19000; CDate 19001]);
   ("symbol", [CStr "aapl"; CStr "aapl"]);
   ("close", [CFloat 4636737291354636288; CFloat 4636807660098813952]);
   ("stock_splits", [CFloat 0; CFloat 0])].

(** The provider returns that table. *)
Definition labelling : Collaborators :=
  {| historical := λ _, Ok labelled_prices;
     momentum := momentum Demo.collaborators;
     calc_mandelbrot_channel := calc_mandelbrot_channel Demo.collaborators;
     _window_format := _window_format Demo.collaborators;
     lax_int := lax_int Demo.collaborators;
     lax_bool := lax_bool Demo.collaborators;
     lax_str := lax_str Demo.collaborators;
     extra_forbid := extra_forbid Demo.collaborators |}.

(** [_window_format] rejects every window, with a [ValueError]. *)
Definition strict_window : Collaborators :=
  {| historical := historical Demo.collaborators;
     momentum := momentum Demo.collaborators;
     calc_mandelbrot_channel := calc_mandelbrot_channel Demo.collaborators;
     _window_format := λ s, Raise (new_exn "ValueError" ("bad window " ++ s));
     lax_int := lax_int Demo.collaborators;
     lax_bool := lax_bool Demo.collaborators;
     lax_str := lax_str Demo.collaborators;
     extra_forbid := extra_forbid Demo.collaborators |}.

(** [_window_format] fails on every window, with a [KeyError]. *)
Definition broken_window : Collaborators :=
  {| historical := historical Demo.collaborators;
     momentum := momentum Demo.collaborators;
     calc_mandelbrot_channel := calc_mandelbrot_channel Demo.collaborators;
     _window_format := λ s, Raise (new_exn "KeyError" s);
     lax_int := lax_int Demo.collaborators;
     lax_bool := lax_bool Demo.collaborators;
     lax_str := lax_str Demo.collaborators;
     extra_forbid := extra_forbid Demo.collaborators |}.

(** [_window_format] abbreviates the unit of the two windows it knows,
    lax mode takes the integers 0 and 1 for booleans, and the models
    forbid undeclared keywords. *)
Definition abbreviating : Collaborators :=
  {| historical := historical Demo.collaborators;
     momentum := momentum Demo.collaborators;
     calc_mandelbrot_channel := calc_mandelbrot_channel Demo.collaborators;
     _window_format :=
       λ s, if String.eqb s "1 month" then Ok "1mo"
            else if String.eqb s "3 months" then Ok "3mo"
            else Raise (new_exn "ValueError" ("bad window " ++ s));
     lax_int := lax_int Demo.collaborators;
     lax_bool :=
       λ v, match v with
            | VInt 0 => Some false
            | VInt 1 => Some true
            | _ => None
            end;
     lax_str := lax_str Demo.collaborators;
     extra_forbid := true |}.

(** Keywords for a [MomentumQueryParams], none at its default. *)
Definition momentum_keywords : gmap string pyval :=
  {[ "method" := VStr "simple"; "period" := VInt 5 ]}.

(** Keywords for a [MandelbrotChannelQueryParams]; [rs_method] and
    [rv_grouped_mean] are left out. *)
Definition channel_keywords : gmap string pyval :=
  {[ "window" := VStr "3 months"; "rv_adjustment" := VBool false;
     "rv_method" := VStr "gk"; "live_price" := VInt 1 ]}.

(** The momentum kernel is interrupted from the keyboard. *)
Definition interrupted : Collaborators :=
  {| historical := historical Demo.collaborators;
     momentum := λ _ _ _, Raise (new_exn "KeyboardInterrupt" "");
     calc_mandelbrot_channel := calc_mandelbrot_channel Demo.collaborators;
     _window_format := _window_format Demo.collaborators;
     lax_int := lax_int Demo.collaborators;
     lax_bool := lax_bool Demo.collaborators;
     lax_str := lax_str Demo.collaborators;
     extra_forbid := extra_forbid Demo.collaborators |}.

End Cases.

(** ** Vocabulary for the statements about the constructors

    What the fields of a model instance hold, told from the keyword
    arguments it was constructed with: the declared default where the
    keyword is absent, and the supplied value, read as the type of the
    field, where it is present. *)

Module Supplied.

(** An [int] field takes an integer as it is, and another value as lax
    mode converts it. *)
Definition read_int (E : Collaborators) (v : pyval) : option Z :=
  match v with
  | VInt z => Some z
  | _ => lax_int E v
  end.

(** A [bool] field. *)
Definition read_bool (E : Collaborators) (v : pyval) : option bool :=
  match v with
  | VBool b => Some b
  | _ => lax_bool E v
  end.

(** A [str] field. *)
Definition read_str (E : Collaborators) (v : pyval) : option string :=
  match v with
  | VStr s => Some s
  | _ => lax_str E v
  end.

(** A [Literal] field takes one of its strings, and nothing else. *)
Definition read_literal (allowed : list string) (v : pyval) : option string :=
  match v with
  | VStr s => if bool_decide (s ∈ allowed) then Some s else None
  | _ => None
  end.

(** The field [name], of default [dflt], holds [a]. *)
Definition holds {A} (kw : gmap string pyval) (name : string) (dflt : A)
    (read : pyval → option A) (a : A) : Prop :=
  match kw !! name with
  | None => a = dflt
  | Some v => read v = Some a
  end.

(** The [window] field holds [w]: the default, or what [_window_format]
    returns for the supplied string. *)
Definition window_holds (E : Collaborators) (kw : gmap string pyval) (w : string) : Prop :=
  match kw !! "window" with
  | None => w = "1mo"
  | Some v => ∃ s, read_str E v = Some s ∧ _window_format E s = Ok w
  end.

(** Where the models forbid undeclared keywords, every keyword of [kw]
    names a declared field. *)
Definition declared_only (E : Collaborators) (declared : list string)
    (kw : gmap string pyval) : Prop :=
  extra_forbid E = true → ∀ k, is_Some (kw !! k) → k ∈ declared.

(** [q] is the instance of [MomentumQueryParams] for the keywords [kw]. *)
Definition momentum_instance (E : Collaborators) (kw : gmap string pyval)
    (q : Momentum.QueryParams) : Prop :=
  holds kw "method" "log" (read_literal Momentum.methods) (Momentum.method q)
  ∧ holds kw "period" 1%Z (read_int E) (Momentum.period q)
  ∧ (1 ≤ Momentum.period q)%Z
  ∧ declared_only E ["method"; "period"] kw.

(** [q] is the instance of [MandelbrotChannelQueryParams] for the keywords
    [kw]. *)
Definition channel_instance (E : Collaborators) (kw : gmap string pyval)
    (q : MandelbrotChannel.QueryParams) : Prop :=
  window_holds E kw (MandelbrotChannel.window q)
  ∧ holds kw "rv_adjustment" true (read_bool E) (MandelbrotChannel.rv_adjustment q)
  ∧ holds kw "rv_method" "std" (read_literal MandelbrotChannel.rv_methods)
      (MandelbrotChannel.rv_method q)
  ∧ holds kw "rs_method" "RS" (read_literal MandelbrotChannel.rs_methods)
      (MandelbrotChannel.rs_method q)
  ∧ holds kw "rv_grouped_mean" false (read_bool E) (MandelbrotChannel.rv_grouped_mean q)
  ∧ holds kw "live_price" false (read_bool E) (MandelbrotChannel.live_price q)
  ∧ declared_only E MandelbrotChannel.declared kw.

(** The keywords a Fetcher's command parameters supply: none for [None],
    those of a mapping; a model instance supplies no keywords. *)
Definition keywords {Q} (c : Pydantic.command_arg Q) : option (gmap string pyval) :=
  match c with
  | Pydantic.CmdNone => Some ∅
  | Pydantic.CmdDict kw => Some kw
  | Pydantic.CmdModel _ => None
  end.

End Supplied.

(** * Properties *)

(** ** The monad *)

Lemma bind_ok {F A B} (m : M F A) (k : A → M F B) (s : State F) b s' :
  bind m k s = (Ok b, s') →
  ∃ a s1, m s = (Ok a, s1) ∧ k a s1 = (Ok b, s').
Proof.
  unfold bind. destruct (m s) as [[a|e] s1]; intros H; [eauto | discriminate].
Qed.

Lemma bind_run {F A B} (m : M F A) (k : A → M F B) (s : State F) a s1 :
  m s = (Ok a, s1) → bind m k s = k a s1.
Proof. unfold bind. intros ->. reflexivity. Qed.

Lemma bind_raise {F A B} (m : M F A) (k : A → M F B) (s : State F) e s1 :
  m s = (Raise e, s1) → bind m k s = (Raise e, s1).
Proof. unfold bind. intros ->. reflexivity. Qed.

Ltac unfold_monad :=
  unfold bind, ret, raise, lift, try_except, get_self, put_self, get_context,
    put_context, alloc, deref, call_provider, getattr, global_name,
    log_start_end in *.

(** ** The stages of [MomentumFetcher], one equation each *)

Module MomentumFacts.
Import Momentum MomentumStages.

Lemma momentum_transform_query_eq E (s : State Fetcher) :
  transform_query E s =
    match query_of E (command_params (self s)) with
    | Ok q => (Ok (), {| world := world s;
                         self := set_command_params (self s) (Pydantic.CmdModel q) |})
    | Raise e => (Raise e, s)
    end.
Proof.
  destruct s as [w f]. unfold transform_query, query_of, update_self.
  unfold_monad. cbn [self world].
  destruct (Pydantic.truthy (command_params f)); cbn [negb].
  - destruct (Pydantic.unpack _ _) as [kw|e]; cbn [obind]; [|reflexivity].
    destruct (QueryParams_new E kw); reflexivity.
  - destruct (QueryParams_new E ∅); reflexivity.
Qed.

Lemma momentum_extract_data_eq E (s : State Fetcher) :
  let c := context_params (world s) in
  extract_data E s =
    match historical E (request_of c) with
    | Ok t => (Ok (), {| world := called (request_of c) (world s);
                         self := set_equity_historical_data (self s)
                                   (extracted (Toolbox.symbols c) t) |})
    | Raise e => (Raise e, {| world := called (request_of c) (world s);
                              self := self s |})
    end.
Proof.
  destruct s as [w f]. unfold extract_data, update_self, called.
  unfold_monad. cbn [self world context_params].
  destruct (historical E _) as [t|e]; [|reflexivity].
  destruct (Toolbox.symbols (context_params w)) as [|sym [|sym' syms]];
    reflexivity.
Qed.

Lemma momentum_transform_data_eq E (s : State Fetcher) x data q :
  extra (self s) = Some x →
  equity_historical_data (self s) = Some data →
  command_params (self s) = Pydantic.CmdModel q →
  transform_data E s =
    match momentum E data (method q) (period q) with
    | Ok out =>
        (Ok (), {| world := world s;
                   self := set_transformed_data (set_extra (self s) (recorded x)) out |})
    | Raise e =>
        (Raise (if isinstance_Exception e
                then Exn "NameError" "name 'HumblDataError' is not defined" None (Some e)
                else e),
         {| world := world s; self := set_extra (self s) (recorded x) |})
    end.
Proof.
  destruct s as [w f]. cbn [self world]. intros Hx Hd Hq.
  unfold transform_data, command_field, update_self.
  destruct f as [cp wl ex ch eh td]; cbn in Hx, Hd, Hq; subst.
  unfold_monad. cbn.
  destruct (momentum E data _ _) as [out|e]; [reflexivity|].
  cbn. destruct (isinstance_Exception e); [|reflexivity].
  destruct (decide _) as [Hin|Hnot]; [|reflexivity].
  exfalso. revert Hin. unfold module_globals. rewrite !elem_of_cons, elem_of_nil.
  intros H. repeat (destruct H as [H|H]; [discriminate H|]). exact H.
Qed.

End MomentumFacts.

(** ** List objects *)

Lemma lookup_fresh {A} (ls : list A) (v : A) : (ls ++ [v])%list !! length ls = Some v.
Proof. rewrite lookup_app_r by lia. rewrite Nat.sub_diag. reflexivity. Qed.

(** Reading through an address that the store does not hold, before or
    after an empty list has been created, gives no elements. *)
Lemma deref_snoc_nil {A} (ls : list (list A)) (l : nat) :
  default [] ((ls ++ [[]])%list !! l) = default [] (ls !! l).
Proof.
  destruct (decide (l < length ls)%nat) as [Hlt|Hge].
  - rewrite lookup_app_l by exact Hlt. reflexivity.
  - rewrite lookup_app_r by lia. rewrite (lookup_ge_None_2 ls l) by lia.
    destruct (l - length ls)%nat as [|n]; [reflexivity|].
    destruct n; reflexivity.
Qed.

Module MomentumFetch.
Import Momentum MomentumStages MomentumFacts.

Lemma momentum_transform_data_ok E (s s' : State Fetcher) :
  transform_data E s = (Ok (), s') →
  ∃ x data q out,
    extra (self s) = Some x ∧
    equity_historical_data (self s) = Some data ∧
    command_params (self s) = Pydantic.CmdModel q ∧
    momentum E data (method q) (period q) = Ok out ∧
    s' = {| world := world s;
            self := set_transformed_data (set_extra (self s) (recorded x)) out |}.
Proof.
  intros H.
  destruct (extra (self s)) as [x|] eqn:Hx.
  2: { exfalso. destruct s as [w [cp wl ex ch eh td]]. cbn in Hx. subst.
       unfold transform_data, command_field, update_self in H. unfold_monad.
       cbn in H. discriminate. }
  destruct (equity_historical_data (self s)) as [data|] eqn:Hd.
  2: { exfalso. destruct s as [w [cp wl ex ch eh td]]. cbn in Hx, Hd. subst.
       unfold transform_data, command_field, update_self in H. unfold_monad.
       cbn in H. discriminate. }
  destruct (command_params (self s)) as [|kw|q] eqn:Hq.
  3: { rewrite (momentum_transform_data_eq E s x data q Hx Hd Hq) in H.
       destruct (momentum E data _ _) as [out|e] eqn:Hk; [|discriminate].
       injection H as <-. eauto 10. }
  all: exfalso; destruct s as [w [cp wl ex ch eh td]]; cbn in Hx, Hd, Hq; subst;
    unfold transform_data, command_field, update_self in H; unfold_monad;
    cbn in H; discriminate.
Qed.

(** A successful [fetch_data], taken apart. *)
Lemma momentum_fetch_data_ok E (s s' : State Fetcher) env :
  fetch_data E s = (Ok env, s') →
  let c := context_params (world s) in
  ∃ q t x out l,
    query_of E (command_params (self s)) = Ok q ∧
    historical E (request_of c) = Ok t ∧
    extra (self s) = Some x ∧
    momentum E (extracted (Toolbox.symbols c) t) (method q) (period q) = Ok out ∧
    HumblObject.results env = Frame out ∧
    HumblObject.provider env = Toolbox.provider c ∧
    HumblObject.chart env = chart (self s) ∧
    HumblObject.command_params env = Some (Pydantic.CmdModel q) ∧
    HumblObject.extra env = Some (recorded x) ∧
    HumblObject.warnings env = Some l ∧
    (length (lists (world s)) ≤ l)%nat ∧
    lists (world s') !! l
      = Some (warnings_of (world s) (Toolbox.warnings c)
              ++ warnings_of (world s) (warnings (self s)))%list ∧
    lists (world s) `prefix_of` lists (world s') ∧
    (∀ lc, Toolbox.warnings c = Some lc →
           Toolbox.warnings (context_params (world s')) = Some lc) ∧
    provider_calls (world s') = (provider_calls (world s) ++ [request_of c])%list ∧
    chart (self s') = chart (self s).
Proof.
  intros H c. unfold fetch_data, log_start_end in H.
  apply bind_ok in H as ([] & s1 & H1 & H).
  rewrite momentum_transform_query_eq in H1.
  destruct (query_of E _) as [q|] eqn:Hq; [|discriminate]. injection H1 as <-.
  apply bind_ok in H as ([] & s2 & H2 & H).
  rewrite momentum_extract_data_eq in H2. cbn [world self] in H2. fold c in H2.
  destruct (historical E _) as [t|] eqn:Ht; [|discriminate]. injection H2 as <-.
  apply bind_ok in H as ([] & s3 & H3 & H).
  apply momentum_transform_data_ok in H3 as (x & data & q' & out & Hx & Hd & Hq' & Hk & ->).
  cbn in Hx, Hd, Hq'. injection Hd as <-. injection Hq' as <-.
  exists q, t, x, out.
  destruct s as [[c0 ls pc] [cp wl ex ch eh td]]. subst c. cbn in *. subst ex.
  unfold update_self in H. unfold_monad. cbn in H.
  destruct (Toolbox.warnings c0) as [lc|] eqn:Hc, wl as [lf|]; cbn in H.
  all: rewrite ?Hc in H; cbn in H.
  all: injection H as <- <-; cbn.
  all: eexists; repeat split; try reflexivity; try congruence.
  all: try (rewrite ?length_app; cbn; lia).
  all: try (rewrite <- ?app_assoc; apply prefix_app_r; reflexivity).
  - apply lookup_fresh.
  - rewrite lookup_fresh, lookup_fresh, deref_snoc_nil. reflexivity.
  - rewrite lookup_fresh, lookup_fresh, deref_snoc_nil. reflexivity.
  - rewrite lookup_fresh. f_equal.
    rewrite (lookup_fresh (ls ++ [[]])%list).
    rewrite lookup_app_l by (rewrite length_app; cbn; lia).
    rewrite lookup_fresh. reflexivity.
Qed.

End MomentumFetch.

(** ** The stages of [MandelbrotChannelFetcher] *)

Module MandelbrotFacts.
Import MandelbrotChannel MandelbrotStages.

Lemma channel_transform_query_ok E (s : State Fetcher) q :
  query_of E (command_params (self s)) = Ok q →
  transform_query E s =
    (Ok (), {| world := world s;
               self := set_command_params (self s) (Pydantic.CmdModel q) |}).
Proof.
  destruct s as [w f]. unfold transform_query, query_of, update_self.
  unfold_monad. cbn [self world].
  destruct (Pydantic.truthy (command_params f)); cbn [negb].
  - destruct (Pydantic.unpack _ _) as [kw|e]; cbn [obind]; [|discriminate].
    intros ->. reflexivity.
  - cbn. intros ->. reflexivity.
Qed.

Lemma channel_transform_query_raise E (s : State Fetcher) e :
  query_of E (command_params (self s)) = Raise e →
  ∃ s', transform_query E s = (Raise e, s') ∧ world s' = world s.
Proof.
  destruct s as [w f]. unfold transform_query, query_of, update_self.
  unfold_monad. cbn [self world].
  destruct (Pydantic.truthy (command_params f)); cbn [negb].
  - destruct (Pydantic.unpack _ _) as [kw|e']; cbn [obind].
    + intros ->. eauto.
    + intros [= ->]. eauto.
  - cbn. intros ->. eauto.
Qed.

Lemma channel_transform_query_inv E (s s' : State Fetcher) :
  transform_query E s = (Ok (), s') →
  ∃ q, query_of E (command_params (self s)) = Ok q ∧
       s' = {| world := world s;
               self := set_command_params (self s) (Pydantic.CmdModel q) |}.
Proof.
  intros H. destruct (query_of E (command_params (self s))) as [q|e] eqn:Hq.
  - rewrite (channel_transform_query_ok E s q Hq) in H. injection H as <-. eauto.
  - destruct (channel_transform_query_raise E s e Hq) as (s1 & H1 & _). congruence.
Qed.

Lemma channel_extract_data_eq E (s : State Fetcher) :
  let c := context_params (world s) in
  extract_data E s =
    (match historical E (request_of c) with
     | Ok t => Ok (extracted (Toolbox.symbols c) t)
     | Raise e => Raise e
     end,
     {| world := called (request_of c) (world s); self := self s |}).
Proof.
  destruct s as [w f]. unfold extract_data, called.
  unfold_monad. cbn [self world context_params].
  destruct (historical E _) as [t|e]; [|reflexivity].
  destruct (Toolbox.symbols (context_params w)) as [|sym [|sym' syms]];
    reflexivity.
Qed.

Lemma channel_transform_data_eq E (s : State Fetcher) data q :
  equity_historical_data (self s) = Some data →
  command_params (self s) = Pydantic.CmdModel q →
  transform_data E s = (kernel E data q, s).
Proof.
  destruct s as [w [cp eh td]]. cbn. intros -> ->.
  unfold transform_data, command_field, kernel. unfold_monad. cbn.
  reflexivity.
Qed.

(** A successful [fetch_data], taken apart. *)
Lemma channel_fetch_data_ok E (s s' : State Fetcher) env :
  fetch_data E s = (Ok env, s') →
  let c := context_params (world s) in
  ∃ q t out,
    query_of E (command_params (self s)) = Ok q ∧
    historical E (request_of c) = Ok t ∧
    kernel E (extracted (Toolbox.symbols c) t) q = Ok out ∧
    conforms MandelbrotChannelData out = true ∧
    env = {| HumblObject.results := Serialized out;
             HumblObject.provider := Toolbox.provider c;
             HumblObject.warnings := None;
             HumblObject.chart := None;
             HumblObject.context_params := None;
             HumblObject.command_params := None;
             HumblObject.extra := None;
             HumblObject._context_params := Some ContextObject;
             HumblObject._command_params := Some (Pydantic.CmdModel q) |} ∧
    world s' = called (request_of c) (world s).
Proof.
  intros H c. unfold fetch_data in H.
  apply bind_ok in H as ([] & s1 & H1 & H).
  apply channel_transform_query_inv in H1 as (q & Hq & ->).
  apply bind_ok in H as (t' & s2 & H2 & H).
  rewrite channel_extract_data_eq in H2. cbn [world self] in H2. fold c in H2.
  destruct (historical E _) as [t|] eqn:Ht; [|discriminate].
  injection H2 as Ht' Hs2. subst t' s2.
  apply bind_ok in H as ([] & s3 & H3 & H).
  unfold update_self in H3. unfold_monad. injection H3 as <-. cbn [self world] in H.
  apply bind_ok in H as (out & s4 & H4 & H).
  rewrite (channel_transform_data_eq E _ (extracted (Toolbox.symbols c) t) q) in H4
    by reflexivity.
  injection H4 as Hk <-.
  exists q, t, out. unfold Data_validate, update_self in H.
  destruct (conforms MandelbrotChannelData out) eqn:Hv;
    unfold_monad; cbn in H; [|discriminate].
  injection H as <- <-. repeat split; try assumption; reflexivity.
Qed.

End MandelbrotFacts.

(** ** Frames *)

Module PolarsFacts.
Import Polars.

Lemma get_column_replace name c t :
  name ∈ columns t → get_column name (replace_column name c t) = Some c.
Proof.
  unfold columns. induction t as [|[n old] rest IH]; cbn.
  - intros H. inversion H.
  - intros H. destruct (decide (n = name)) as [->|Hne]; cbn.
    + rewrite decide_True by reflexivity. reflexivity.
    + rewrite decide_False by exact Hne. apply IH.
      apply elem_of_cons in H as [H|H]; [congruence | exact H].
Qed.

Lemma get_column_append name c t :
  name ∉ columns t → get_column name (t ++ [(name, c)])%list = Some c.
Proof.
  unfold columns. induction t as [|[n old] rest IH]; cbn.
  - intros _. rewrite decide_True by reflexivity. reflexivity.
  - intros H. apply not_elem_of_cons in H as [Hne Hrest].
    rewrite decide_False by congruence. apply IH, Hrest.
Qed.

Lemma get_column_replace_ne name n c t :
  n ≠ name → get_column n (replace_column name c t) = get_column n t.
Proof.
  intros Hne. induction t as [|[m old] rest IH]; cbn; [reflexivity|].
  destruct (decide (m = name)) as [->|Hm]; cbn.
  - rewrite !decide_False by congruence. reflexivity.
  - destruct (decide (m = n)); [reflexivity | exact IH].
Qed.

Lemma get_column_append_ne name n c t :
  n ≠ name → get_column n (t ++ [(name, c)])%list = get_column n t.
Proof.
  intros Hne. induction t as [|[m old] rest IH]; cbn.
  - rewrite decide_False by congruence. reflexivity.
  - destruct (decide (m = n)); [reflexivity | exact IH].
Qed.

(** After [with_columns(name=pl.lit(v))] the column [name] holds [v] in
    every row. *)
Lemma with_columns_lit_column name v t :
  get_column name (with_columns_lit name v t)
  = Some (replicate (match t with [] => 1 | _ => height t end) v).
Proof.
  unfold with_columns_lit. destruct (decide (name ∈ columns t)).
  - apply get_column_replace. assumption.
  - apply get_column_append. assumption.
Qed.

(** ... and every other column is as it was. *)
Lemma with_columns_lit_other name n v t :
  n ≠ name → get_column n (with_columns_lit name v t) = get_column n t.
Proof.
  intros Hne. unfold with_columns_lit. destruct (decide (name ∈ columns t)).
  - apply get_column_replace_ne. assumption.
  - apply get_column_append_ne. assumption.
Qed.

End PolarsFacts.

(** ** The envelope's warnings *)

(** C1, as stated, fails on [MandelbrotChannelFetcher]: in a session whose
    context carries the warnings [A, B], a successful [fetch_data] returns an
    envelope whose [warnings] is [None], not a list [A, B, C]. *)
Lemma C1_mandelbrot_envelope_without_warnings :
  ∃ env s',
    MandelbrotChannel.fetch_data Demo.collaborators
      (MandelbrotChannel.__init__ Pydantic.CmdNone Demo.session) = (Ok env, s')
    ∧ context_warnings Demo.session = Some ["A"; "B"]
    ∧ HumblObject.warnings env = None
    ∧ envelope_warnings (world s') env ≠ Some ["A"; "B"; "C"].
Proof.
  eexists _, _. split; [vm_compute; reflexivity|].
  split; [reflexivity|]. split; [reflexivity|]. discriminate.
Qed.

(** C1, amended: for every successful [fetch_data] of a [MomentumFetcher]
    whose context carries the warnings [wc] (such as [A, B]) and whose own
    warnings are [wl] (such as [C]), the envelope's warnings are exactly
    [wc ++ wl], held in a list object of their own, created by the call;
    after the call the context's warnings are still [wc], and so is every
    list object that existed before. *)
Theorem C1_momentum_warnings_merged
    E (s s' : State Momentum.Fetcher) env (lc lf : loc) (wc wl : list Warning_) :
  Toolbox.warnings (context_params (world s)) = Some lc →
  lists (world s) !! lc = Some wc →
  Momentum.warnings (self s) = Some lf →
  lists (world s) !! lf = Some wl →
  Momentum.fetch_data E s = (Ok env, s') →
  envelope_warnings (world s') env = Some (wc ++ wl)%list
  ∧ context_warnings (world s') = Some wc
  ∧ (∃ l, HumblObject.warnings env = Some l ∧ lists (world s) !! l = None)
  ∧ (∀ l v, lists (world s) !! l = Some v → lists (world s') !! l = Some v).
Proof.
  intros Hlc Hwc Hlf Hwl H.
  apply MomentumFetch.momentum_fetch_data_ok in H
    as (q & t & x & out & l & _ & _ & _ & _ & _ & _ & _ & _ & _
        & Hl & Hfresh & Hmerged & Hprefix & Hctx & _).
  rewrite Hlc, Hlf in Hmerged. cbn in Hmerged. rewrite Hwc, Hwl in Hmerged.
  cbn in Hmerged.
  assert (Hkept : ∀ l v, lists (world s) !! l = Some v → lists (world s') !! l = Some v).
  { intros l' v Hv. eapply prefix_lookup_Some; eassumption. }
  repeat split.
  - unfold envelope_warnings. rewrite Hl. exact Hmerged.
  - unfold context_warnings. rewrite (Hctx lc Hlc). apply Hkept, Hwc.
  - exists l. split; [exact Hl|]. apply lookup_ge_None_2. exact Hfresh.
  - exact Hkept.
Qed.

(** The merge on a session with the context warnings A, B and the Fetcher's
    own warning C. *)
Lemma C1_momentum_warnings_merged_witness :
  ∃ env s',
    Momentum.fetch_data Demo.collaborators Demo.warned = (Ok env, s')
    ∧ (envelope_warnings (world s') env = Some ["A"; "B"; "C"]
       ∧ context_warnings (world s') = Some ["A"; "B"]
       ∧ (∃ l, HumblObject.warnings env = Some l
               ∧ lists (world Demo.warned) !! l = None)
       ∧ (∀ l v, lists (world Demo.warned) !! l = Some v
                 → lists (world s') !! l = Some v)).
Proof.
  eexists _, _. split; [vm_compute; reflexivity|].
  apply (C1_momentum_warnings_merged Demo.collaborators Demo.warned _ _
           0%nat 1%nat ["A"; "B"] ["C"]); reflexivity.
Defined.

(** ** [fetch_data], run forwards *)

Module MandelbrotFetch.
Import MandelbrotChannel MandelbrotStages MandelbrotFacts.

Lemma channel_fetch_data_provider_raise E (s : State Fetcher) q e :
  let c := context_params (world s) in
  query_of E (command_params (self s)) = Ok q →
  historical E (request_of c) = Raise e →
  fetch_data E s
  = (Raise e, {| world := called (request_of c) (world s);
                 self := set_command_params (self s) (Pydantic.CmdModel q) |}).
Proof.
  intros c Hq Ht. unfold fetch_data.
  rewrite (bind_run _ _ _ _ _ (channel_transform_query_ok E s q Hq)).
  apply bind_raise. rewrite channel_extract_data_eq. cbn [world self]. fold c.
  rewrite Ht. reflexivity.
Qed.

Lemma channel_fetch_data_run E (s : State Fetcher) q t :
  let c := context_params (world s) in
  query_of E (command_params (self s)) = Ok q →
  historical E (request_of c) = Ok t →
  fst (fetch_data E s)
  = match kernel E (extracted (Toolbox.symbols c) t) q with
    | Ok out =>
        match Data_validate "MandelbrotChannelData" MandelbrotChannelData out with
        | Ok validated =>
            Ok {| HumblObject.results := Serialized validated;
                  HumblObject.provider := Toolbox.provider c;
                  HumblObject.warnings := None;
                  HumblObject.chart := None;
                  HumblObject.context_params := None;
                  HumblObject.command_params := None;
                  HumblObject.extra := None;
                  HumblObject._context_params := Some ContextObject;
                  HumblObject._command_params := Some (Pydantic.CmdModel q) |}
        | Raise e => Raise e
        end
    | Raise e => Raise e
    end.
Proof.
  intros c Hq Ht. unfold fetch_data.
  rewrite (bind_run _ _ _ _ _ (channel_transform_query_ok E s q Hq)).
  erewrite bind_run; cycle 1.
  { rewrite channel_extract_data_eq. cbn [world self]. fold c. rewrite Ht. reflexivity. }
  erewrite bind_run by (unfold update_self; unfold_monad; reflexivity).
  cbn [self world].
  unfold bind at 1.
  rewrite (channel_transform_data_eq E _ (extracted (Toolbox.symbols c) t) q)
    by reflexivity.
  destruct (kernel E _ q) as [out|e]; [|reflexivity].
  unfold update_self. unfold_monad.
  destruct (Data_validate _ _ out); reflexivity.
Qed.

End MandelbrotFetch.

Module MomentumRun.
Import Momentum MomentumStages MomentumFacts.

Lemma momentum_transform_query_ok E (s : State Fetcher) q :
  query_of E (command_params (self s)) = Ok q →
  transform_query E s
  = (Ok (), {| world := world s;
               self := set_command_params (self s) (Pydantic.CmdModel q) |}).
Proof. intros Hq. rewrite momentum_transform_query_eq, Hq. reflexivity. Qed.

Lemma momentum_fetch_data_provider_raise E (s : State Fetcher) q e :
  let c := context_params (world s) in
  query_of E (command_params (self s)) = Ok q →
  historical E (request_of c) = Raise e →
  fetch_data E s
  = (Raise e, {| world := called (request_of c) (world s);
                 self := set_command_params (self s) (Pydantic.CmdModel q) |}).
Proof.
  intros c Hq Ht. unfold fetch_data, log_start_end.
  rewrite (bind_run _ _ _ _ _ (momentum_transform_query_ok E s q Hq)).
  apply bind_raise. rewrite momentum_extract_data_eq. cbn [world self]. fold c.
  rewrite Ht. reflexivity.
Qed.

Lemma momentum_fetch_data_query_raise E (s : State Fetcher) e :
  query_of E (command_params (self s)) = Raise e →
  fetch_data E s = (Raise e, s).
Proof.
  intros Hq. unfold fetch_data, log_start_end.
  apply bind_raise. rewrite momentum_transform_query_eq, Hq. reflexivity.
Qed.

End MomentumRun.

(** ** Failures of [transform_data] *)

Example momentum_transform_data_handler :
  fst (Momentum.transform_data Demo.failing_kernel Demo.momentum_ready)
  = Raise (Exn "NameError" "name 'HumblDataError' is not defined" None
             (Some (new_exn "ComputeError" "close column is missing"))).
Proof. vm_compute. reflexivity. Qed.

(** [MandelbrotChannelFetcher.transform_data] has no handler: an exception
    of the kernel leaves it as it is, and the kernel's output is returned
    as it is; the schema is checked by [fetch_data] afterwards, where a
    frame that does not conform raises the validator's own exception. *)
Lemma channel_transform_data_unhandled E :
  (∀ (s : State MandelbrotChannel.Fetcher) data q e,
     MandelbrotChannel.equity_historical_data (self s) = Some data →
     MandelbrotChannel.command_params (self s) = Pydantic.CmdModel q →
     MandelbrotStages.kernel E data q = Raise e →
     MandelbrotChannel.transform_data E s = (Raise e, s))
  ∧ (∀ (s : State MandelbrotChannel.Fetcher) data q out,
     MandelbrotChannel.equity_historical_data (self s) = Some data →
     MandelbrotChannel.command_params (self s) = Pydantic.CmdModel q →
     MandelbrotStages.kernel E data q = Ok out →
     MandelbrotChannel.transform_data E s = (Ok out, s))
  ∧ (∀ (s : State MandelbrotChannel.Fetcher) q t out,
     let c := context_params (world s) in
     MandelbrotStages.query_of E (MandelbrotChannel.command_params (self s)) = Ok q →
     historical E (MandelbrotChannel.request_of c) = Ok t →
     MandelbrotStages.kernel E (MandelbrotStages.extracted (Toolbox.symbols c) t) q
       = Ok out →
     conforms MandelbrotChannelData out = false →
     ∃ e, Data_validate "MandelbrotChannelData" MandelbrotChannelData out = Raise e
          ∧ fst (MandelbrotChannel.fetch_data E s) = Raise e).
Proof.
  split; [|split].
  - intros s data q e Hd Hq Hk.
    rewrite (MandelbrotFacts.channel_transform_data_eq E s data q Hd Hq), Hk. reflexivity.
  - intros s data q out Hd Hq Hk.
    rewrite (MandelbrotFacts.channel_transform_data_eq E s data q Hd Hq), Hk. reflexivity.
  - intros s q t out c Hq Ht Hk Hv.
    rewrite (MandelbrotFetch.channel_fetch_data_run E s q t Hq Ht). fold c. rewrite Hk.
    unfold Data_validate. rewrite Hv. eauto.
Qed.

(** C2 fails on the code: the kernels below raise polars'
    [ComputeError] with the message "close column is missing", an
    [Exception]. In [MomentumFetcher.transform_data] the handler is
    entered, and its [raise] evaluates the name [HumblDataError], which
    [momentum.py] neither imports nor defines: what leaves the stage, and
    [fetch_data], is a [NameError], whose message is "name
    'HumblDataError' is not defined" and has no part of the kernel's
    message; no cause is set, the kernel's exception is only the context
    it was raised in. [MandelbrotChannelFetcher.transform_data], which has
    no handler, lets the same [ComputeError] out as it is. *)
Theorem C2_kernel_exception_is_not_wrapped :
  let e := new_exn "ComputeError" "close column is missing" in
  let raised :=
    Exn "NameError" "name 'HumblDataError' is not defined" None (Some e) in
  momentum Demo.failing_kernel Demo.prices "log" 1 = Raise e
  ∧ isinstance_Exception e = true
  ∧ ("HumblDataError" ∉ Momentum.module_globals)
  ∧ fst (Momentum.transform_data Demo.failing_kernel Demo.momentum_ready) = Raise raised
  ∧ fst (Momentum.fetch_data Demo.failing_kernel
           (Momentum.__init__ Pydantic.CmdNone Demo.session)) = Raise raised
  ∧ exn_cls raised ≠ "HumblDataError"
  ∧ Chars.occurs (exn_msg e) (exn_msg raised) = false
  ∧ exn_cause raised = None
  ∧ MandelbrotStages.kernel Demo.failing_kernel Demo.prices Demo.channel_defaults
    = Raise e
  ∧ MandelbrotChannel.transform_data Demo.failing_kernel Demo.channel_ready
    = (Raise e, Demo.channel_ready).
Proof.
  cbv zeta. repeat apply conj; try (vm_compute; reflexivity).
  - unfold Momentum.module_globals. rewrite !elem_of_cons, elem_of_nil.
    intros H. repeat (destruct H as [H|H]; [discriminate H|]). exact H.
  - discriminate.
Qed.

(** ** Calculation metadata *)

(** Whatever the command parameters, a successful [fetch_data] of a
    [MomentumFetcher] records the method "log" and the period 1. *)
Lemma momentum_extra_is_constant E (s s' : State Momentum.Fetcher) env :
  Momentum.fetch_data E s = (Ok env, s') →
  extra_entry env "calculation_method" = Some (VStr "log")
  ∧ extra_entry env "period" = Some (VInt 1).
Proof.
  intros H. apply MomentumFetch.momentum_fetch_data_ok in H
    as (q & t & x & out & l & _ & _ & _ & _ & _ & _ & _ & _ & Hx & _).
  unfold extra_entry. rewrite Hx. unfold MomentumStages.recorded. split.
  - apply lookup_insert_eq.
  - rewrite lookup_insert_ne by discriminate. apply lookup_insert_eq.
Qed.

(** C3 fails on the code: with the command parameters method = "simple" and
    period = 5 the fetch succeeds, the kernel is applied to "simple" and 5
    (the envelope's command parameters and the kernel's trace in the results
    say so), and the envelope's [extra] records "log" and 1. *)
Theorem C3_momentum_extra_ignores_command_params :
  let kw : gmap string pyval := {[ "method" := VStr "simple"; "period" := VInt 5 ]} in
  ∃ env s' t,
    Momentum.fetch_data Demo.tracing
      (Momentum.__init__ (Pydantic.CmdDict kw) Demo.session) = (Ok env, s')
    ∧ HumblObject.command_params env
      = Some (Pydantic.CmdModel {| Momentum.method := "simple"; Momentum.period := 5 |})
    ∧ HumblObject.results env = Frame t
    ∧ Polars.get_column "simple" t = Some [CInt 5; CInt 5]
    ∧ extra_entry env "calculation_method" = Some (VStr "log")
    ∧ extra_entry env "period" = Some (VInt 1).
Proof.
  cbv zeta. eexists _, _, _.
  split; [vm_compute; reflexivity|].
  repeat split; vm_compute; reflexivity.
Qed.

(** ** A provider that raises *)

(** C4, as stated, fails: when the provider raises a [ConnectionError],
    [fetch_data] raises that [ConnectionError], not an [ExtractionError]
    with the fault attached as its cause. *)
Lemma C4_provider_exception_is_not_wrapped :
  let e := new_exn "ConnectionError" "provider unreachable" in
  historical Demo.offline (Momentum.request_of Demo.context) = Raise e
  ∧ fst (Momentum.fetch_data Demo.offline
           (Momentum.__init__ Pydantic.CmdNone Demo.session)) = Raise e
  ∧ fst (MandelbrotChannel.fetch_data Demo.offline
           (MandelbrotChannel.__init__ Pydantic.CmdNone Demo.session)) = Raise e
  ∧ exn_cls e ≠ "ExtractionError"
  ∧ exn_cause e = None.
Proof. cbv zeta. repeat split; try (vm_compute; reflexivity). discriminate. Qed.

(** C4, amended: for every fetch in which the provider call raises, that
    is, [transform_query] has succeeded and the call made by [extract_data]
    raises [e], [fetch_data] raises [e] itself, unchanged and unwrapped, and
    returns no envelope; this holds for both fetchers. *)
Theorem C4_provider_exception_propagates E e :
  (∀ (s s1 : State Momentum.Fetcher),
     Momentum.transform_query E s = (Ok (), s1) →
     historical E (Momentum.request_of (context_params (world s1))) = Raise e →
     ∃ s', Momentum.fetch_data E s = (Raise e, s'))
  ∧ (∀ (s s1 : State MandelbrotChannel.Fetcher),
     MandelbrotChannel.transform_query E s = (Ok (), s1) →
     historical E (MandelbrotChannel.request_of (context_params (world s1))) = Raise e →
     ∃ s', MandelbrotChannel.fetch_data E s = (Raise e, s')).
Proof.
  split.
  - intros s s1 Hq Hp. rewrite MomentumFacts.momentum_transform_query_eq in Hq.
    destruct (MomentumStages.query_of E _) as [q|] eqn:Hquery; [|discriminate].
    injection Hq as <-. cbn [world] in Hp.
    rewrite (MomentumRun.momentum_fetch_data_provider_raise E s q e Hquery Hp). eauto.
  - intros s s1 Hq Hp.
    apply MandelbrotFacts.channel_transform_query_inv in Hq as (q & Hquery & ->).
    cbn [world] in Hp.
    rewrite (MandelbrotFetch.channel_fetch_data_provider_raise E s q e Hquery Hp). eauto.
Qed.

(** Both fetchers against a provider that is down. *)
Lemma C4_provider_exception_propagates_witness :
  let e := new_exn "ConnectionError" "provider unreachable" in
  (∃ s', Momentum.fetch_data Demo.offline
           (Momentum.__init__ Pydantic.CmdNone Demo.session) = (Raise e, s'))
  ∧ (∃ s', MandelbrotChannel.fetch_data Demo.offline
             (MandelbrotChannel.__init__ Pydantic.CmdNone Demo.session) = (Raise e, s')).
Proof.
  cbv zeta. split.
  - eapply (proj1 (C4_provider_exception_propagates Demo.offline _)
              (Momentum.__init__ Pydantic.CmdNone Demo.session));
      vm_compute; reflexivity.
  - eapply (proj2 (C4_provider_exception_propagates Demo.offline _)
              (MandelbrotChannel.__init__ Pydantic.CmdNone Demo.session));
      vm_compute; reflexivity.
Defined.

(** ** Schema validation of the results *)

(** The results of every successful [fetch_data] of a
    [MandelbrotChannelFetcher] conform to [MandelbrotChannelData]. *)
Lemma mandelbrot_results_validated E (s s' : State MandelbrotChannel.Fetcher) env :
  MandelbrotChannel.fetch_data E s = (Ok env, s') →
  ∃ out, HumblObject.results env = Serialized out
         ∧ Data_validate "MandelbrotChannelData" MandelbrotChannelData out = Ok out.
Proof.
  intros H. apply MandelbrotFacts.channel_fetch_data_ok in H
    as (q & t & out & _ & _ & _ & Hv & -> & _).
  exists out. split; [reflexivity|]. unfold Data_validate. rewrite Hv. reflexivity.
Qed.

(** C5 fails on the code: [MomentumFetcher.fetch_data] succeeds and puts
    into the envelope a frame that [MomentumData] rejects; the frame has six
    columns the schema does not declare and lacks [example_column], the one
    it declares. *)
Theorem C5_momentum_results_not_validated :
  ∃ env s' t e,
    Momentum.fetch_data Demo.collaborators
      (Momentum.__init__ Pydantic.CmdNone Demo.session) = (Ok env, s')
    ∧ HumblObject.results env = Frame t
    ∧ Polars.columns t
      = ["date"; "close"; "dividends"; "stock_splits"; "symbol"; "momentum"]
    ∧ Polars.get_column "example_column" t = None
    ∧ Data_validate "MomentumData" MomentumData t = Raise e.
Proof.
  eexists _, _, _, _.
  split; [vm_compute; reflexivity|].
  repeat split; vm_compute; reflexivity.
Qed.

(** ** Symbol normalization *)

Module SymbolFacts.
Import PortfolioQueryParams.

Lemma split_without_sep sep s :
  PyStr.contains sep s = false → PyStr.split sep s = [s].
Proof.
  induction s as [|c s IH]; cbn [PyStr.contains PyStr.split]; [reflexivity|].
  intros H. apply orb_false_iff in H as [Hc Hs].
  rewrite Hc, (IH Hs). reflexivity.
Qed.

Lemma split_app_sep sep s r :
  PyStr.contains sep s = false →
  PyStr.split sep (s ++ String sep r) = s :: PyStr.split sep r.
Proof.
  induction s as [|c s IH].
  - intros _. change (EmptyString ++ String sep r) with (String sep r).
    cbn [PyStr.split]. rewrite Ascii.eqb_refl. reflexivity.
  - cbn [PyStr.contains]. intros H. apply orb_false_iff in H as [Hc Hs].
    change (String c s ++ String sep r) with (String c (s ++ String sep r)).
    cbn [PyStr.split]. rewrite Hc, (IH Hs). reflexivity.
Qed.

(** Splitting what [join] has joined gives the elements back, when there
    is at least one and none contains the separator. *)
Lemma split_join sep (l : list string) :
  l ≠ [] →
  Forall (λ s, PyStr.contains sep s = false) l →
  PyStr.split sep (PyStr.join (String sep EmptyString) l) = l.
Proof.
  intros Hne Hl. induction Hl as [|x l Hx Hl IH]; [congruence|].
  destruct l as [|y ys].
  - cbn. apply split_without_sep, Hx.
  - change (PyStr.join (String sep EmptyString) (x :: y :: ys))
      with (x ++ String sep (PyStr.join (String sep EmptyString) (y :: ys))).
    rewrite (split_app_sep _ _ _ Hx), IH by discriminate. reflexivity.
Qed.

Lemma all_strip_str_strings (l : list string) :
  all_strip_str (VStr <$> l) = Ok true.
Proof. induction l as [|x l IH]; cbn; [reflexivity | exact IH]. Qed.

Lemma strip_upper_all_strings (l : list string) :
  strip_upper_all (VStr <$> l)
  = Ok (VStr <$> ((λ s, PyStr.upper (PyStr.strip s)) <$> l)).
Proof.
  induction l as [|x l IH]; cbn; [reflexivity|].
  change (strip_upper_all (VStr <$> l)) with (strip_upper_all (fmap VStr l)) in IH.
  cbn in IH. rewrite IH. reflexivity.
Qed.

(** On a collection of strings the validator trims and upper-cases every
    element, keeping order and repetitions. *)
Lemma upper_symbol_collection (l : list string) :
  upper_symbol (VList (VStr <$> l))
  = Ok (VList (VStr <$> ((λ s, PyStr.upper (PyStr.strip s)) <$> l))).
Proof.
  unfold upper_symbol, iterate. cbn [obind].
  rewrite all_strip_str_strings. cbn [obind negb].
  rewrite strip_upper_all_strings. reflexivity.
Qed.

(** The two input forms are interchangeable: a non-empty collection of
    comma-free strings and the comma-separated string of its elements are
    normalized to the same list. *)
Lemma upper_symbol_input_forms (l : list string) :
  l ≠ [] →
  Forall (λ s, PyStr.contains comma s = false) l →
  upper_symbol (VStr (PyStr.join "," l)) = upper_symbol (VList (VStr <$> l)).
Proof.
  intros Hne Hl. unfold upper_symbol at 1.
  change "," with (String comma EmptyString).
  rewrite (split_join comma l Hne Hl). reflexivity.
Qed.

(** The empty collection and the empty string are not interchangeable. *)
Example upper_symbol_empty_forms :
  upper_symbol (VList []) = Ok (VList [])
  ∧ upper_symbol (VStr "") = Ok (VList [VStr ""]).
Proof. split; reflexivity. Qed.

(** An element that is not a [str] is always rejected, by one exception or
    another. *)
Lemma upper_symbol_rejects (l : list pyval) :
  Exists (λ v, isinstance_str v = false) l →
  ∃ e, upper_symbol (VList l) = Raise e.
Proof.
  intros H. unfold upper_symbol, iterate. cbn [obind].
  assert (Hall : (∃ e, all_strip_str l = Raise e) ∨ all_strip_str l = Ok false).
  { induction H as [v l Hv | v l _ IH].
    - destruct v; try discriminate Hv; cbn; eauto.
    - destruct v; cbn; eauto. }
  destruct Hall as [[e ->] | ->]; cbn; eauto.
Qed.

End SymbolFacts.

Example upper_symbol_string :
  PortfolioQueryParams.upper_symbol (VStr "aapl, msft") = Ok (VList [VStr "AAPL"; VStr "MSFT"]).
Proof. reflexivity. Qed.

Example upper_symbol_list :
  PortfolioQueryParams.upper_symbol (VList [VStr " aapl"; VStr "msft "])
  = Ok (VList [VStr "AAPL"; VStr "MSFT"]).
Proof. reflexivity. Qed.

Example upper_symbol_bytes :
  PortfolioQueryParams.validate_symbol (VList [VStr "aapl"; VBytes "msft"])
  = Raise (new_exn "ValidationError"
      "1 validation error for PortfolioQueryParams: symbol: Every element in `symbol` list must be a `str`").
Proof. reflexivity. Qed.

Example upper_symbol_int :
  PortfolioQueryParams.validate_symbol (VList [VStr "aapl"; VInt 5])
  = Raise (new_exn "AttributeError" "'int' object has no attribute 'strip'").
Proof. reflexivity. Qed.

(** C6 fails on the code: the element [5] of a collection is not rejected
    with a validation error. [upper_symbol] calls [strip] on it before it
    looks at its type, and the [AttributeError] of that call is not one of
    the exceptions pydantic turns into a [ValidationError]. *)
Theorem C6_non_string_element_raises_attribute_error :
  let e := new_exn "AttributeError" "'int' object has no attribute 'strip'" in
  PortfolioQueryParams.upper_symbol (VList [VStr "aapl"; VInt 5]) = Raise e
  ∧ PortfolioQueryParams.validate_symbol (VList [VStr "aapl"; VInt 5]) = Raise e
  ∧ exn_cls e ≠ "ValidationError"
  ∧ exn_cls e ≠ "ValueError".
Proof. cbv zeta. repeat split; try reflexivity; discriminate. Qed.

(** ** Construction of the command parameters *)

Module QueryFacts.

Lemma extra_errors_empty E declared :
  Pydantic.extra_errors E declared ∅ = [].
Proof.
  unfold Pydantic.extra_errors. rewrite map_to_list_empty.
  destruct (extra_forbid E); reflexivity.
Qed.

Lemma truthy_nonempty {Q} (kw : gmap string pyval) k v :
  kw !! k = Some v → Pydantic.truthy (Pydantic.CmdDict (Q:=Q) kw) = true.
Proof.
  intros H. cbn. rewrite bool_decide_eq_false_2; [reflexivity|].
  intros ->. rewrite lookup_empty in H. discriminate.
Qed.

(** The [method] field never leaves the constructor by an exception. *)
Lemma momentum_field_method kw :
  ∃ m, Momentum.field_method kw = Ok m
       ∧ ∀ v, m = Pydantic.Valid v → v ∈ Momentum.methods.
Proof.
  unfold Momentum.field_method. destruct (kw !! "method") as [v|].
  - unfold Pydantic.as_literal.
    destruct v; cbn; try (eexists; split; [reflexivity | discriminate]).
    destruct (decide (s ∈ Momentum.methods)); cbn;
      (eexists; split; [reflexivity|]); [|discriminate].
    intros v [= <-]. assumption.
  - eexists. split; [reflexivity|]. intros v [= <-].
    unfold Momentum.methods. apply elem_of_cons. left. reflexivity.
Qed.

Lemma momentum_new_default E :
  Momentum.QueryParams_new E ∅ = Ok MomentumStages.defaults.
Proof.
  unfold Momentum.QueryParams_new, Momentum.field_method, Momentum.field_period.
  rewrite !lookup_empty. cbn [obind Pydantic.errors_of app].
  rewrite extra_errors_empty. reflexivity.
Qed.

Lemma momentum_new_validated E kw q :
  Momentum.QueryParams_new E kw = Ok q → MomentumStages.validated q.
Proof.
  unfold Momentum.QueryParams_new.
  destruct (momentum_field_method kw) as (m & -> & Hm). cbn [obind].
  destruct m as [m|]; [|discriminate].
  unfold Momentum.field_period.
  destruct (kw !! "period") as [v|].
  - unfold Momentum.ge. destruct (Pydantic.as_int E v) as [z|]; [|discriminate].
    destruct (1 <=? z)%Z eqn:Hz; [|discriminate].
    destruct (_ ++ _)%list; [|discriminate].
    intros [= <-]. split; cbn; [eauto | lia].
  - destruct (_ ++ _)%list; [|discriminate].
    intros [= <-]. split; cbn; [eauto | lia].
Qed.

(** A [period] below 1 is a validation error of the model. *)
Lemma momentum_new_period_below_one E kw p :
  kw !! "period" = Some (VInt p) → (p < 1)%Z →
  ∃ errs, Momentum.QueryParams_new E kw
          = Raise (Pydantic.ValidationError "MomentumQueryParams" errs)
          ∧ ("period", "Input should be greater than or equal to 1") ∈ errs.
Proof.
  intros Hp Hlt. unfold Momentum.QueryParams_new.
  destruct (momentum_field_method kw) as (m & -> & _). cbn [obind].
  unfold Momentum.field_period. rewrite Hp. cbn [Pydantic.as_int Momentum.ge].
  replace (1 <=? p)%Z with false by (symmetry; apply Z.leb_gt; exact Hlt).
  eexists. split.
  - destruct m; reflexivity.
  - cbn [Pydantic.errors_of]. rewrite !elem_of_app. right. left.
    apply elem_of_cons. left. reflexivity.
Qed.

End QueryFacts.

(** ** Fail fast on a bad period *)

(** C7: when a [MomentumFetcher] holds a mapping of command parameters whose
    [period] is below 1, [fetch_data] raises a [ValidationError] that names
    the field; it is raised by [transform_query], and the Fetcher and the
    store are left as they were: [extract_data] has not run and no provider
    call has been made. *)
Theorem C7_period_below_one_fails_fast
    E (s : State Momentum.Fetcher) (kw : gmap string pyval) (p : Z) :
  Momentum.command_params (self s) = Pydantic.CmdDict kw →
  kw !! "period" = Some (VInt p) →
  (p < 1)%Z →
  ∃ errs,
    let e := Pydantic.ValidationError "MomentumQueryParams" errs in
    ("period", "Input should be greater than or equal to 1") ∈ errs
    ∧ exn_cls e = "ValidationError"
    ∧ Momentum.transform_query E s = (Raise e, s)
    ∧ Momentum.fetch_data E s = (Raise e, s)
    ∧ provider_calls (world (snd (Momentum.fetch_data E s))) = provider_calls (world s)
    ∧ Momentum.equity_historical_data (self (snd (Momentum.fetch_data E s)))
      = Momentum.equity_historical_data (self s).
Proof.
  intros Hcp Hp Hlt.
  destruct (QueryFacts.momentum_new_period_below_one E kw p Hp Hlt) as (errs & Hnew & Hin).
  assert (Hq : MomentumStages.query_of E (Momentum.command_params (self s))
               = Raise (Pydantic.ValidationError "MomentumQueryParams" errs)).
  { rewrite Hcp. unfold MomentumStages.query_of.
    rewrite (QueryFacts.truthy_nonempty kw "period" _ Hp). cbn [negb Pydantic.unpack obind].
    exact Hnew. }
  exists errs. cbv zeta.
  rewrite (MomentumRun.momentum_fetch_data_query_raise E s _ Hq).
  rewrite MomentumFacts.momentum_transform_query_eq, Hq.
  repeat split; try reflexivity. exact Hin.
Qed.

(** A Fetcher given the period 0. *)
Lemma C7_period_below_one_fails_fast_witness :
  let s := Momentum.__init__ (Pydantic.CmdDict {[ "period" := VInt 0 ]}) Demo.session in
  ∃ errs,
    let e := Pydantic.ValidationError "MomentumQueryParams" errs in
    ("period", "Input should be greater than or equal to 1") ∈ errs
    ∧ exn_cls e = "ValidationError"
    ∧ Momentum.transform_query Demo.collaborators s = (Raise e, s)
    ∧ Momentum.fetch_data Demo.collaborators s = (Raise e, s)
    ∧ provider_calls (world (snd (Momentum.fetch_data Demo.collaborators s)))
      = provider_calls (world s)
    ∧ Momentum.equity_historical_data (self (snd (Momentum.fetch_data Demo.collaborators s)))
      = Momentum.equity_historical_data (self s).
Proof.
  cbv zeta.
  apply (C7_period_below_one_fails_fast Demo.collaborators
           (Momentum.__init__ (Pydantic.CmdDict {[ "period" := VInt 0 ]}) Demo.session)
           {[ "period" := VInt 0 ]} 0%Z).
  - reflexivity.
  - vm_compute. reflexivity.
  - lia.
Defined.

(** ** The injected symbol column *)

(** C8: when the provider returns the table [t], [extract_data] succeeds.
    If exactly one symbol was requested, the extracted table has a column
    [symbol] that holds the requested symbol in every row, and its other
    columns are those of the provider's table (for
    [MandelbrotChannelFetcher], of that table without [dividends] and
    [stock_splits]); if more than one symbol was requested, the extracted
    table is the provider's table itself (for [MandelbrotChannelFetcher],
    without [dividends] and [stock_splits]): nothing is injected. *)
Theorem C8_symbol_column_injection E (t : Table) :
  (∀ (s : State Momentum.Fetcher),
     let c := context_params (world s) in
     historical E (Momentum.request_of c) = Ok t →
     ∃ s' t',
       Momentum.extract_data E s = (Ok (), s')
       ∧ Momentum.equity_historical_data (self s') = Some t'
       ∧ (∀ sym, Toolbox.symbols c = [sym] →
            Polars.get_column "symbol" t'
            = Some (replicate (match t with [] => 1 | _ => Polars.height t end)
                      (CStr sym))
            ∧ ∀ n, n ≠ "symbol" → Polars.get_column n t' = Polars.get_column n t)
       ∧ ((1 < length (Toolbox.symbols c))%nat → t' = t))
  ∧ (∀ (s : State MandelbrotChannel.Fetcher),
     let c := context_params (world s) in
     let kept := Polars.drop ["dividends"; "stock_splits"] t in
     historical E (MandelbrotChannel.request_of c) = Ok t →
     ∃ s' t',
       MandelbrotChannel.extract_data E s = (Ok t', s')
       ∧ (∀ sym, Toolbox.symbols c = [sym] →
            Polars.get_column "symbol" t'
            = Some (replicate (match kept with [] => 1 | _ => Polars.height kept end)
                      (CStr sym))
            ∧ ∀ n, n ≠ "symbol" → Polars.get_column n t' = Polars.get_column n kept)
       ∧ ((1 < length (Toolbox.symbols c))%nat → t' = kept)).
Proof.
  split.
  - intros s c Ht. rewrite MomentumFacts.momentum_extract_data_eq. fold c. rewrite Ht.
    eexists _, _. split; [reflexivity|]. split; [reflexivity|]. split.
    + intros sym ->. cbn [MomentumStages.extracted]. split.
      * apply PolarsFacts.with_columns_lit_column.
      * intros n Hn. apply PolarsFacts.with_columns_lit_other, Hn.
    + intros Hlen. destruct (Toolbox.symbols c) as [|a [|b l]];
        cbn in Hlen; try lia. reflexivity.
  - intros s c kept Ht. rewrite MandelbrotFacts.channel_extract_data_eq. fold c. rewrite Ht.
    eexists _, _. split; [reflexivity|]. split.
    + intros sym ->. cbn [MandelbrotStages.extracted]. split.
      * apply PolarsFacts.with_columns_lit_column.
      * intros n Hn. apply PolarsFacts.with_columns_lit_other, Hn.
    + intros Hlen. destruct (Toolbox.symbols c) as [|a [|b l]];
        cbn in Hlen; try lia. reflexivity.
Qed.

(** One symbol with [MomentumFetcher], two with
    [MandelbrotChannelFetcher]. *)
Lemma C8_symbol_column_injection_witness :
  (∃ s' t',
     Momentum.extract_data Demo.collaborators
       (Momentum.__init__ Pydantic.CmdNone Demo.session) = (Ok (), s')
     ∧ Momentum.equity_historical_data (self s') = Some t'
     ∧ Polars.get_column "symbol" t' = Some [CStr "AAPL"; CStr "AAPL"])
  ∧ (∃ s',
     MandelbrotChannel.extract_data Demo.collaborators
       (MandelbrotChannel.__init__ Pydantic.CmdNone Demo.pair_session)
     = (Ok (Polars.drop ["dividends"; "stock_splits"] Demo.prices), s')).
Proof.
  split.
  - destruct (proj1 (C8_symbol_column_injection Demo.collaborators Demo.prices)
                (Momentum.__init__ Pydantic.CmdNone Demo.session) eq_refl)
      as (s' & t' & Hrun & Hdata & Hone & _).
    exists s', t'. split; [exact Hrun|]. split; [exact Hdata|].
    exact (proj1 (Hone "AAPL" eq_refl)).
  - destruct (proj2 (C8_symbol_column_injection Demo.collaborators Demo.prices)
                (MandelbrotChannel.__init__ Pydantic.CmdNone Demo.pair_session) eq_refl)
      as (s' & t' & Hrun & _ & Hmany).
    exists s'. rewrite Hrun, Hmany; [reflexivity | cbn; lia].
Defined.

(** ** [transform_query] *)

Module ChannelQueryFacts.
Import MandelbrotChannel.

Lemma new_default E : QueryParams_new E ∅ = Ok MandelbrotStages.defaults.
Proof.
  unfold QueryParams_new, field_window, field_bool, field_literal.
  rewrite !lookup_empty. cbn [obind Pydantic.errors_of app].
  rewrite QueryFacts.extra_errors_empty. reflexivity.
Qed.

Lemma field_literal_valid kw name dflt allowed v :
  dflt ∈ allowed →
  field_literal kw name dflt allowed = Pydantic.Valid v → v ∈ allowed.
Proof.
  intros Hd. unfold field_literal, Pydantic.as_literal.
  destruct (kw !! name) as [[]|]; try discriminate.
  - destruct (decide (s ∈ allowed)); [|discriminate]. intros [= <-]. assumption.
  - intros [= <-]. assumption.
Qed.

Lemma field_window_valid E kw w :
  field_window E kw = Ok (Pydantic.Valid w) →
  w = "1mo" ∨ ∃ s, _window_format E s = Ok w.
Proof.
  unfold field_window, Pydantic.after, window_format.
  destruct (kw !! "window") as [v|]; [|intros [= <-]; left; reflexivity].
  destruct (Pydantic.as_str E v) as [s|]; [|discriminate].
  destruct (_window_format E s) as [w'|e] eqn:Hw.
  - intros [= <-]. right. eauto.
  - destruct (decide _); discriminate.
Qed.

Lemma new_validated E kw q :
  QueryParams_new E kw = Ok q → MandelbrotStages.validated E q.
Proof.
  unfold QueryParams_new.
  destruct (field_window E kw) as [w|] eqn:Hw; cbn [obind]; [|discriminate].
  destruct w as [w|]; [|discriminate].
  destruct (field_bool E kw "rv_adjustment" true); [|discriminate].
  destruct (field_literal kw "rv_method" "std" rv_methods) as [m|] eqn:Hm;
    [|discriminate].
  destruct (field_literal kw "rs_method" "RS" rs_methods) as [r|] eqn:Hr;
    [|discriminate].
  destruct (field_bool E kw "rv_grouped_mean" false); [|discriminate].
  destruct (field_bool E kw "live_price" false); [|discriminate].
  destruct (_ ++ _)%list; [|discriminate].
  intros [= <-]. repeat split; cbn.
  - apply (field_window_valid E kw w Hw).
  - apply (field_literal_valid _ _ _ _ _ ltac:(apply elem_of_cons; left; reflexivity) Hm).
  - apply (field_literal_valid _ _ _ _ _ ltac:(apply elem_of_cons; left; reflexivity) Hr).
Qed.

End ChannelQueryFacts.

(** ** The instance and the keywords it was constructed with *)

Module SuppliedFacts.
Import Supplied.

Lemma as_int_read E v :
  Pydantic.as_int E v
  = match read_int E v with
    | Some z => Pydantic.Valid z
    | None => Pydantic.Invalid "Input should be a valid integer"
    end.
Proof. destruct v; reflexivity. Qed.

Lemma as_bool_read E v :
  Pydantic.as_bool E v
  = match read_bool E v with
    | Some b => Pydantic.Valid b
    | None => Pydantic.Invalid "Input should be a valid boolean"
    end.
Proof. destruct v; reflexivity. Qed.

Lemma as_str_read E v :
  Pydantic.as_str E v
  = match read_str E v with
    | Some s => Pydantic.Valid s
    | None => Pydantic.Invalid "Input should be a valid string"
    end.
Proof. destruct v; reflexivity. Qed.

Lemma as_literal_read allowed v :
  Pydantic.as_literal allowed v
  = match read_literal allowed v with
    | Some s => Pydantic.Valid s
    | None => Pydantic.Invalid ("Input should be one of " ++ PyStr.join ", " allowed)
    end.
Proof.
  destruct v; try reflexivity. cbn.
  destruct (decide (s ∈ allowed)) as [Hin|Hout].
  - rewrite bool_decide_eq_true_2 by exact Hin. reflexivity.
  - rewrite bool_decide_eq_false_2 by exact Hout. reflexivity.
Qed.

Lemma extra_errors_nil E declared (kw : gmap string pyval) :
  Pydantic.extra_errors E declared kw = [] ↔ declared_only E declared kw.
Proof.
  unfold Pydantic.extra_errors, declared_only. split.
  - intros H Hf k [v Hk]. rewrite Hf in H. apply fmap_nil_inv in H.
    destruct (decide (k ∈ declared)) as [Hin|Hout]; [exact Hin|].
    exfalso. apply (not_elem_of_nil k). rewrite <- H.
    apply list_elem_of_filter. split; [exact Hout|].
    apply list_elem_of_fmap. exists (k, v). split; [reflexivity|].
    apply elem_of_map_to_list. exact Hk.
  - intros Hkw. destruct (extra_forbid E); [|reflexivity].
    apply elem_of_nil_inv. intros x Hx.
    apply list_elem_of_fmap in Hx as (k & -> & Hk).
    apply list_elem_of_filter in Hk as [Hnot Hin].
    apply list_elem_of_fmap in Hin as ([k' v] & -> & Hkv).
    apply elem_of_map_to_list in Hkv. apply Hnot, Hkw; [reflexivity|]. cbn. eauto.
Qed.

Lemma field_method_holds kw m :
  Momentum.field_method kw = Ok (Pydantic.Valid m)
  ↔ holds kw "method" "log" (read_literal Momentum.methods) m.
Proof.
  unfold Momentum.field_method, holds.
  destruct (kw !! "method") as [v|].
  - rewrite as_literal_read. destruct (read_literal _ v) as [m'|]; cbn.
    + split; intros [= ->]; reflexivity.
    + split; discriminate.
  - split; [intros [= <-] | intros ->]; reflexivity.
Qed.

Lemma field_method_total kw :
  ∃ r, Momentum.field_method kw = Ok r.
Proof.
  unfold Momentum.field_method. destruct (kw !! "method") as [v|]; [|eauto].
  rewrite as_literal_read. destruct (read_literal _ v); cbn; eauto.
Qed.

Lemma field_period_holds E kw p :
  Momentum.field_period E kw = Pydantic.Valid p
  ↔ holds kw "period" 1%Z (read_int E) p ∧ (1 ≤ p)%Z.
Proof.
  unfold Momentum.field_period, holds.
  destruct (kw !! "period") as [v|].
  - rewrite as_int_read. destruct (read_int E v) as [z|]; cbn.
    + destruct (1 <=? z)%Z eqn:Hz.
      * apply Z.leb_le in Hz. split; [intros [= <-]; auto | intros [[= <-] _]; reflexivity].
      * apply Z.leb_gt in Hz. split; [discriminate | intros [[= <-] Hle]; lia].
    + split; [discriminate | intros [? _]; discriminate].
  - split; [intros [= <-]; split; [reflexivity | lia] | intros [-> _]; reflexivity].
Qed.

(** The constructor of [MomentumQueryParams] returns [q] exactly when [q]
    is the instance for the keywords. *)
Lemma momentum_new_instance E kw q :
  Momentum.QueryParams_new E kw = Ok q ↔ momentum_instance E kw q.
Proof.
  unfold Momentum.QueryParams_new, momentum_instance. destruct q as [m p].
  cbn [Momentum.method Momentum.period].
  rewrite <- (field_method_holds kw m), <- (extra_errors_nil E _ kw).
  destruct (field_method_total kw) as (rm & Hm). rewrite Hm. cbn [obind].
  split.
  - destruct rm as [m'|]; [|discriminate].
    destruct (Momentum.field_period E kw) as [p'|] eqn:Hp; [|discriminate].
    cbn [Pydantic.errors_of app].
    destruct (Pydantic.extra_errors E _ kw) eqn:Hx; [|discriminate].
    intros [= <- <-]. apply field_period_holds in Hp as [Hp Hle]. auto.
  - intros (Hrm & Hp & Hle & Hx). injection Hrm as ->.
    rewrite (proj2 (field_period_holds E kw p) (conj Hp Hle)).
    cbn [Pydantic.errors_of app]. rewrite Hx. reflexivity.
Qed.

Lemma field_bool_holds E kw name dflt b :
  MandelbrotChannel.field_bool E kw name dflt = Pydantic.Valid b
  ↔ holds kw name dflt (read_bool E) b.
Proof.
  unfold MandelbrotChannel.field_bool, holds.
  destruct (kw !! name) as [v|].
  - rewrite as_bool_read. destruct (read_bool E v) as [b'|].
    + split; intros [= ->]; reflexivity.
    + split; discriminate.
  - split; [intros [= <-] | intros ->]; reflexivity.
Qed.

Lemma field_literal_holds kw name dflt allowed s :
  MandelbrotChannel.field_literal kw name dflt allowed = Pydantic.Valid s
  ↔ holds kw name dflt (read_literal allowed) s.
Proof.
  unfold MandelbrotChannel.field_literal, holds.
  destruct (kw !! name) as [v|].
  - rewrite as_literal_read. destruct (read_literal allowed v) as [s'|].
    + split; intros [= ->]; reflexivity.
    + split; discriminate.
  - split; [intros [= <-] | intros ->]; reflexivity.
Qed.

Lemma field_window_holds E kw w :
  MandelbrotChannel.field_window E kw = Ok (Pydantic.Valid w)
  ↔ window_holds E kw w.
Proof.
  unfold MandelbrotChannel.field_window, window_holds.
  destruct (kw !! "window") as [v|].
  - rewrite as_str_read. destruct (read_str E v) as [s|]; cbn.
    + destruct (_window_format E s) as [w'|e] eqn:Hw.
      * split; [intros [= <-]; eauto | intros (s' & [= <-] & Hs)].
        rewrite Hw in Hs. injection Hs as ->. reflexivity.
      * split; [destruct (decide _); discriminate | intros (s' & [= <-] & Hs)].
        rewrite Hw in Hs. discriminate.
    + split; [discriminate | intros (s' & Hs & _); discriminate].
  - split; [intros [= <-] | intros ->]; reflexivity.
Qed.

(** The constructor of [MandelbrotChannelQueryParams] returns [q] exactly
    when [q] is the instance for the keywords. *)
Lemma channel_new_instance E kw q :
  MandelbrotChannel.QueryParams_new E kw = Ok q ↔ channel_instance E kw q.
Proof.
  unfold MandelbrotChannel.QueryParams_new, channel_instance.
  destruct q as [w a m r g l].
  cbn [MandelbrotChannel.window MandelbrotChannel.rv_adjustment
       MandelbrotChannel.rv_method MandelbrotChannel.rs_method
       MandelbrotChannel.rv_grouped_mean MandelbrotChannel.live_price].
  rewrite <- (field_window_holds E kw w), <- (extra_errors_nil E _ kw).
  rewrite <- !field_bool_holds, <- !field_literal_holds.
  split.
  - destruct (MandelbrotChannel.field_window E kw) as [[w'|]|]; cbn [obind];
      [|discriminate|discriminate].
    destruct (MandelbrotChannel.field_bool E kw "rv_adjustment" true) as [a'|];
      [|discriminate].
    destruct (MandelbrotChannel.field_literal kw "rv_method" "std" _) as [m'|];
      [|discriminate].
    destruct (MandelbrotChannel.field_literal kw "rs_method" "RS" _) as [r'|];
      [|discriminate].
    destruct (MandelbrotChannel.field_bool E kw "rv_grouped_mean" false) as [g'|];
      [|discriminate].
    destruct (MandelbrotChannel.field_bool E kw "live_price" false) as [l'|];
      [|discriminate].
    cbn [Pydantic.errors_of app].
    destruct (Pydantic.extra_errors E _ kw); [|discriminate].
    intros [= <- <- <- <- <- <-]. auto 10.
  - intros (-> & -> & -> & -> & -> & -> & Hx). cbn [obind Pydantic.errors_of app].
    rewrite Hx. reflexivity.
Qed.

Lemma momentum_query_of_keywords E c q :
  MomentumStages.query_of E c = Ok q
  ↔ ∃ kw, keywords c = Some kw ∧ Momentum.QueryParams_new E kw = Ok q.
Proof.
  unfold MomentumStages.query_of. destruct c as [|kw|q0]; cbn.
  - split; [eauto | intros (kw & [= <-] & H); exact H].
  - destruct (bool_decide (kw = ∅)) eqn:Hkw; cbn.
    + apply bool_decide_eq_true_1 in Hkw as ->.
      split; [eauto | intros (kw & [= <-] & H); exact H].
    + split; [eauto | intros (kw' & [= <-] & H); exact H].
  - split; [discriminate | intros (kw & Hkw & _); discriminate].
Qed.

Lemma channel_query_of_keywords E c q :
  MandelbrotStages.query_of E c = Ok q
  ↔ ∃ kw, keywords c = Some kw ∧ MandelbrotChannel.QueryParams_new E kw = Ok q.
Proof.
  unfold MandelbrotStages.query_of. destruct c as [|kw|q0]; cbn.
  - split; [eauto | intros (kw & [= <-] & H); exact H].
  - destruct (bool_decide (kw = ∅)) eqn:Hkw; cbn.
    + apply bool_decide_eq_true_1 in Hkw as ->.
      split; [eauto | intros (kw & [= <-] & H); exact H].
    + split; [eauto | intros (kw' & [= <-] & H); exact H].
  - split; [discriminate | intros (kw & Hkw & _); discriminate].
Qed.

End SuppliedFacts.

(** C9: [transform_query] succeeds exactly when the keywords the Fetcher
    was given ([None] gives none, a mapping gives its own) make a valid
    instance, and [command_params] is then that instance: every field
    whose keyword is absent holds its declared default, and every field
    whose keyword is present holds the supplied value, read as the type of
    the field ([window] after [_window_format]); the fields satisfy the
    declared constraints, and nothing else of the Fetcher or of the store
    has changed. With falsy command parameters ([None] or the empty
    mapping) it succeeds with every field at its default. With a model
    instance it does not validate again: unpacking the instance as
    keywords raises a [TypeError], and [command_params] stays what it was.
    This holds for both fetchers. *)
Theorem C9_transform_query_validates E :
  ((∀ (s s' : State Momentum.Fetcher),
      Momentum.transform_query E s = (Ok (), s') →
      ∃ kw q, Supplied.keywords (Momentum.command_params (self s)) = Some kw
           ∧ Supplied.momentum_instance E kw q
           ∧ s' = {| world := world s;
                     self := Momentum.set_command_params (self s) (Pydantic.CmdModel q) |}
           ∧ Momentum.command_params (self s') = Pydantic.CmdModel q
           ∧ MomentumStages.validated q
           ∧ (Momentum.command_params (self s) = Pydantic.CmdNone
              ∨ ∃ kw, Momentum.command_params (self s) = Pydantic.CmdDict kw))
   ∧ (∀ (s : State Momentum.Fetcher) kw q,
      Supplied.keywords (Momentum.command_params (self s)) = Some kw →
      Supplied.momentum_instance E kw q →
      Momentum.transform_query E s
      = (Ok (), {| world := world s;
                   self := Momentum.set_command_params (self s) (Pydantic.CmdModel q) |}))
   ∧ (∀ (s : State Momentum.Fetcher),
      Momentum.command_params (self s) = Pydantic.CmdNone
      ∨ Momentum.command_params (self s) = Pydantic.CmdDict ∅ →
      ∃ s', Momentum.transform_query E s = (Ok (), s')
            ∧ Momentum.command_params (self s')
              = Pydantic.CmdModel MomentumStages.defaults)
   ∧ (∀ (s : State Momentum.Fetcher) q,
      Momentum.command_params (self s) = Pydantic.CmdModel q →
      ∃ e, Momentum.transform_query E s = (Raise e, s)
           ∧ exn_cls e = "TypeError"))
  ∧
  ((∀ (s s' : State MandelbrotChannel.Fetcher),
      MandelbrotChannel.transform_query E s = (Ok (), s') →
      ∃ kw q, Supplied.keywords (MandelbrotChannel.command_params (self s)) = Some kw
           ∧ Supplied.channel_instance E kw q
           ∧ s' = {| world := world s;
                     self := MandelbrotChannel.set_command_params (self s)
                               (Pydantic.CmdModel q) |}
           ∧ MandelbrotChannel.command_params (self s') = Pydantic.CmdModel q
           ∧ MandelbrotStages.validated E q
           ∧ (MandelbrotChannel.command_params (self s) = Pydantic.CmdNone
              ∨ ∃ kw, MandelbrotChannel.command_params (self s) = Pydantic.CmdDict kw))
   ∧ (∀ (s : State MandelbrotChannel.Fetcher) kw q,
      Supplied.keywords (MandelbrotChannel.command_params (self s)) = Some kw →
      Supplied.channel_instance E kw q →
      MandelbrotChannel.transform_query E s
      = (Ok (), {| world := world s;
                   self := MandelbrotChannel.set_command_params (self s)
                             (Pydantic.CmdModel q) |}))
   ∧ (∀ (s : State MandelbrotChannel.Fetcher),
      MandelbrotChannel.command_params (self s) = Pydantic.CmdNone
      ∨ MandelbrotChannel.command_params (self s) = Pydantic.CmdDict ∅ →
      ∃ s', MandelbrotChannel.transform_query E s = (Ok (), s')
            ∧ MandelbrotChannel.command_params (self s')
              = Pydantic.CmdModel MandelbrotStages.defaults)
   ∧ (∀ (s : State MandelbrotChannel.Fetcher) q,
      MandelbrotChannel.command_params (self s) = Pydantic.CmdModel q →
      ∃ e, MandelbrotChannel.transform_query E s = (Raise e, s)
           ∧ exn_cls e = "TypeError")).
Proof.
  split; (split; [|split; [|split]]).
  - intros s s' H. rewrite MomentumFacts.momentum_transform_query_eq in H.
    destruct (MomentumStages.query_of E _) as [q|] eqn:Hq; [|discriminate].
    injection H as <-.
    apply SuppliedFacts.momentum_query_of_keywords in Hq as (kw & Hkw & Hnew).
    exists kw, q. split; [exact Hkw|].
    split; [apply SuppliedFacts.momentum_new_instance, Hnew|].
    split; [reflexivity|]. split; [reflexivity|].
    split; [eapply QueryFacts.momentum_new_validated, Hnew|].
    destruct (Momentum.command_params (self s)); [left; reflexivity | right; eauto |].
    discriminate.
  - intros s kw q Hkw Hq. apply MomentumRun.momentum_transform_query_ok.
    apply SuppliedFacts.momentum_query_of_keywords. exists kw. split; [exact Hkw|].
    apply SuppliedFacts.momentum_new_instance, Hq.
  - intros s Hs.
    assert (Hq : MomentumStages.query_of E (Momentum.command_params (self s))
                 = Ok MomentumStages.defaults).
    { destruct Hs as [-> | ->]; apply QueryFacts.momentum_new_default. }
    rewrite (MomentumRun.momentum_transform_query_ok E s _ Hq). eauto.
  - intros s q Hs. rewrite MomentumFacts.momentum_transform_query_eq, Hs. cbn.
    eexists. split; reflexivity.
  - intros s s' H. apply MandelbrotFacts.channel_transform_query_inv in H as (q & Hq & ->).
    apply SuppliedFacts.channel_query_of_keywords in Hq as (kw & Hkw & Hnew).
    exists kw, q. split; [exact Hkw|].
    split; [apply SuppliedFacts.channel_new_instance, Hnew|].
    split; [reflexivity|]. split; [reflexivity|].
    split; [eapply ChannelQueryFacts.new_validated, Hnew|].
    destruct (MandelbrotChannel.command_params (self s));
      [left; reflexivity | right; eauto |].
    discriminate.
  - intros s kw q Hkw Hq. apply MandelbrotFacts.channel_transform_query_ok.
    apply SuppliedFacts.channel_query_of_keywords. exists kw. split; [exact Hkw|].
    apply SuppliedFacts.channel_new_instance, Hq.
  - intros s Hs.
    assert (Hq : MandelbrotStages.query_of E (MandelbrotChannel.command_params (self s))
                 = Ok MandelbrotStages.defaults).
    { destruct Hs as [-> | ->]; apply ChannelQueryFacts.new_default. }
    rewrite (MandelbrotFacts.channel_transform_query_ok E s _ Hq). eauto.
  - intros s q Hs. destruct s as [w [cp eh td]]. cbn in Hs. subst cp.
    unfold MandelbrotChannel.transform_query. unfold_monad. cbn.
    eexists. split; reflexivity.
Qed.

(** Keywords none of which is at its default, [None], the empty mapping
    and model instances. *)
Lemma C9_transform_query_validates_witness :
  let given := Momentum.__init__ (Pydantic.CmdDict Cases.momentum_keywords) Demo.session in
  let bare := Momentum.__init__ Pydantic.CmdNone Demo.session in
  let tuned :=
    MandelbrotChannel.__init__ (Pydantic.CmdDict Cases.channel_keywords) Demo.session in
  let channel := MandelbrotChannel.__init__ (Pydantic.CmdDict ∅) Demo.session in
  let mq := {| Momentum.method := "simple"; Momentum.period := 5 |} in
  let cq := {| MandelbrotChannel.window := "3mo";
               MandelbrotChannel.rv_adjustment := false;
               MandelbrotChannel.rv_method := "gk";
               MandelbrotChannel.rs_method := "RS";
               MandelbrotChannel.rv_grouped_mean := false;
               MandelbrotChannel.live_price := true |} in
  Momentum.command_params (self (snd (Momentum.transform_query Cases.abbreviating given)))
    = Pydantic.CmdModel mq
  ∧ Momentum.transform_query Cases.abbreviating given
    = (Ok (), {| world := world given;
                 self := Momentum.set_command_params (self given) (Pydantic.CmdModel mq) |})
  ∧ (∃ s', Momentum.transform_query Demo.collaborators bare = (Ok (), s')
           ∧ Momentum.command_params (self s') = Pydantic.CmdModel MomentumStages.defaults)
  ∧ (∃ e, Momentum.transform_query Demo.collaborators Demo.momentum_ready
          = (Raise e, Demo.momentum_ready)
          ∧ exn_cls e = "TypeError")
  ∧ MandelbrotChannel.command_params
      (self (snd (MandelbrotChannel.transform_query Cases.abbreviating tuned)))
    = Pydantic.CmdModel cq
  ∧ MandelbrotChannel.transform_query Cases.abbreviating tuned
    = (Ok (), {| world := world tuned;
                 self := MandelbrotChannel.set_command_params (self tuned)
                           (Pydantic.CmdModel cq) |})
  ∧ (∃ s', MandelbrotChannel.transform_query Demo.collaborators channel = (Ok (), s')
           ∧ MandelbrotChannel.command_params (self s')
             = Pydantic.CmdModel MandelbrotStages.defaults)
  ∧ (∃ e, MandelbrotChannel.transform_query Demo.collaborators Demo.channel_ready
          = (Raise e, Demo.channel_ready)
          ∧ exn_cls e = "TypeError").
Proof.
  cbv zeta.
  pose proof (C9_transform_query_validates Demo.collaborators)
    as [(_ & _ & Hm3 & Hm4) (_ & _ & Hc3 & Hc4)].
  pose proof (C9_transform_query_validates Cases.abbreviating)
    as [(Hm1 & Hm2 & _ & _) (Hc1 & Hc2 & _ & _)].
  repeat apply conj.
  - destruct (Hm1 (Momentum.__init__ (Pydantic.CmdDict Cases.momentum_keywords) Demo.session)
                (snd (Momentum.transform_query Cases.abbreviating
                        (Momentum.__init__ (Pydantic.CmdDict Cases.momentum_keywords)
                           Demo.session))))
      as (kw & [m p] & [= <-] & (Hm & Hp & _) & _ & -> & _); [vm_compute; reflexivity|].
    vm_compute in Hm, Hp. injection Hm as <-. injection Hp as <-. reflexivity.
  - apply (Hm2 _ Cases.momentum_keywords); [reflexivity|].
    split; [vm_compute; reflexivity|]. split; [vm_compute; reflexivity|].
    split; [cbn; lia|].
    intros _ k [v Hk].
    destruct (decide (k ∈ ["method"; "period"])) as [Hin|Hout]; [exact Hin|].
    exfalso. rewrite !not_elem_of_cons in Hout. destruct Hout as (H1 & H2 & _).
    unfold Cases.momentum_keywords in Hk.
    rewrite lookup_insert_ne, lookup_singleton_ne in Hk by congruence. discriminate.
  - apply Hm3. left. reflexivity.
  - apply (Hm4 Demo.momentum_ready Demo.momentum_defaults). reflexivity.
  - destruct (Hc1 (MandelbrotChannel.__init__ (Pydantic.CmdDict Cases.channel_keywords)
                     Demo.session)
                (snd (MandelbrotChannel.transform_query Cases.abbreviating
                        (MandelbrotChannel.__init__
                           (Pydantic.CmdDict Cases.channel_keywords) Demo.session))))
      as (kw & [w a m r g l] & [= <-] & (Hw & Ha & Hm & Hr & Hg & Hl & _) & _ & -> & _);
      [vm_compute; reflexivity|].
    vm_compute in Ha, Hm, Hr, Hg, Hl.
    injection Ha as <-. injection Hm as <-. subst r g. injection Hl as <-.
    destruct Hw as (s & [= <-] & Hs). vm_compute in Hs. injection Hs as <-.
    reflexivity.
  - apply (Hc2 _ Cases.channel_keywords); [reflexivity|].
    split; [exists "3 months"; split; vm_compute; reflexivity|].
    repeat (split; [vm_compute; reflexivity|]).
    intros _ k [v Hk].
    destruct (decide (k ∈ MandelbrotChannel.declared)) as [Hin|Hout]; [exact Hin|].
    exfalso. unfold MandelbrotChannel.declared in Hout.
    rewrite !not_elem_of_cons in Hout.
    destruct Hout as (H1 & H2 & H3 & H4 & H5 & H6 & _).
    unfold Cases.channel_keywords in Hk.
    rewrite !lookup_insert_ne, lookup_singleton_ne in Hk by congruence. discriminate.
  - apply Hc3. right. reflexivity.
  - apply (Hc4 Demo.channel_ready Demo.channel_defaults). reflexivity.
Defined.

(** ** The chart *)

(** C10: the envelope of every successful [fetch_data] has no chart. For a
    [MomentumFetcher] the envelope's chart is the Fetcher's [chart]
    attribute, which no stage assigns and [__init__] sets to [None]; a
    [MandelbrotChannelFetcher] passes [None]. *)
Theorem C10_chart_is_none E :
  (∀ cp w env s',
     Momentum.fetch_data E (Momentum.__init__ cp w) = (Ok env, s') →
     HumblObject.chart env = None)
  ∧ (∀ (s s' : State Momentum.Fetcher) env,
     Momentum.fetch_data E s = (Ok env, s') →
     HumblObject.chart env = Momentum.chart (self s)
     ∧ Momentum.chart (self s') = Momentum.chart (self s))
  ∧ (∀ cp w env s',
     MandelbrotChannel.fetch_data E (MandelbrotChannel.__init__ cp w) = (Ok env, s') →
     HumblObject.chart env = None).
Proof.
  assert (Hstages : ∀ (s s' : State Momentum.Fetcher) env,
            Momentum.fetch_data E s = (Ok env, s') →
            HumblObject.chart env = Momentum.chart (self s)).
  { intros s s' env H. apply MomentumFetch.momentum_fetch_data_ok in H
      as (q & t & x & out & l & _ & _ & _ & _ & _ & _ & Hc & _). exact Hc. }
  repeat apply conj.
  - intros cp w env s' H. rewrite (Hstages _ _ _ H). reflexivity.
  - intros s s' env H. split; [exact (Hstages _ _ _ H)|].
    apply MomentumFetch.momentum_fetch_data_ok in H
      as (q & t & x & out & l & _ & _ & _ & _ & _ & _ & _ & _ & _ & _ & _ & _ & _
          & _ & _ & Hc).
    exact Hc.
  - intros cp w env s' H. apply MandelbrotFacts.channel_fetch_data_ok in H
      as (q & t & out & _ & _ & _ & _ & -> & _). reflexivity.
Qed.

(** A successful fetch of each command. *)
Lemma C10_chart_is_none_witness :
  (∃ env s',
     Momentum.fetch_data Demo.collaborators
       (Momentum.__init__ Pydantic.CmdNone Demo.session) = (Ok env, s')
     ∧ HumblObject.chart env = None)
  ∧ (∃ env s',
     MandelbrotChannel.fetch_data Demo.collaborators
       (MandelbrotChannel.__init__ Pydantic.CmdNone Demo.session) = (Ok env, s')
     ∧ HumblObject.chart env = None).
Proof.
  split.
  - eexists _, _. split; [vm_compute; reflexivity|].
    eapply (proj1 (C10_chart_is_none Demo.collaborators) Pydantic.CmdNone Demo.session).
    vm_compute. reflexivity.
  - eexists _, _. split; [vm_compute; reflexivity|].
    eapply (proj2 (proj2 (C10_chart_is_none Demo.collaborators))
              Pydantic.CmdNone Demo.session).
    vm_compute. reflexivity.
Defined.

(** * Further properties *)

(** ** Characters and strings *)

Module StringFacts.
Import Chars.

Lemma upper_char_not_lower c : is_lower (PyStr.upper_char c) = false.
Proof. destruct c as [[] [] [] [] [] [] [] []]; vm_compute; reflexivity. Qed.

Lemma upper_char_space c : PyStr.is_space (PyStr.upper_char c) = PyStr.is_space c.
Proof. destruct c as [[] [] [] [] [] [] [] []]; vm_compute; reflexivity. Qed.

Lemma upper_char_fixed c : is_lower c = false → PyStr.upper_char c = c.
Proof. unfold is_lower, PyStr.upper_char. intros ->. reflexivity. Qed.

Lemma upper_no_lower s : has_lower (PyStr.upper s) = false.
Proof.
  induction s as [|c s IH]; cbn; [reflexivity|].
  rewrite upper_char_not_lower, IH. reflexivity.
Qed.

Lemma upper_fixed s : has_lower s = false → PyStr.upper s = s.
Proof.
  induction s as [|c s IH]; cbn; [reflexivity|].
  intros H. apply orb_false_iff in H as [Hc Hs].
  rewrite (upper_char_fixed c Hc), (IH Hs). reflexivity.
Qed.

Lemma upper_idempotent s : PyStr.upper (PyStr.upper s) = PyStr.upper s.
Proof. apply upper_fixed, upper_no_lower. Qed.

Lemma upper_starts s : starts_with_space (PyStr.upper s) = starts_with_space s.
Proof. destruct s; cbn; [reflexivity | apply upper_char_space]. Qed.

Lemma upper_empty s : PyStr.upper s = EmptyString → s = EmptyString.
Proof. destruct s; [reflexivity | discriminate]. Qed.

Lemma upper_ends s : ends_with_space (PyStr.upper s) = ends_with_space s.
Proof.
  induction s as [|c s IH]; [reflexivity|].
  destruct s as [|d s]; [cbn; apply upper_char_space|].
  exact IH.
Qed.

Lemma lstrip_starts s : starts_with_space (PyStr.lstrip s) = false.
Proof.
  induction s as [|c s IH]; cbn; [reflexivity|].
  destruct (PyStr.is_space c) eqn:Hc; [exact IH | cbn; exact Hc].
Qed.

Lemma lstrip_fixed s : starts_with_space s = false → PyStr.lstrip s = s.
Proof. destruct s; cbn; [reflexivity | intros ->; reflexivity]. Qed.

Lemma rstrip_ends s : ends_with_space (PyStr.rstrip s) = false.
Proof.
  induction s as [|c s IH]; cbn; [reflexivity|].
  destruct (PyStr.rstrip s) as [|d r] eqn:Hr.
  - destruct (PyStr.is_space c) eqn:Hc; cbn; [reflexivity | exact Hc].
  - exact IH.
Qed.

Lemma rstrip_fixed s : ends_with_space s = false → PyStr.rstrip s = s.
Proof.
  induction s as [|c s IH]; [reflexivity|].
  destruct s as [|d s].
  - cbn. intros ->. reflexivity.
  - intros H. change (ends_with_space (String d s) = false) in H.
    change (PyStr.rstrip (String c (String d s)))
      with (match PyStr.rstrip (String d s) with
            | EmptyString => if PyStr.is_space c then EmptyString
                             else String c EmptyString
            | r => String c r
            end).
    rewrite (IH H). reflexivity.
Qed.

Lemma rstrip_starts s :
  starts_with_space s = false → starts_with_space (PyStr.rstrip s) = false.
Proof.
  destruct s as [|c s]; cbn; [reflexivity|]. intros Hc.
  destruct (PyStr.rstrip s); [rewrite Hc|]; cbn; [exact Hc | exact Hc].
Qed.

(** A stripped string neither starts nor ends with white space. *)
Lemma strip_trimmed s :
  starts_with_space (PyStr.strip s) = false ∧ ends_with_space (PyStr.strip s) = false.
Proof.
  unfold PyStr.strip. split.
  - apply rstrip_starts, lstrip_starts.
  - apply rstrip_ends.
Qed.

Lemma strip_fixed s :
  starts_with_space s = false → ends_with_space s = false → PyStr.strip s = s.
Proof.
  intros Hs He. unfold PyStr.strip. rewrite (lstrip_fixed s Hs). apply rstrip_fixed, He.
Qed.

(** What [upper_symbol] makes of one element is left alone by a second
    pass. *)
Lemma normal_fixed s :
  PyStr.upper (PyStr.strip (PyStr.upper (PyStr.strip s))) = PyStr.upper (PyStr.strip s).
Proof.
  destruct (strip_trimmed s) as [Hs He].
  rewrite (strip_fixed (PyStr.upper (PyStr.strip s))).
  - apply upper_idempotent.
  - rewrite upper_starts. exact Hs.
  - rewrite upper_ends. exact He.
Qed.

Lemma split_length sep s : length (PyStr.split sep s) = S (count sep s).
Proof.
  induction s as [|c s IH]; cbn [PyStr.split count]; [reflexivity|].
  destruct (Ascii.eqb c sep); cbn [length].
  - rewrite IH. reflexivity.
  - destruct (PyStr.split sep s) as [|x xs]; cbn in *; lia.
Qed.

End StringFacts.

(** ** More on symbol normalization *)

Module SymbolOutcomes.
Import PortfolioQueryParams Chars.

Lemma all_strings items :
  all_strip_str items = Ok true → ∃ ss : list string, items = VStr <$> ss.
Proof.
  induction items as [|item rest IH]; intros H.
  - exists []. reflexivity.
  - destruct item; cbn in H; try discriminate.
    destruct (IH H) as (ss & ->). exists (s :: ss). reflexivity.
Qed.

(** Whatever the input, a result of [upper_symbol] is a list of normalized
    strings. *)
Lemma upper_symbol_result v out :
  upper_symbol v = Ok out → ∃ ss : list string, out = VList (VStr <$> (normal <$> ss)).
Proof.
  unfold upper_symbol.
  destruct (iterate _) as [items|e]; cbn [obind]; [|discriminate].
  destruct (all_strip_str items) as [[|]|e] eqn:Hall; cbn [obind negb]; try discriminate.
  destruct (all_strings items Hall) as (ss & ->).
  rewrite SymbolFacts.strip_upper_all_strings. cbn [obind].
  intros [= <-]. exists ss. reflexivity.
Qed.

(** The outcome on a collection whose first element that is not a [str]
    is [v]. *)
Lemma first_non_string (strs : list string) v rest :
  isinstance_str v = false →
  all_strip_str ((VStr <$> strs) ++ v :: rest)%list
  = match v with
    | VBytes _ => Ok false
    | _ => Raise (new_exn "AttributeError"
                    ("'" ++ type_name v ++ "' object has no attribute 'strip'"))
    end.
Proof.
  intros Hv. induction strs as [|s strs IH]; [|exact IH].
  destruct v; try discriminate Hv; reflexivity.
Qed.

End SymbolOutcomes.

(** X1: a non-empty collection of comma-free strings and the
    comma-separated string of its elements are normalized to the same list:
    every element trimmed and upper-cased, in the order given. *)
Theorem X1_symbol_input_forms_agree (l : list string) :
  l ≠ [] →
  Forall (λ s, PyStr.contains comma s = false) l →
  PortfolioQueryParams.upper_symbol (VStr (PyStr.join "," l))
  = Ok (VList (VStr <$> (Chars.normal <$> l)))
  ∧ PortfolioQueryParams.upper_symbol (VList (VStr <$> l))
    = Ok (VList (VStr <$> (Chars.normal <$> l))).
Proof.
  intros Hne Hl. split.
  - unfold PortfolioQueryParams.upper_symbol at 1.
    change "," with (String comma EmptyString).
    rewrite (SymbolFacts.split_join comma l Hne Hl).
    apply SymbolFacts.upper_symbol_collection.
  - apply SymbolFacts.upper_symbol_collection.
Qed.

(** The forms " aapl,msft " and [" aapl", "msft "]. *)
Lemma X1_symbol_input_forms_agree_witness :
  PortfolioQueryParams.upper_symbol (VStr " aapl,msft ")
  = Ok (VList [VStr "AAPL"; VStr "MSFT"])
  ∧ PortfolioQueryParams.upper_symbol (VList [VStr " aapl"; VStr "msft "])
    = Ok (VList [VStr "AAPL"; VStr "MSFT"]).
Proof.
  apply (X1_symbol_input_forms_agree [" aapl"; "msft "]).
  - discriminate.
  - repeat constructor.
Defined.

(** X2: on a collection of strings [upper_symbol] never fails and returns
    a list of the same length: position by position the trimmed,
    upper-cased element, so order and repetitions are kept. *)
Theorem X2_symbol_collection_positions (l : list string) :
  ∃ ss : list string,
    PortfolioQueryParams.upper_symbol (VList (VStr <$> l)) = Ok (VList (VStr <$> ss))
    ∧ length ss = length l
    ∧ ∀ i : nat, ss !! i = (λ s, PyStr.upper (PyStr.strip s)) <$> (l !! i).
Proof.
  exists (Chars.normal <$> l). split; [|split].
  - apply SymbolFacts.upper_symbol_collection.
  - apply length_fmap.
  - intros i. apply list_lookup_fmap.
Qed.

(** X3: on a string [upper_symbol] never fails, and the list it returns
    has one symbol more than the string has commas: empty segments are
    kept as empty symbols. *)
Theorem X3_symbol_string_segments (s : string) :
  ∃ ss : list string,
    PortfolioQueryParams.upper_symbol (VStr s) = Ok (VList (VStr <$> ss))
    ∧ length ss = S (Chars.count comma s).
Proof.
  exists (Chars.normal <$> PyStr.split comma s). split.
  - unfold PortfolioQueryParams.upper_symbol at 1.
    apply SymbolFacts.upper_symbol_collection.
  - rewrite length_fmap. apply StringFacts.split_length.
Qed.

(** X4: normalization is idempotent: whatever the input, a result of
    [upper_symbol] is returned unchanged when it is passed in again. *)
Theorem X4_symbol_normalization_idempotent (v out : pyval) :
  PortfolioQueryParams.upper_symbol v = Ok out →
  PortfolioQueryParams.upper_symbol out = Ok out.
Proof.
  intros H. destruct (SymbolOutcomes.upper_symbol_result v out H) as (ss & ->).
  rewrite SymbolFacts.upper_symbol_collection. do 3 f_equal.
  rewrite <- list_fmap_compose. apply list_fmap_ext.
  intros i s _. cbn. apply StringFacts.normal_fixed.
Qed.

Lemma X4_symbol_normalization_idempotent_witness :
  PortfolioQueryParams.upper_symbol (VList [VStr "AAPL"; VStr "MSFT"])
  = Ok (VList [VStr "AAPL"; VStr "MSFT"]).
Proof.
  apply (X4_symbol_normalization_idempotent (VStr " aapl, msft")). reflexivity.
Defined.

(** X5: whatever the input, a result of [upper_symbol] is a list of
    strings none of which has an ASCII lower-case letter, starts with white
    space or ends with white space. *)
Theorem X5_symbol_results_canonical (v out : pyval) :
  PortfolioQueryParams.upper_symbol v = Ok out →
  ∃ ss : list string,
    out = VList (VStr <$> ss)
    ∧ Forall (λ s, Chars.has_lower s = false
                   ∧ Chars.starts_with_space s = false
                   ∧ Chars.ends_with_space s = false) ss.
Proof.
  intros H. destruct (SymbolOutcomes.upper_symbol_result v out H) as (ss & ->).
  exists (Chars.normal <$> ss). split; [reflexivity|].
  apply Forall_fmap, Forall_forall. intros s _. cbn. unfold Chars.normal.
  destruct (StringFacts.strip_trimmed s) as [Hs He]. repeat split.
  - apply StringFacts.upper_no_lower.
  - rewrite StringFacts.upper_starts. exact Hs.
  - rewrite StringFacts.upper_ends. exact He.
Qed.

Lemma X5_symbol_results_canonical_witness :
  ∃ ss : list string,
    VList [VStr "BRK.B"; VStr ""] = VList (VStr <$> ss)
    ∧ Forall (λ s, Chars.has_lower s = false
                   ∧ Chars.starts_with_space s = false
                   ∧ Chars.ends_with_space s = false) ss.
Proof.
  apply (X5_symbol_results_canonical (VStr "  brk.b ,")). reflexivity.
Defined.

(** X6: on a collection, the first element that is not a [str] decides the
    failure. If it is a [bytes], [upper_symbol] raises its [ValueError] and
    the constructor reports a [ValidationError]; if it is [None], a [bool],
    an [int] or a [list], none of which has a [strip] method, the
    [AttributeError] of the missing [strip] leaves the constructor as it
    is. What follows that element is never looked at. *)
Theorem X6_symbol_first_non_string_decides (strs : list string) (v : pyval)
    (rest : list pyval) :
  let input := VList ((VStr <$> strs) ++ v :: rest)%list in
  let missing := new_exn "AttributeError"
                   ("'" ++ type_name v ++ "' object has no attribute 'strip'") in
  ((∃ b, v = VBytes b) →
   PortfolioQueryParams.upper_symbol input
   = Raise (new_exn "ValueError" "Every element in `symbol` list must be a `str`")
   ∧ ∃ e, PortfolioQueryParams.validate_symbol input = Raise e
          ∧ exn_cls e = "ValidationError")
  ∧ (v = VNone ∨ (∃ b, v = VBool b) ∨ (∃ z, v = VInt z) ∨ (∃ l, v = VList l) →
     PortfolioQueryParams.upper_symbol input = Raise missing
     ∧ PortfolioQueryParams.validate_symbol input = Raise missing).
Proof.
  intros input missing.
  assert (Hup : PortfolioQueryParams.isinstance_str v = false →
                PortfolioQueryParams.upper_symbol input
                = match v with
                  | VBytes _ =>
                      Raise (new_exn "ValueError"
                               "Every element in `symbol` list must be a `str`")
                  | _ => Raise missing
                  end).
  { intros Hv.
    unfold PortfolioQueryParams.upper_symbol, input. cbn [PortfolioQueryParams.iterate obind].
    rewrite (SymbolOutcomes.first_non_string strs v rest Hv).
    destruct v; reflexivity. }
  unfold PortfolioQueryParams.validate_symbol. split.
  - intros [b ->]. rewrite Hup by reflexivity. split; [reflexivity|].
    eexists. split; reflexivity.
  - intros [-> | [[b ->] | [[z ->] | [l ->]]]]; rewrite Hup by reflexivity;
      split; reflexivity.
Qed.

Lemma X6_symbol_first_non_string_decides_witness :
  (PortfolioQueryParams.upper_symbol (VList [VStr "aapl"; VBytes "msft"; VInt 5])
   = Raise (new_exn "ValueError" "Every element in `symbol` list must be a `str`")
   ∧ ∃ e, PortfolioQueryParams.validate_symbol
            (VList [VStr "aapl"; VBytes "msft"; VInt 5]) = Raise e
          ∧ exn_cls e = "ValidationError")
  ∧ (PortfolioQueryParams.upper_symbol (VList [VStr "aapl"; VNone; VBytes "msft"])
     = Raise (new_exn "AttributeError" "'NoneType' object has no attribute 'strip'")
     ∧ PortfolioQueryParams.validate_symbol (VList [VStr "aapl"; VNone; VBytes "msft"])
       = Raise (new_exn "AttributeError" "'NoneType' object has no attribute 'strip'")).
Proof.
  split.
  - apply (proj1 (X6_symbol_first_non_string_decides ["aapl"] (VBytes "msft") [VInt 5])).
    exists "msft". reflexivity.
  - apply (proj2 (X6_symbol_first_non_string_decides ["aapl"] VNone [VBytes "msft"])).
    left. reflexivity.
Defined.

(** ** More on the command parameters of momentum *)

Module MomentumQueryMore.
Import Momentum.

Lemma extra_errors_declared E declared (kw : gmap string pyval) :
  (∀ k, is_Some (kw !! k) → k ∈ declared) →
  Pydantic.extra_errors E declared kw = [].
Proof.
  intros Hkw. unfold Pydantic.extra_errors.
  destruct (extra_forbid E); [|reflexivity].
  apply elem_of_nil_inv. intros x Hx.
  apply list_elem_of_fmap in Hx as (k & -> & Hk).
  apply list_elem_of_filter in Hk as [Hnot Hin].
  apply list_elem_of_fmap in Hin as ([k' v] & -> & Hkv).
  apply elem_of_map_to_list in Hkv. apply Hnot, Hkw. cbn. eauto.
Qed.

Lemma of_momentum_lookup q :
  Fields.of_momentum q !! "method" = Some (VStr (method q))
  ∧ Fields.of_momentum q !! "period" = Some (VInt (period q))
  ∧ ∀ k, is_Some (Fields.of_momentum q !! k) → k ∈ ["method"; "period"].
Proof.
  unfold Fields.of_momentum. split; [|split].
  - apply lookup_insert_eq.
  - rewrite lookup_insert_ne by discriminate. apply lookup_singleton_eq.
  - intros k [v Hk].
    destruct (decide (k = "method")) as [->|Hm]; [apply elem_of_cons; left; reflexivity|].
    destruct (decide (k = "period")) as [->|Hp].
    + apply elem_of_cons. right. apply elem_of_cons. left. reflexivity.
    + rewrite lookup_insert_ne, lookup_singleton_ne in Hk by congruence. discriminate.
Qed.

Lemma new_accepts E (kw : gmap string pyval) m p :
  kw !! "method" = Some (VStr m) →
  kw !! "period" = Some (VInt p) →
  (∀ k, is_Some (kw !! k) → k ∈ ["method"; "period"]) →
  m ∈ methods → (1 ≤ p)%Z →
  QueryParams_new E kw = Ok {| method := m; period := p |}.
Proof.
  intros Hm Hp Hkw Hin Hle.
  unfold QueryParams_new, field_method, field_period. rewrite Hm, Hp.
  cbn [Pydantic.as_literal Pydantic.as_int ge].
  rewrite decide_True by exact Hin. cbn [Pydantic.after validate_method obind].
  replace (1 <=? p)%Z with true by (symmetry; apply Z.leb_le; exact Hle).
  cbn [Pydantic.errors_of app]. rewrite (extra_errors_declared E _ kw Hkw).
  reflexivity.
Qed.

End MomentumQueryMore.

(** X7: for keyword arguments that give [method] as a string [m] and
    [period] as an integer [p] and nothing else, the constructor of
    [MomentumQueryParams] returns the instance with these two values exactly
    when [m] is one of log, simple, shift and [p] is at least 1; otherwise
    it raises one [ValidationError] that lists every offending field, and
    only those. *)
Theorem X7_momentum_params_accepted_or_listed E (kw : gmap string pyval) (m : string) (p : Z) :
  kw !! "method" = Some (VStr m) →
  kw !! "period" = Some (VInt p) →
  (∀ k, is_Some (kw !! k) → k ∈ ["method"; "period"]) →
  let errs :=
    ((if decide (m ∈ Momentum.methods) then []
      else [("method", "Input should be one of log, simple, shift")])
     ++ (if decide (1 ≤ p)%Z then []
         else [("period", "Input should be greater than or equal to 1")]))%list in
  Momentum.QueryParams_new E kw
  = match errs with
    | [] => Ok {| Momentum.method := m; Momentum.period := p |}
    | _ => Raise (Pydantic.ValidationError "MomentumQueryParams" errs)
    end.
Proof.
  intros Hm Hp Hkw. cbv zeta.
  unfold Momentum.QueryParams_new, Momentum.field_method, Momentum.field_period.
  rewrite Hm, Hp. cbn [Pydantic.as_literal Pydantic.as_int Momentum.ge].
  rewrite (MomentumQueryMore.extra_errors_declared E _ kw Hkw).
  destruct (decide (m ∈ Momentum.methods)) as [Hin|Hout];
    cbn [Pydantic.after Momentum.validate_method obind];
    destruct (decide (1 ≤ p)%Z) as [Hle|Hlt].
  - replace (1 <=? p)%Z with true by (symmetry; apply Z.leb_le; exact Hle).
    reflexivity.
  - replace (1 <=? p)%Z with false by (symmetry; apply Z.leb_gt; lia).
    reflexivity.
  - replace (1 <=? p)%Z with true by (symmetry; apply Z.leb_le; exact Hle).
    reflexivity.
  - replace (1 <=? p)%Z with false by (symmetry; apply Z.leb_gt; lia).
    reflexivity.
Qed.

Lemma X7_momentum_params_accepted_or_listed_witness :
  Momentum.QueryParams_new Demo.collaborators
    {[ "method" := VStr "shift"; "period" := VInt 3 ]}
  = Ok {| Momentum.method := "shift"; Momentum.period := 3 |}
  ∧ Momentum.QueryParams_new Demo.collaborators
      {[ "method" := VStr "ema"; "period" := VInt 0 ]}
    = Raise (Pydantic.ValidationError "MomentumQueryParams"
               [("method", "Input should be one of log, simple, shift");
                ("period", "Input should be greater than or equal to 1")]).
Proof.
  split.
  - apply (X7_momentum_params_accepted_or_listed Demo.collaborators _ "shift" 3%Z);
      [reflexivity | reflexivity |].
    apply (MomentumQueryMore.of_momentum_lookup
             {| Momentum.method := "shift"; Momentum.period := 3 |}).
  - apply (X7_momentum_params_accepted_or_listed Demo.collaborators _ "ema" 0%Z);
      [reflexivity | reflexivity |].
    apply (MomentumQueryMore.of_momentum_lookup
             {| Momentum.method := "ema"; Momentum.period := 0 |}).
Defined.

(** X8: validating again does not drift: the constructor of
    [MomentumQueryParams], given the field values of an instance that
    satisfies the declared constraints, returns that instance. *)
Theorem X8_momentum_params_revalidate E (q : Momentum.QueryParams) :
  MomentumStages.validated q →
  Momentum.QueryParams_new E (Fields.of_momentum q) = Ok q.
Proof.
  intros [Hm Hp]. destruct (MomentumQueryMore.of_momentum_lookup q) as (Hlm & Hlp & Hkw).
  rewrite (MomentumQueryMore.new_accepts E _ _ _ Hlm Hlp Hkw Hm Hp).
  destruct q. reflexivity.
Qed.

Lemma X8_momentum_params_revalidate_witness :
  Momentum.QueryParams_new Demo.collaborators
    (Fields.of_momentum {| Momentum.method := "simple"; Momentum.period := 20 |})
  = Ok {| Momentum.method := "simple"; Momentum.period := 20 |}.
Proof.
  apply X8_momentum_params_revalidate. split; cbn.
  - apply elem_of_cons. right. apply elem_of_cons. left. reflexivity.
  - lia.
Defined.

(** ** More on [MomentumFetcher] *)

Lemma bind_cases {F A B} (m : M F A) (k : A → M F B) (s : State F) r s' :
  bind m k s = (r, s') →
  (∃ e, m s = (Raise e, s') ∧ r = Raise e)
  ∨ (∃ a s1, m s = (Ok a, s1) ∧ k a s1 = (r, s')).
Proof.
  unfold bind. destruct (m s) as [[a|e] s1]; intros H.
  - right. eauto.
  - left. injection H as <- <-. eauto.
Qed.

Module MomentumMore.
Import Momentum MomentumStages MomentumFacts MomentumFetch MomentumRun.

(** [transform_data] works on the Fetcher alone. *)
Lemma momentum_transform_data_frame E (s s' : State Fetcher) r :
  transform_data E s = (r, s') →
  world s' = world s
  ∧ command_params (self s') = command_params (self s)
  ∧ warnings (self s') = warnings (self s).
Proof.
  destruct s as [w [cp wl ex ch eh td]].
  unfold transform_data, command_field, update_self. unfold_monad. cbn.
  destruct ex as [x|]; cbn; [|intros [= <- <-]; auto].
  destruct eh as [data|]; cbn; [|intros [= <- <-]; auto].
  destruct cp as [|kw|q]; cbn; try (intros [= <- <-]; auto).
  destruct (momentum E data _ _) as [out|e]; cbn; [intros [= <- <-]; auto|].
  destruct (isinstance_Exception e); cbn; intros [= <- <-]; auto.
Qed.

(** The Fetcher and the context after a successful [fetch_data]. *)
Lemma momentum_fetch_data_final E (s s' : State Fetcher) env :
  fetch_data E s = (Ok env, s') →
  let c := context_params (world s) in
  let c' := context_params (world s') in
  (∃ q, command_params (self s') = Pydantic.CmdModel q)
  ∧ Toolbox.symbols c' = Toolbox.symbols c
  ∧ Toolbox.start_date c' = Toolbox.start_date c
  ∧ Toolbox.end_date c' = Toolbox.end_date c
  ∧ Toolbox.provider c' = Toolbox.provider c
  ∧ (Toolbox.warnings c = None →
     Toolbox.warnings c' = Some (length (lists (world s)))
     ∧ lists (world s') !! length (lists (world s)) = Some []).
Proof.
  intros H c c'. subst c'. unfold fetch_data, log_start_end in H.
  apply bind_ok in H as ([] & s1 & H1 & H).
  rewrite momentum_transform_query_eq in H1.
  destruct (query_of E _) as [q|] eqn:Hq; [|discriminate]. injection H1 as <-.
  apply bind_ok in H as ([] & s2 & H2 & H).
  rewrite momentum_extract_data_eq in H2. cbn [world self] in H2. fold c in H2.
  destruct (historical E _) as [t|] eqn:Ht; [|discriminate]. injection H2 as <-.
  apply bind_ok in H as ([] & s3 & H3 & H).
  apply momentum_transform_data_ok in H3 as (x & data & q' & out & Hx & Hd & Hq' & Hk & ->).
  cbn in Hx, Hd, Hq'. injection Hd as <-. injection Hq' as <-.
  destruct s as [[c0 ls pc] [cp wl ex ch eh td]]. subst c. cbn in *. subst ex.
  unfold update_self in H. unfold_monad. cbn in H.
  destruct (Toolbox.warnings c0) as [lc|] eqn:Hc, wl as [lf|]; cbn in H.
  all: rewrite ?Hc in H; cbn in H.
  all: injection H as <- <-; cbn.
  all: split; [eexists; reflexivity|].
  all: repeat split; try reflexivity; try discriminate.
  - rewrite <- app_assoc. cbn. apply list_lookup_middle. reflexivity.
  - rewrite <- !app_assoc. cbn. apply list_lookup_middle. reflexivity.
Qed.

End MomentumMore.

(** X9: when a [MomentumFetcher] holds a mapping of command parameters
    whose [method] is not one of the strings log, simple, shift,
    [fetch_data] raises a [ValidationError] that names the field; it is
    raised by [transform_query], before any provider call, and the Fetcher
    and the store are left as they were. *)
Theorem X9_momentum_bad_method_fails_fast
    E (s : State Momentum.Fetcher) (kw : gmap string pyval) (v : pyval) :
  Momentum.command_params (self s) = Pydantic.CmdDict kw →
  kw !! "method" = Some v →
  (∀ m, v = VStr m → m ∉ Momentum.methods) →
  ∃ errs,
    let e := Pydantic.ValidationError "MomentumQueryParams" errs in
    ("method", "Input should be one of log, simple, shift") ∈ errs
    ∧ Momentum.transform_query E s = (Raise e, s)
    ∧ Momentum.fetch_data E s = (Raise e, s).
Proof.
  intros Hcp Hm Hbad.
  assert (Hlit : Pydantic.as_literal Momentum.methods v
                 = Pydantic.Invalid "Input should be one of log, simple, shift").
  { unfold Pydantic.as_literal. destruct v; try reflexivity.
    destruct (decide (s0 ∈ Momentum.methods)) as [Hin|]; [|reflexivity].
    exfalso. exact (Hbad s0 eq_refl Hin). }
  set (p := Momentum.field_period E kw).
  set (errs := (Pydantic.errors_of "method"
                  (Pydantic.Invalid (A:=string) "Input should be one of log, simple, shift")
                ++ Pydantic.errors_of "period" p
                ++ Pydantic.extra_errors E ["method"; "period"] kw)%list).
  assert (Hq : MomentumStages.query_of E (Momentum.command_params (self s))
               = Raise (Pydantic.ValidationError "MomentumQueryParams" errs)).
  { rewrite Hcp. unfold MomentumStages.query_of.
    rewrite (QueryFacts.truthy_nonempty kw "method" _ Hm).
    cbn [negb Pydantic.unpack obind].
    unfold Momentum.QueryParams_new, Momentum.field_method. rewrite Hm, Hlit.
    reflexivity. }
  exists errs. cbv zeta. split; [|split].
  - unfold errs. cbn [Pydantic.errors_of]. apply elem_of_app. left.
    apply elem_of_cons. left. reflexivity.
  - rewrite MomentumFacts.momentum_transform_query_eq, Hq. reflexivity.
  - apply (MomentumRun.momentum_fetch_data_query_raise E s _ Hq).
Qed.

(** A Fetcher given the method "ema", and one given the number 3. *)
Lemma X9_momentum_bad_method_fails_fast_witness :
  let s := Momentum.__init__ (Pydantic.CmdDict {[ "method" := VStr "ema" ]}) Demo.session in
  let s' := Momentum.__init__ (Pydantic.CmdDict {[ "method" := VInt 3 ]}) Demo.session in
  (∃ errs,
     let e := Pydantic.ValidationError "MomentumQueryParams" errs in
     ("method", "Input should be one of log, simple, shift") ∈ errs
     ∧ Momentum.transform_query Demo.collaborators s = (Raise e, s)
     ∧ Momentum.fetch_data Demo.collaborators s = (Raise e, s))
  ∧ (∃ errs,
     let e := Pydantic.ValidationError "MomentumQueryParams" errs in
     ("method", "Input should be one of log, simple, shift") ∈ errs
     ∧ Momentum.transform_query Demo.collaborators s' = (Raise e, s')
     ∧ Momentum.fetch_data Demo.collaborators s' = (Raise e, s')).
Proof.
  cbv zeta. split.
  - apply (X9_momentum_bad_method_fails_fast Demo.collaborators _
             {[ "method" := VStr "ema" ]} (VStr "ema"));
      [reflexivity | reflexivity |].
    intros m [= <-] Hin. vm_compute in Hin.
    repeat (apply elem_of_cons in Hin as [Hin|Hin]; [discriminate Hin|]).
    inversion Hin.
  - apply (X9_momentum_bad_method_fails_fast Demo.collaborators _
             {[ "method" := VInt 3 ]} (VInt 3));
      [reflexivity | reflexivity |].
    intros m Hm. discriminate Hm.
Defined.

(** X10: [fetch_data] of a newly constructed [MomentumFetcher] succeeds
    exactly when the command parameters validate, the provider returns a
    table and the kernel returns on the extracted table with the validated
    method and period. The envelope then holds the kernel's output, the
    context's provider, the validated command parameters, no chart, and as
    warnings the context's warnings alone. *)
Theorem X10_momentum_fetch_succeeds_iff E cp (w : World) :
  let c := context_params w in
  (∀ q t out,
     MomentumStages.query_of E cp = Ok q →
     historical E (Momentum.request_of c) = Ok t →
     momentum E (MomentumStages.extracted (Toolbox.symbols c) t)
       (Momentum.method q) (Momentum.period q) = Ok out →
     ∃ env s',
       Momentum.fetch_data E (Momentum.__init__ cp w) = (Ok env, s')
       ∧ HumblObject.results env = Frame out
       ∧ HumblObject.provider env = Toolbox.provider c
       ∧ HumblObject.command_params env = Some (Pydantic.CmdModel q)
       ∧ HumblObject.chart env = None
       ∧ envelope_warnings (world s') env
         = Some (MomentumStages.warnings_of w (Toolbox.warnings c)))
  ∧ (∀ env s',
     Momentum.fetch_data E (Momentum.__init__ cp w) = (Ok env, s') →
     ∃ q t out,
       MomentumStages.query_of E cp = Ok q
       ∧ historical E (Momentum.request_of c) = Ok t
       ∧ momentum E (MomentumStages.extracted (Toolbox.symbols c) t)
           (Momentum.method q) (Momentum.period q) = Ok out).
Proof.
  intros c. split.
  - intros q t out Hq Ht Hk.
    unfold Momentum.fetch_data, log_start_end, Momentum.__init__.
    erewrite bind_run; cycle 1.
    { apply MomentumRun.momentum_transform_query_ok. exact Hq. }
    erewrite bind_run; cycle 1.
    { rewrite MomentumFacts.momentum_extract_data_eq. cbn [world self context_params].
      fold c. rewrite Ht. reflexivity. }
    erewrite bind_run; cycle 1.
    { erewrite MomentumFacts.momentum_transform_data_eq; [|reflexivity..].
      cbn [Momentum.method Momentum.period]. rewrite Hk. reflexivity. }
    destruct w as [c0 ls pc]. subst c. cbn in *.
    unfold Momentum.update_self. unfold_monad. cbn.
    destruct (Toolbox.warnings c0) as [lc|] eqn:Hc; cbn; rewrite ?Hc; cbn.
    + eexists _, _. split; [reflexivity|]. cbn. repeat split.
      unfold envelope_warnings. cbn.
      rewrite lookup_fresh, lookup_fresh, deref_snoc_nil, app_nil_r. reflexivity.
    + eexists _, _. split; [reflexivity|]. cbn. repeat split.
      unfold envelope_warnings. cbn.
      rewrite lookup_fresh. f_equal.
      rewrite (lookup_fresh (ls ++ [[]])%list).
      rewrite (lookup_app_l (ls ++ [[]])%list) by (rewrite length_app; cbn; lia).
      rewrite lookup_fresh. reflexivity.
  - intros env s' H. apply MomentumFetch.momentum_fetch_data_ok in H
      as (q & t & x & out & l & Hq & Ht & _ & Hk & _).
    exists q, t, out. auto.
Qed.

Lemma X10_momentum_fetch_succeeds_iff_witness :
  ∃ env s',
    Momentum.fetch_data Demo.collaborators
      (Momentum.__init__ Pydantic.CmdNone Demo.session) = (Ok env, s')
    ∧ HumblObject.results env
      = Frame (Demo.with_momentum
                 (MomentumStages.extracted ["AAPL"] Demo.prices))
    ∧ HumblObject.provider env = "yahoo"
    ∧ HumblObject.command_params env = Some (Pydantic.CmdModel MomentumStages.defaults)
    ∧ HumblObject.chart env = None
    ∧ envelope_warnings (world s') env = Some ["A"; "B"].
Proof.
  apply (proj1 (X10_momentum_fetch_succeeds_iff Demo.collaborators Pydantic.CmdNone
                  Demo.session)
           MomentumStages.defaults Demo.prices); vm_compute; reflexivity.
Defined.

(** X11: what [MomentumFetcher.fetch_data] does to the store, whatever its
    outcome. Every list object that existed keeps its elements; the
    context keeps its symbols, dates, provider and, when it has one, its
    warnings list; exactly one provider call is recorded when the command
    parameters validated and none when they did not. When [fetch_data]
    raises, no list object has been created and the context is
    untouched. *)
Theorem X11_momentum_fetch_store_effects E (s s' : State Momentum.Fetcher) r :
  Momentum.fetch_data E s = (r, s') →
  let c := context_params (world s) in
  let c' := context_params (world s') in
  (∀ l v, lists (world s) !! l = Some v → lists (world s') !! l = Some v)
  ∧ Toolbox.symbols c' = Toolbox.symbols c
  ∧ Toolbox.start_date c' = Toolbox.start_date c
  ∧ Toolbox.end_date c' = Toolbox.end_date c
  ∧ Toolbox.provider c' = Toolbox.provider c
  ∧ (∀ lc, Toolbox.warnings c = Some lc → Toolbox.warnings c' = Some lc)
  ∧ provider_calls (world s')
    = (provider_calls (world s)
       ++ match MomentumStages.query_of E (Momentum.command_params (self s)) with
          | Ok _ => [Momentum.request_of c]
          | Raise _ => []
          end)%list
  ∧ (∀ e, r = Raise e → lists (world s') = lists (world s) ∧ c' = c).
Proof.
  intros H c c'. destruct r as [env|e].
  - pose proof (MomentumFetch.momentum_fetch_data_ok E s s' env H)
      as (q & t & x & out & l & Hq & _ & _ & _ & _ & _ & _ & _ & _ & _ & _ & _
          & Hprefix & Hctx & Hcalls & _).
    pose proof (MomentumMore.momentum_fetch_data_final E s s' env H)
      as (_ & Hsy & Hsd & Hed & Hpr & _).
    repeat split; try assumption.
    + intros l' v Hv. eapply prefix_lookup_Some; eassumption.
    + rewrite Hq. exact Hcalls.
    + discriminate.
    + discriminate.
  - assert (Hw : (world s' = world s
                  ∧ ∃ e', MomentumStages.query_of E (Momentum.command_params (self s))
                          = Raise e')
                 ∨ (world s' = called (Momentum.request_of c) (world s)
                    ∧ ∃ q, MomentumStages.query_of E (Momentum.command_params (self s))
                           = Ok q)).
    { unfold Momentum.fetch_data, log_start_end in H.
      apply bind_cases in H as [(e1 & H1 & _) | ([] & s1 & H1 & H)];
        rewrite MomentumFacts.momentum_transform_query_eq in H1;
        destruct (MomentumStages.query_of E _) as [q|e0] eqn:Hq; try discriminate.
      { left. injection H1 as _ <-. eauto. }
      right. injection H1 as <-. split; [|eauto].
      apply bind_cases in H as [(e2 & H2 & _) | ([] & s2 & H2 & H)];
        rewrite MomentumFacts.momentum_extract_data_eq in H2; cbn [world self] in H2;
        fold c in H2; destruct (historical E _) as [t|e0]; try discriminate.
      { injection H2 as _ <-. reflexivity. }
      injection H2 as <-.
      apply bind_cases in H as [(e3 & H3 & _) | ([] & s3 & H3 & H)].
      { apply MomentumMore.momentum_transform_data_frame in H3 as (-> & _). reflexivity. }
      exfalso.
      apply MomentumFetch.momentum_transform_data_ok in H3
        as (x & data & q' & out & Hx & Hd & Hq' & Hk & ->).
      destruct s as [[c0 ls pc] [cp wl ex ch eh td]]. subst c. cbn in *. subst ex.
      unfold Momentum.update_self in H. unfold_monad. cbn in H.
      destruct (Toolbox.warnings c0) as [lc|] eqn:Hc, wl as [lf|]; cbn in H;
        rewrite ?Hc in H; cbn in H; discriminate. }
    destruct Hw as [(Hw & e' & Hq) | (Hw & q & Hq)]; subst c'; rewrite Hw, Hq.
    + repeat split; try reflexivity; try (intros; assumption).
      rewrite app_nil_r. reflexivity.
    + repeat split; try reflexivity; try (intros; assumption).
Qed.

(** A fetch that succeeds and one whose period does not validate. *)
Lemma X11_momentum_fetch_store_effects_witness :
  let good := Momentum.__init__ Pydantic.CmdNone Demo.session in
  let bad := Momentum.__init__ (Pydantic.CmdDict {[ "period" := VInt 0 ]}) Demo.session in
  provider_calls (world (snd (Momentum.fetch_data Demo.collaborators good)))
  = [Momentum.request_of Demo.context]
  ∧ provider_calls (world (snd (Momentum.fetch_data Demo.collaborators bad))) = []
  ∧ lists (world (snd (Momentum.fetch_data Demo.collaborators bad))) = lists (world bad).
Proof.
  cbv zeta. repeat apply conj.
  - pose proof (X11_momentum_fetch_store_effects Demo.collaborators
                  (Momentum.__init__ Pydantic.CmdNone Demo.session)
                  (snd (Momentum.fetch_data Demo.collaborators
                          (Momentum.__init__ Pydantic.CmdNone Demo.session)))
                  (fst (Momentum.fetch_data Demo.collaborators
                          (Momentum.__init__ Pydantic.CmdNone Demo.session))))
      as H.
    destruct H as (_ & _ & _ & _ & _ & _ & Hcalls & _);
      [vm_compute; reflexivity|].
    exact Hcalls.
  - pose proof (X11_momentum_fetch_store_effects Demo.collaborators
                  (Momentum.__init__ (Pydantic.CmdDict {[ "period" := VInt 0 ]})
                     Demo.session)
                  (snd (Momentum.fetch_data Demo.collaborators
                          (Momentum.__init__ (Pydantic.CmdDict {[ "period" := VInt 0 ]})
                             Demo.session)))
                  (fst (Momentum.fetch_data Demo.collaborators
                          (Momentum.__init__ (Pydantic.CmdDict {[ "period" := VInt 0 ]})
                             Demo.session))))
      as H.
    destruct H as (_ & _ & _ & _ & _ & _ & Hcalls & _);
      [vm_compute; reflexivity|].
    exact Hcalls.
  - pose proof (X11_momentum_fetch_store_effects Demo.collaborators
                  (Momentum.__init__ (Pydantic.CmdDict {[ "period" := VInt 0 ]})
                     Demo.session)
                  (snd (Momentum.fetch_data Demo.collaborators
                          (Momentum.__init__ (Pydantic.CmdDict {[ "period" := VInt 0 ]})
                             Demo.session)))
                  (fst (Momentum.fetch_data Demo.collaborators
                          (Momentum.__init__ (Pydantic.CmdDict {[ "period" := VInt 0 ]})
                             Demo.session))))
      as H.
    destruct H as (_ & _ & _ & _ & _ & _ & _ & Hraise);
      [vm_compute; reflexivity|].
    eapply Hraise. vm_compute. reflexivity.
Defined.

(** X12: when the kernel raises [e] in a newly constructed
    [MomentumFetcher] (the command parameters validate, the provider returns
    a table) and [e] is an [Exception], [fetch_data] does not raise [e], nor
    the [HumblDataError] its handler names: it raises a [NameError] for that
    name, with [e] as its context and no cause. An [e] that is not an
    [Exception], such as a [KeyboardInterrupt], is not handled and leaves
    [fetch_data] as it is. Either way one provider call has been made,
    [extra] already holds the metadata, and no transformed data is kept. *)
Theorem X12_momentum_kernel_failure_is_name_error E cp (w : World) q t e :
  let c := context_params w in
  MomentumStages.query_of E cp = Ok q →
  historical E (Momentum.request_of c) = Ok t →
  momentum E (MomentumStages.extracted (Toolbox.symbols c) t)
    (Momentum.method q) (Momentum.period q) = Raise e →
  ∃ s',
    (isinstance_Exception e = true →
     Momentum.fetch_data E (Momentum.__init__ cp w)
     = (Raise (Exn "NameError" "name 'HumblDataError' is not defined" None (Some e)), s'))
    ∧ (isinstance_Exception e = false →
       Momentum.fetch_data E (Momentum.__init__ cp w) = (Raise e, s'))
    ∧ provider_calls (world s') = (provider_calls w ++ [Momentum.request_of c])%list
    ∧ Momentum.extra (self s') = Some (MomentumStages.recorded ∅)
    ∧ Momentum.transformed_data (self s') = None.
Proof.
  intros c Hq Ht Hk.
  unfold Momentum.fetch_data, log_start_end, Momentum.__init__.
  erewrite bind_run; cycle 1.
  { apply MomentumRun.momentum_transform_query_ok. exact Hq. }
  erewrite bind_run; cycle 1.
  { rewrite MomentumFacts.momentum_extract_data_eq. cbn [world self context_params].
    fold c. rewrite Ht. reflexivity. }
  erewrite bind_raise; cycle 1.
  { erewrite MomentumFacts.momentum_transform_data_eq; [|reflexivity..].
    cbn [Momentum.method Momentum.period]. rewrite Hk. reflexivity. }
  eexists. split; [intros ->; reflexivity|]. split; [intros ->; reflexivity|].
  cbn. repeat split.
Qed.

(** A kernel that raises polars' [ComputeError], and one that is
    interrupted. *)
Lemma X12_momentum_kernel_failure_is_name_error_witness :
  (∃ s',
     Momentum.fetch_data Demo.failing_kernel
       (Momentum.__init__ Pydantic.CmdNone Demo.session)
     = (Raise (Exn "NameError" "name 'HumblDataError' is not defined" None
                 (Some (new_exn "ComputeError" "close column is missing"))), s')
     ∧ provider_calls (world s') = [Momentum.request_of Demo.context]
     ∧ Momentum.extra (self s') = Some (MomentumStages.recorded ∅)
     ∧ Momentum.transformed_data (self s') = None)
  ∧ (∃ s',
     Momentum.fetch_data Cases.interrupted
       (Momentum.__init__ Pydantic.CmdNone Demo.session)
     = (Raise (new_exn "KeyboardInterrupt" ""), s')
     ∧ provider_calls (world s') = [Momentum.request_of Demo.context]
     ∧ Momentum.extra (self s') = Some (MomentumStages.recorded ∅)
     ∧ Momentum.transformed_data (self s') = None).
Proof.
  split.
  - destruct (X12_momentum_kernel_failure_is_name_error Demo.failing_kernel
                Pydantic.CmdNone Demo.session MomentumStages.defaults Demo.prices
                (new_exn "ComputeError" "close column is missing"))
      as (s' & H & _ & Hrest); [vm_compute; reflexivity..|].
    exists s'. split; [apply H; vm_compute; reflexivity | exact Hrest].
  - destruct (X12_momentum_kernel_failure_is_name_error Cases.interrupted
                Pydantic.CmdNone Demo.session MomentumStages.defaults Demo.prices
                (new_exn "KeyboardInterrupt" ""))
      as (s' & _ & H & Hrest); [vm_compute; reflexivity..|].
    exists s'. split; [apply H; vm_compute; reflexivity | exact Hrest].
Defined.

(** X13: a [MomentumFetcher] serves one fetch. After a successful
    [fetch_data] its command parameters are a model instance, so a second
    [fetch_data] on it raises the [TypeError] of the keyword unpacking in
    [transform_query], makes no provider call and changes nothing. *)
Theorem X13_momentum_fetcher_is_single_use E (s s' : State Momentum.Fetcher) env :
  Momentum.fetch_data E s = (Ok env, s') →
  ∃ e, Momentum.fetch_data E s' = (Raise e, s') ∧ exn_cls e = "TypeError".
Proof.
  intros H. apply MomentumMore.momentum_fetch_data_final in H as ((q & Hq) & _).
  eexists. split.
  - apply MomentumRun.momentum_fetch_data_query_raise.
    rewrite Hq. reflexivity.
  - reflexivity.
Qed.

Lemma X13_momentum_fetcher_is_single_use_witness :
  let s' := snd (Momentum.fetch_data Demo.collaborators
                   (Momentum.__init__ Pydantic.CmdNone Demo.session)) in
  ∃ e, Momentum.fetch_data Demo.collaborators s' = (Raise e, s')
       ∧ exn_cls e = "TypeError".
Proof.
  cbv zeta.
  eapply (X13_momentum_fetcher_is_single_use Demo.collaborators
            (Momentum.__init__ Pydantic.CmdNone Demo.session)).
  vm_compute. reflexivity.
Defined.

(** X14: warnings do not leak between commands. When two newly constructed
    [MomentumFetcher]s of one session fetch one after the other, each
    envelope's warnings are the context's warnings, held in a list object
    of its own; the second fetch leaves the first envelope's list as it
    was, and after both the context's warnings are what they were. *)
Theorem X14_momentum_fetchers_share_context_safely
    E (w : World) cp1 cp2 env1 env2 (s1 s2 : State Momentum.Fetcher) lc wc :
  Toolbox.warnings (context_params w) = Some lc →
  lists w !! lc = Some wc →
  Momentum.fetch_data E (Momentum.__init__ cp1 w) = (Ok env1, s1) →
  Momentum.fetch_data E (Momentum.__init__ cp2 (world s1)) = (Ok env2, s2) →
  envelope_warnings (world s1) env1 = Some wc
  ∧ envelope_warnings (world s2) env1 = Some wc
  ∧ envelope_warnings (world s2) env2 = Some wc
  ∧ context_warnings (world s2) = Some wc
  ∧ HumblObject.warnings env1 ≠ HumblObject.warnings env2
  ∧ HumblObject.warnings env1 ≠ Some lc
  ∧ HumblObject.warnings env2 ≠ Some lc.
Proof.
  intros Hlc Hwc H1 H2.
  assert (Hlt : (lc < length (lists w))%nat) by (eapply lookup_lt_Some; eassumption).
  apply MomentumFetch.momentum_fetch_data_ok in H1
    as (_ & _ & _ & _ & l1 & _ & _ & _ & _ & _ & _ & _ & _ & _
        & Hl1 & Hfresh1 & Hm1 & Hp1 & Hctx1 & _).
  apply MomentumFetch.momentum_fetch_data_ok in H2
    as (_ & _ & _ & _ & l2 & _ & _ & _ & _ & _ & _ & _ & _ & _
        & Hl2 & Hfresh2 & Hm2 & Hp2 & Hctx2 & _).
  cbn [world self Momentum.__init__ context_params lists Momentum.warnings] in *.
  specialize (Hctx1 lc Hlc). specialize (Hctx2 lc Hctx1).
  assert (Hwc1 : lists (world s1) !! lc = Some wc).
  { eapply prefix_lookup_Some; [|exact Hp1]. rewrite lookup_app_l by exact Hlt. exact Hwc. }
  assert (Hwc2 : lists (world s2) !! lc = Some wc).
  { eapply prefix_lookup_Some; [|exact Hp2].
    rewrite lookup_app_l by (eapply lookup_lt_Some; exact Hwc1). exact Hwc1. }
  rewrite Hlc in Hm1. rewrite Hctx1 in Hm2.
  unfold MomentumStages.warnings_of in Hm1, Hm2. cbn [lists] in Hm1, Hm2.
  assert (Hn : lists w !! (lc : nat) = Some wc) by exact Hwc.
  assert (Hn1 : lists (world s1) !! (lc : nat) = Some wc) by exact Hwc1.
  rewrite !deref_snoc_nil, Hn in Hm1.
  rewrite (lookup_ge_None_2 (lists w) (length (lists w))) in Hm1 by lia.
  rewrite !deref_snoc_nil, Hn1 in Hm2.
  rewrite (lookup_ge_None_2 (lists (world s1)) (length (lists (world s1)))) in Hm2 by lia.
  cbn in Hm1, Hm2. rewrite app_nil_r in Hm1, Hm2.
  rewrite length_app in Hfresh1, Hfresh2. cbn in Hfresh1, Hfresh2.
  assert (Hl1lt : (l1 < length (lists (world s1)))%nat)
    by (eapply lookup_lt_Some; exact Hm1).
  unfold envelope_warnings, context_warnings. rewrite Hl1, Hl2, Hctx2.
  repeat split.
  - exact Hm1.
  - eapply prefix_lookup_Some; [|exact Hp2]. rewrite lookup_app_l by exact Hl1lt. exact Hm1.
  - exact Hm2.
  - exact Hwc2.
  - intros [= Heq]. lia.
  - intros [= Heq]. lia.
  - intros [= Heq]. lia.
Qed.

Lemma X14_momentum_fetchers_share_context_safely_witness :
  let r1 := Momentum.fetch_data Demo.collaborators
              (Momentum.__init__ Pydantic.CmdNone Demo.session) in
  let r2 := Momentum.fetch_data Demo.collaborators
              (Momentum.__init__ (Pydantic.CmdDict {[ "period" := VInt 5 ]})
                 (world (snd r1))) in
  ∃ env1 env2,
    fst r1 = Ok env1 ∧ fst r2 = Ok env2
    ∧ envelope_warnings (world (snd r2)) env1 = Some ["A"; "B"]
    ∧ envelope_warnings (world (snd r2)) env2 = Some ["A"; "B"]
    ∧ context_warnings (world (snd r2)) = Some ["A"; "B"]
    ∧ HumblObject.warnings env1 ≠ HumblObject.warnings env2.
Proof.
  cbv zeta. eexists _, _.
  split; [vm_compute; reflexivity|]. split; [vm_compute; reflexivity|].
  edestruct (X14_momentum_fetchers_share_context_safely Demo.collaborators
               Demo.session Pydantic.CmdNone
               (Pydantic.CmdDict {[ "period" := VInt 5 ]}))
    as (_ & H1 & H2 & Hc & Hne & _).
  - reflexivity.
  - reflexivity.
  - vm_compute. reflexivity.
  - vm_compute. reflexivity.
  - split; [exact H1|]. split; [exact H2|]. split; [exact Hc | exact Hne].
Defined.

(** X15: when the shared context has no [warnings] attribute, a successful
    [MomentumFetcher.fetch_data] gives it one: a new, empty list object,
    which every later Fetcher of the session sees. The envelope's warnings
    are then the Fetcher's own warnings. *)
Theorem X15_momentum_fetch_gives_context_warnings
    E (s s' : State Momentum.Fetcher) env :
  Toolbox.warnings (context_params (world s)) = None →
  Momentum.fetch_data E s = (Ok env, s') →
  ∃ l0 : nat,
    Toolbox.warnings (context_params (world s')) = Some l0
    ∧ lists (world s) !! l0 = None
    ∧ context_warnings (world s') = Some []
    ∧ envelope_warnings (world s') env
      = Some (MomentumStages.warnings_of (world s) (Momentum.warnings (self s))).
Proof.
  intros Hnone H.
  pose proof (MomentumMore.momentum_fetch_data_final E s s' env H)
    as (_ & _ & _ & _ & _ & Hnew).
  destruct (Hnew Hnone) as [Hattr Hempty].
  apply MomentumFetch.momentum_fetch_data_ok in H
    as (_ & _ & _ & _ & l & _ & _ & _ & _ & _ & _ & _ & _ & _
        & Hl & _ & Hm & _).
  exists (length (lists (world s))). split; [exact Hattr|]. split; [|split].
  - apply lookup_ge_None_2. lia.
  - unfold context_warnings. rewrite Hattr. exact Hempty.
  - unfold envelope_warnings. rewrite Hl, Hm, Hnone. reflexivity.
Qed.

Lemma X15_momentum_fetch_gives_context_warnings_witness :
  ∃ env s' (l0 : nat),
    Momentum.fetch_data Demo.collaborators
      (Momentum.__init__ Pydantic.CmdNone Cases.unwarned_session) = (Ok env, s')
    ∧ Toolbox.warnings (context_params (world s')) = Some l0
    ∧ context_warnings (world s') = Some []
    ∧ envelope_warnings (world s') env = Some [].
Proof.
  eexists _, _.
  edestruct (X15_momentum_fetch_gives_context_warnings Demo.collaborators
               (Momentum.__init__ Pydantic.CmdNone Cases.unwarned_session))
    as (l0 & Hattr & _ & Hctx & Henv).
  - reflexivity.
  - vm_compute. reflexivity.
  - exists l0. split; [reflexivity|]. split; [exact Hattr|].
    split; [exact Hctx | exact Henv].
Defined.

(** ** More on the command parameters of the channel *)

Module ChannelQueryMore.
Import MandelbrotChannel.


(** With a [window] that is given as a string, the other fields and the
    undeclared keywords decide between an instance and a
    [ValidationError]. *)
Lemma new_with_window E (kw : gmap string pyval) s w :
  kw !! "window" = Some (VStr s) →
  field_window E kw = Ok w →
  (∃ q r, QueryParams_new E kw = Ok q ∧ w = Pydantic.Valid r ∧ window q = r)
  ∨ (∃ errs, QueryParams_new E kw
             = Raise (Pydantic.ValidationError "MandelbrotChannelQueryParams" errs)
             ∧ ∀ msg, w = Pydantic.Invalid msg → ("window", msg) ∈ errs).
Proof.
  intros Hs Hw. unfold QueryParams_new. rewrite Hw. cbn [obind].
  destruct w as [r|msg].
  - destruct (field_bool E kw "rv_adjustment" true);
      destruct (field_literal kw "rv_method" "std" rv_methods);
      destruct (field_literal kw "rs_method" "RS" rs_methods);
      destruct (field_bool E kw "rv_grouped_mean" false);
      destruct (field_bool E kw "live_price" false);
      try (right; eexists; split; [reflexivity | discriminate]).
    destruct (_ ++ _)%list eqn:Herrs.
    + left. eexists _, _. split; [reflexivity|]. split; reflexivity.
    + right. eexists. split; [reflexivity | discriminate].
  - right. eexists. split; [reflexivity|].
    intros msg' [= <-]. cbn [Pydantic.errors_of]. apply elem_of_app. left.
    apply elem_of_cons. left. reflexivity.
Qed.

End ChannelQueryMore.

(** X16: what the constructor of [MandelbrotChannelQueryParams] does with a
    [window] given as a string [s]. If [_window_format] returns [w], an
    instance that is constructed has [w] as its window, not [s]. If
    [_window_format] raises a [ValueError] or an [AssertionError], the
    constructor raises a [ValidationError] that lists the field with the
    message of that exception. Any other exception of [_window_format]
    leaves the constructor unchanged, whatever the other fields are. *)
Theorem X16_channel_window_is_formatted E (kw : gmap string pyval) (s : string) :
  kw !! "window" = Some (VStr s) →
  match _window_format E s with
  | Ok w =>
      ∀ q, MandelbrotChannel.QueryParams_new E kw = Ok q →
           MandelbrotChannel.window q = w
  | Raise e =>
      if decide (exn_cls e = "ValueError" ∨ exn_cls e = "AssertionError")
      then ∃ errs,
             MandelbrotChannel.QueryParams_new E kw
             = Raise (Pydantic.ValidationError "MandelbrotChannelQueryParams" errs)
             ∧ ("window", exn_msg e) ∈ errs
      else MandelbrotChannel.QueryParams_new E kw = Raise e
  end.
Proof.
  intros Hs.
  assert (Hw : MandelbrotChannel.field_window E kw
               = match _window_format E s with
                 | Ok w => Ok (Pydantic.Valid w)
                 | Raise e =>
                     if decide (exn_cls e = "ValueError" ∨ exn_cls e = "AssertionError")
                     then Ok (Pydantic.Invalid (exn_msg e))
                     else Raise e
                 end).
  { unfold MandelbrotChannel.field_window. rewrite Hs.
    cbn [Pydantic.as_str Pydantic.after MandelbrotChannel.window_format].
    reflexivity. }
  destruct (_window_format E s) as [w|e].
  - intros q Hq.
    destruct (ChannelQueryMore.new_with_window E kw s _ Hs Hw)
      as [(q' & r & Hq' & [= <-] & Hr) | (errs & Hraise & _)]; [|congruence].
    congruence.
  - destruct (decide _) as [Hcls|Hcls].
    + destruct (ChannelQueryMore.new_with_window E kw s _ Hs Hw)
        as [(q' & r & _ & Hr & _) | (errs & Hraise & Hin)]; [discriminate|].
      exists errs. split; [exact Hraise | apply Hin; reflexivity].
    + unfold MandelbrotChannel.QueryParams_new. rewrite Hw. reflexivity.
Qed.

(** A window that is formatted, one that is refused and one on which
    [_window_format] breaks. *)
Lemma X16_channel_window_is_formatted_witness :
  (∀ q, MandelbrotChannel.QueryParams_new Demo.collaborators {[ "window" := VStr "2w" ]}
        = Ok q → MandelbrotChannel.window q = "2w")
  ∧ (∃ errs,
       MandelbrotChannel.QueryParams_new Cases.strict_window {[ "window" := VStr "2w" ]}
       = Raise (Pydantic.ValidationError "MandelbrotChannelQueryParams" errs)
       ∧ ("window", "bad window 2w") ∈ errs)
  ∧ MandelbrotChannel.QueryParams_new Cases.broken_window {[ "window" := VStr "2w" ]}
    = Raise (new_exn "KeyError" "2w").
Proof.
  split; [|split].
  - apply (X16_channel_window_is_formatted Demo.collaborators
             {[ "window" := VStr "2w" ]} "2w"). reflexivity.
  - apply (X16_channel_window_is_formatted Cases.strict_window
             {[ "window" := VStr "2w" ]} "2w"). reflexivity.
  - apply (X16_channel_window_is_formatted Cases.broken_window
             {[ "window" := VStr "2w" ]} "2w"). reflexivity.
Defined.



(** ** More on [MandelbrotChannelFetcher] *)

Module MandelbrotMore.
Import MandelbrotChannel MandelbrotStages MandelbrotFacts MandelbrotFetch.

(** [transform_data] changes nothing. *)
Lemma channel_transform_data_frame E (s s' : State Fetcher) r :
  transform_data E s = (r, s') → s' = s.
Proof.
  destruct s as [w [cp eh td]].
  unfold transform_data, command_field. unfold_monad. cbn.
  destruct eh as [data|]; cbn; [|intros [= _ <-]; reflexivity].
  destruct cp as [|kw|q]; cbn; intros [= _ <-]; reflexivity.
Qed.

(** The store after [fetch_data], whatever the outcome. *)
Lemma channel_fetch_data_world E (s s' : State Fetcher) r :
  fetch_data E s = (r, s') →
  world s'
  = match query_of E (command_params (self s)) with
    | Ok _ => called (request_of (context_params (world s))) (world s)
    | Raise _ => world s
    end.
Proof.
  intros H. unfold fetch_data in H.
  destruct (query_of E (command_params (self s))) as [q|e0] eqn:Hq.
  - rewrite (bind_run _ _ _ _ _ (channel_transform_query_ok E s q Hq)) in H.
    apply bind_cases in H as [(e & H2 & _) | (t & s2 & H2 & H)];
      rewrite channel_extract_data_eq in H2; cbn [world self] in H2.
    { injection H2 as _ <-. reflexivity. }
    injection H2 as _ <-.
    apply bind_cases in H as [(e & H3 & _) | ([] & s3 & H3 & H)];
      unfold update_self in H3; unfold_monad; [discriminate|].
    injection H3 as <-. cbn [world self] in H.
    apply bind_cases in H as [(e & H4 & _) | (out & s4 & H4 & H)];
      apply channel_transform_data_frame in H4; subst; [reflexivity|].
    unfold update_self, Data_validate in H. unfold_monad.
    destruct (conforms MandelbrotChannelData out); cbn in H;
      injection H as _ <-; reflexivity.
  - destruct (channel_transform_query_raise E s e0 Hq) as (s1 & H1 & Hw).
    rewrite (bind_raise _ _ _ _ _ H1) in H. injection H as _ <-. exact Hw.
Qed.

(** The Fetcher after a successful [fetch_data]. *)
Lemma channel_fetch_data_final E (s s' : State Fetcher) env :
  fetch_data E s = (Ok env, s') →
  ∃ q, command_params (self s') = Pydantic.CmdModel q.
Proof.
  intros H. unfold fetch_data in H.
  apply bind_ok in H as ([] & s1 & H1 & H).
  apply channel_transform_query_inv in H1 as (q & Hq & ->).
  apply bind_ok in H as (t' & s2 & H2 & H).
  rewrite channel_extract_data_eq in H2. cbn [world self] in H2.
  injection H2 as _ <-.
  apply bind_ok in H as ([] & s3 & H3 & H).
  unfold update_self in H3. unfold_monad. injection H3 as <-. cbn [self world] in H.
  apply bind_ok in H as (out & s4 & H4 & H).
  apply channel_transform_data_frame in H4. subst s4.
  unfold Data_validate, update_self in H.
  destruct (conforms MandelbrotChannelData out);
    unfold_monad; cbn in H; [|discriminate].
  injection H as _ <-. exists q. reflexivity.
Qed.

End MandelbrotMore.

Module FrameFacts.
Import Polars.

Lemma columns_drop names t n :
  n ∈ columns (drop names t) → n ∉ names.
Proof.
  unfold columns, drop. intros H.
  apply list_elem_of_fmap in H as ([n' c] & -> & Hin).
  apply list_elem_of_filter in Hin as [Hnot _]. exact Hnot.
Qed.

Lemma columns_replace name c t : columns (replace_column name c t) = columns t.
Proof.
  unfold columns. induction t as [|[n old] rest IH]; [reflexivity|].
  cbn. destruct (decide (n = name)); cbn; [reflexivity|].
  f_equal. exact IH.
Qed.

(** [with_columns] adds at most the named column. *)
Lemma columns_with_columns_lit name v t n :
  n ∈ columns (with_columns_lit name v t) → n = name ∨ n ∈ columns t.
Proof.
  unfold with_columns_lit. destruct (decide (name ∈ columns t)).
  - rewrite columns_replace. auto.
  - unfold columns. rewrite fmap_app. intros H.
    apply elem_of_app in H as [H|H]; [auto|].
    left. apply elem_of_cons in H as [H|H]; [exact H | inversion H].
Qed.

End FrameFacts.

(** X18: [MandelbrotChannelFetcher.fetch_data] succeeds exactly when the
    command parameters validate, the provider returns a table, the kernel
    returns on the extracted table with the validated parameters and its
    output passes [MandelbrotChannelData]. [HumblObject] is then called
    with the serialized validated frame as [results], the context's
    provider, [None] for warnings and chart, and the context and the
    validated command parameters under the keywords [_context_params] and
    [_command_params]; the keywords [context_params], [command_params] and
    [extra] are not passed. *)
Theorem X18_channel_fetch_succeeds_iff E (s : State MandelbrotChannel.Fetcher) :
  let c := context_params (world s) in
  (∀ q t out validated,
     MandelbrotStages.query_of E (MandelbrotChannel.command_params (self s)) = Ok q →
     historical E (MandelbrotChannel.request_of c) = Ok t →
     MandelbrotStages.kernel E (MandelbrotStages.extracted (Toolbox.symbols c) t) q
       = Ok out →
     Data_validate "MandelbrotChannelData" MandelbrotChannelData out = Ok validated →
     fst (MandelbrotChannel.fetch_data E s)
     = Ok {| HumblObject.results := Serialized validated;
             HumblObject.provider := Toolbox.provider c;
             HumblObject.warnings := None;
             HumblObject.chart := None;
             HumblObject.context_params := None;
             HumblObject.command_params := None;
             HumblObject.extra := None;
             HumblObject._context_params := Some ContextObject;
             HumblObject._command_params := Some (Pydantic.CmdModel q) |})
  ∧ (∀ env s',
     MandelbrotChannel.fetch_data E s = (Ok env, s') →
     ∃ q t out,
       MandelbrotStages.query_of E (MandelbrotChannel.command_params (self s)) = Ok q
       ∧ historical E (MandelbrotChannel.request_of c) = Ok t
       ∧ MandelbrotStages.kernel E (MandelbrotStages.extracted (Toolbox.symbols c) t) q
         = Ok out
       ∧ Data_validate "MandelbrotChannelData" MandelbrotChannelData out = Ok out).
Proof.
  intros c. split.
  - intros q t out validated Hq Ht Hk Hv.
    rewrite (MandelbrotFetch.channel_fetch_data_run E s q t Hq Ht). fold c.
    rewrite Hk, Hv. reflexivity.
  - intros env s' H. apply MandelbrotFacts.channel_fetch_data_ok in H
      as (q & t & out & Hq & Ht & Hk & Hv & _).
    exists q, t, out. repeat split; try assumption.
    unfold Data_validate. rewrite Hv. reflexivity.
Qed.

Lemma X18_channel_fetch_succeeds_iff_witness :
  fst (MandelbrotChannel.fetch_data Demo.collaborators
         (MandelbrotChannel.__init__ Pydantic.CmdNone Demo.session))
  = Ok {| HumblObject.results := Serialized Demo.channel;
          HumblObject.provider := "yahoo";
          HumblObject.warnings := None;
          HumblObject.chart := None;
          HumblObject.context_params := None;
          HumblObject.command_params := None;
          HumblObject.extra := None;
          HumblObject._context_params := Some ContextObject;
          HumblObject._command_params := Some (Pydantic.CmdModel MandelbrotStages.defaults) |}.
Proof.
  apply (proj1 (X18_channel_fetch_succeeds_iff Demo.collaborators
                  (MandelbrotChannel.__init__ Pydantic.CmdNone Demo.session))
           MandelbrotStages.defaults Demo.prices Demo.channel Demo.channel);
    vm_compute; reflexivity.
Defined.

(** X19: what [MandelbrotChannelFetcher.fetch_data] does to the store,
    whatever its outcome: the context and the list objects are left as they
    are, and exactly one provider call is recorded when the command
    parameters validated, none when they did not. *)
Theorem X19_channel_fetch_store_effects E (s s' : State MandelbrotChannel.Fetcher) r :
  MandelbrotChannel.fetch_data E s = (r, s') →
  context_params (world s') = context_params (world s)
  ∧ lists (world s') = lists (world s)
  ∧ provider_calls (world s')
    = (provider_calls (world s)
       ++ match MandelbrotStages.query_of E (MandelbrotChannel.command_params (self s)) with
          | Ok _ => [MandelbrotChannel.request_of (context_params (world s))]
          | Raise _ => []
          end)%list.
Proof.
  intros H. rewrite (MandelbrotMore.channel_fetch_data_world E s s' r H).
  destruct (MandelbrotStages.query_of E _); cbn.
  - repeat split.
  - rewrite app_nil_r. repeat split.
Qed.

Lemma X19_channel_fetch_store_effects_witness :
  let r := MandelbrotChannel.fetch_data Demo.failing_kernel
             (MandelbrotChannel.__init__ Pydantic.CmdNone Demo.session) in
  context_params (world (snd r)) = Demo.context
  ∧ lists (world (snd r)) = [["A"; "B"]]
  ∧ provider_calls (world (snd r)) = [MandelbrotChannel.request_of Demo.context].
Proof.
  cbv zeta.
  apply (X19_channel_fetch_store_effects Demo.failing_kernel
           (MandelbrotChannel.__init__ Pydantic.CmdNone Demo.session) _
           (fst (MandelbrotChannel.fetch_data Demo.failing_kernel
                   (MandelbrotChannel.__init__ Pydantic.CmdNone Demo.session)))).
  vm_compute. reflexivity.
Defined.

(** X20: the table [MandelbrotChannelFetcher.extract_data] returns never
    has a [dividends] or a [stock_splits] column, and any column it has
    beyond the provider's is the [symbol] column. [extract_data] returns the
    table without keeping it: the Fetcher is as before. *)
Theorem X20_channel_extract_drops_columns
    E (s s' : State MandelbrotChannel.Fetcher) (t' : Table) :
  MandelbrotChannel.extract_data E s = (Ok t', s') →
  ("dividends" ∉ Polars.columns t')
  ∧ ("stock_splits" ∉ Polars.columns t')
  ∧ (∃ t, historical E (MandelbrotChannel.request_of (context_params (world s))) = Ok t
          ∧ ∀ n, n ∈ Polars.columns t' → n = "symbol" ∨ n ∈ Polars.columns t)
  ∧ self s' = self s.
Proof.
  intros H. rewrite MandelbrotFacts.channel_extract_data_eq in H.
  destruct (historical E _) as [t|] eqn:Ht; [|discriminate].
  injection H as <- <-.
  assert (Hcols : ∀ n, n ∈ Polars.columns
                           (MandelbrotStages.extracted
                              (Toolbox.symbols (context_params (world s))) t) →
                       n = "symbol"
                       ∨ n ∈ Polars.columns (Polars.drop ["dividends"; "stock_splits"] t)).
  { intros n Hn. unfold MandelbrotStages.extracted in Hn.
    destruct (Toolbox.symbols _) as [|a [|b l]]; auto.
    apply FrameFacts.columns_with_columns_lit in Hn. exact Hn. }
  split; [|split; [|split]].
  - intros Hn. apply Hcols in Hn as [Hn|Hn]; [discriminate|].
    apply FrameFacts.columns_drop in Hn. apply Hn. set_solver.
  - intros Hn. apply Hcols in Hn as [Hn|Hn]; [discriminate|].
    apply FrameFacts.columns_drop in Hn. apply Hn. set_solver.
  - exists t. split; [reflexivity|]. intros n Hn.
    apply Hcols in Hn as [Hn|Hn]; [auto|]. right.
    unfold Polars.columns, Polars.drop in *.
    apply list_elem_of_fmap in Hn as (col & -> & Hin).
    apply list_elem_of_filter in Hin as [_ Hin].
    apply list_elem_of_fmap. eauto.
  - reflexivity.
Qed.

Lemma X20_channel_extract_drops_columns_witness :
  ∃ t' s',
    MandelbrotChannel.extract_data Demo.collaborators
      (MandelbrotChannel.__init__ Pydantic.CmdNone Demo.session) = (Ok t', s')
    ∧ Polars.columns t' = ["date"; "close"; "symbol"]
    ∧ ("dividends" ∉ Polars.columns t')
    ∧ ("stock_splits" ∉ Polars.columns t').
Proof.
  eexists _, _. split; [vm_compute; reflexivity|]. split; [reflexivity|].
  edestruct (X20_channel_extract_drops_columns Demo.collaborators
               (MandelbrotChannel.__init__ Pydantic.CmdNone Demo.session))
    as (Hd & Hs & _); [vm_compute; reflexivity|].
  split; [exact Hd | exact Hs].
Defined.

(** X21: a [MandelbrotChannelFetcher] serves one fetch. After a successful
    [fetch_data] its command parameters are a model instance, so a second
    [fetch_data] on it raises the [TypeError] of the keyword unpacking in
    [transform_query] and records no provider call. *)
Theorem X21_channel_fetcher_is_single_use
    E (s s' : State MandelbrotChannel.Fetcher) env :
  MandelbrotChannel.fetch_data E s = (Ok env, s') →
  ∃ e, MandelbrotChannel.fetch_data E s' = (Raise e, s') ∧ exn_cls e = "TypeError".
Proof.
  intros H. apply MandelbrotMore.channel_fetch_data_final in H as (q & Hq).
  destruct s' as [w [cp eh td]]. cbn in Hq. subst cp.
  unfold MandelbrotChannel.fetch_data, MandelbrotChannel.transform_query.
  unfold_monad. cbn. eexists. split; reflexivity.
Qed.

Lemma X21_channel_fetcher_is_single_use_witness :
  let s' := snd (MandelbrotChannel.fetch_data Demo.collaborators
                   (MandelbrotChannel.__init__ Pydantic.CmdNone Demo.session)) in
  ∃ e, MandelbrotChannel.fetch_data Demo.collaborators s' = (Raise e, s')
       ∧ exn_cls e = "TypeError".
Proof.
  cbv zeta.
  eapply (X21_channel_fetcher_is_single_use Demo.collaborators
            (MandelbrotChannel.__init__ Pydantic.CmdNone Demo.session)).
  vm_compute. reflexivity.
Defined.

(** ** More on the extracted table of [MomentumFetcher] *)

(** X22: for one requested symbol, [MomentumFetcher.extract_data] keeps the
    provider's columns in their order: a [symbol] column the provider
    supplied stays where it is, with its cells overwritten by the requested
    symbol, and when the provider supplied none the new column comes
    last. *)
Theorem X22_momentum_extract_column_order
    E (s : State Momentum.Fetcher) (t : Table) (sym : string) :
  let c := context_params (world s) in
  historical E (Momentum.request_of c) = Ok t →
  Toolbox.symbols c = [sym] →
  ∃ s' t',
    Momentum.extract_data E s = (Ok (), s')
    ∧ Momentum.equity_historical_data (self s') = Some t'
    ∧ Polars.columns t'
      = (if decide ("symbol" ∈ Polars.columns t) then Polars.columns t
         else Polars.columns t ++ ["symbol"])%list
    ∧ ∀ cells, Polars.get_column "symbol" t' = Some cells →
               Forall (λ x, x = CStr sym) cells.
Proof.
  intros c Ht Hsym. rewrite MomentumFacts.momentum_extract_data_eq. fold c.
  rewrite Ht, Hsym. cbn [MomentumStages.extracted].
  eexists _, _. split; [reflexivity|]. split; [reflexivity|]. split.
  - unfold Polars.with_columns_lit.
    destruct (decide ("symbol" ∈ Polars.columns t)).
    + apply FrameFacts.columns_replace.
    + unfold Polars.columns. rewrite fmap_app. reflexivity.
  - intros cells. rewrite PolarsFacts.with_columns_lit_column.
    intros [= <-]. apply Forall_replicate. reflexivity.
Qed.

(** The provider labels its rows "aapl"; the request was for "AAPL". *)
Lemma X22_momentum_extract_column_order_witness :
  ∃ s' t',
    Momentum.extract_data Cases.labelling
      (Momentum.__init__ Pydantic.CmdNone Demo.session) = (Ok (), s')
    ∧ Momentum.equity_historical_data (self s') = Some t'
    ∧ Polars.columns t' = ["date"; "symbol"; "close"; "stock_splits"]
    ∧ ∀ cells, Polars.get_column "symbol" t' = Some cells →
               Forall (λ x, x = CStr "AAPL") cells.
Proof.
  apply (X22_momentum_extract_column_order Cases.labelling
           (Momentum.__init__ Pydantic.CmdNone Demo.session) Cases.labelled_prices "AAPL");
    reflexivity.
Defined.

(** ** The constructor of [PortfolioQueryParams] *)

Module PortfolioFacts.
Import PortfolioModel.

Lemma strings_are_strings (ss : list string) :
  forallb PortfolioQueryParams.isinstance_str (VStr <$> ss) = true.
Proof. induction ss as [|s ss IH]; [reflexivity | exact IH]. Qed.

Lemma pair_declared (a b : pyval) k :
  is_Some (({[ "symbol" := a; "provider" := b ]} : gmap string pyval) !! k) →
  k ∈ ["symbol"; "provider"].
Proof.
  intros [v Hk].
  destruct (decide (k = "symbol")) as [->|H1]; [set_solver|].
  destruct (decide (k = "provider")) as [->|H2]; [set_solver|].
  rewrite lookup_insert_ne, lookup_singleton_ne in Hk by congruence. discriminate.
Qed.

(** The constructor on a symbol that normalizes to the strings [ss] and a
    provider that is allowed. *)
Lemma new_normalized E providers (v : pyval) (ss : list string) p :
  PortfolioQueryParams.upper_symbol v = Ok (VList (VStr <$> ss)) →
  p ∈ providers →
  QueryParams_new E providers {[ "symbol" := v; "provider" := VStr p ]}
  = Ok {| symbol := VList (VStr <$> ss); provider := p |}.
Proof.
  intros Hv Hp. unfold QueryParams_new, field_symbol, field_provider.
  rewrite lookup_insert_eq, Hv. cbn [obind as_str_or_list].
  rewrite strings_are_strings.
  rewrite lookup_insert_ne by discriminate. rewrite lookup_singleton_eq.
  cbn [Pydantic.as_literal]. rewrite decide_True by exact Hp.
  rewrite (MomentumQueryMore.extra_errors_declared E _ _ (pair_declared v (VStr p))).
  reflexivity.
Qed.

End PortfolioFacts.

(** X23: the constructor of [PortfolioQueryParams] takes the two forms of
    a symbol input alike: with an allowed provider, a non-empty collection
    of comma-free strings and the comma-separated string of its elements
    give the same instance, whose [symbol] is the list of the trimmed,
    upper-cased elements. *)
Theorem X23_portfolio_params_input_forms
    E (providers : list string) (l : list string) (p : string) :
  l ≠ [] →
  Forall (λ s, PyStr.contains comma s = false) l →
  p ∈ providers →
  let built := {| PortfolioModel.symbol := VList (VStr <$> (Chars.normal <$> l));
                  PortfolioModel.provider := p |} in
  PortfolioModel.QueryParams_new E providers
    {[ "symbol" := VStr (PyStr.join "," l); "provider" := VStr p ]} = Ok built
  ∧ PortfolioModel.QueryParams_new E providers
      {[ "symbol" := VList (VStr <$> l); "provider" := VStr p ]} = Ok built.
Proof.
  intros Hne Hl Hp built. split.
  - apply PortfolioFacts.new_normalized; [|exact Hp].
    unfold PortfolioQueryParams.upper_symbol at 1.
    change "," with (String comma EmptyString).
    rewrite (SymbolFacts.split_join comma l Hne Hl).
    apply SymbolFacts.upper_symbol_collection.
  - apply PortfolioFacts.new_normalized; [|exact Hp].
    apply SymbolFacts.upper_symbol_collection.
Qed.

Lemma X23_portfolio_params_input_forms_witness :
  let built := {| PortfolioModel.symbol := VList [VStr "AAPL"; VStr "MSFT"];
                  PortfolioModel.provider := "yahoo" |} in
  PortfolioModel.QueryParams_new Demo.collaborators ["yahoo"; "fmp"]
    {[ "symbol" := VStr "aapl,msft"; "provider" := VStr "yahoo" ]} = Ok built
  ∧ PortfolioModel.QueryParams_new Demo.collaborators ["yahoo"; "fmp"]
      {[ "symbol" := VList [VStr "aapl"; VStr "msft"]; "provider" := VStr "yahoo" ]}
    = Ok built.
Proof.
  cbv zeta.
  apply (X23_portfolio_params_input_forms Demo.collaborators ["yahoo"; "fmp"]
           ["aapl"; "msft"] "yahoo").
  - discriminate.
  - repeat constructor.
  - apply elem_of_cons. left. reflexivity.
Defined.

(** X24: in the constructor of [PortfolioQueryParams] a symbol collection
    whose first element that is not a [str] is [None], a [bool], an [int]
    or a [list], none of which has a [strip] method, makes the constructor
    raise the [AttributeError] of that element, whatever the provider and
    the other keywords are: no [ValidationError] is built. When that
    element is a [bytes], the constructor raises a [ValidationError] that
    lists [symbol] with the message of [upper_symbol]. *)
Theorem X24_portfolio_params_bad_element
    E (providers : list string) (kw : gmap string pyval)
    (strs : list string) (v : pyval) (rest : list pyval) :
  kw !! "symbol" = Some (VList ((VStr <$> strs) ++ v :: rest)%list) →
  ((∃ b, v = VBytes b) →
   ∃ errs,
     PortfolioModel.QueryParams_new E providers kw
     = Raise (Pydantic.ValidationError "PortfolioQueryParams" errs)
     ∧ ("symbol", "Every element in `symbol` list must be a `str`") ∈ errs)
  ∧ (v = VNone ∨ (∃ b, v = VBool b) ∨ (∃ z, v = VInt z) ∨ (∃ l, v = VList l) →
     PortfolioModel.QueryParams_new E providers kw
     = Raise (new_exn "AttributeError"
                ("'" ++ type_name v ++ "' object has no attribute 'strip'"))).
Proof.
  intros Hkw.
  assert (Hup : PortfolioQueryParams.isinstance_str v = false →
                PortfolioQueryParams.upper_symbol (VList ((VStr <$> strs) ++ v :: rest)%list)
                = match v with
                  | VBytes _ =>
                      Raise (new_exn "ValueError"
                               "Every element in `symbol` list must be a `str`")
                  | _ => Raise (new_exn "AttributeError"
                                  ("'" ++ type_name v ++ "' object has no attribute 'strip'"))
                  end).
  { intros Hv.
    unfold PortfolioQueryParams.upper_symbol. cbn [PortfolioQueryParams.iterate obind].
    rewrite (SymbolOutcomes.first_non_string strs v rest Hv).
    destruct v; reflexivity. }
  unfold PortfolioModel.QueryParams_new, PortfolioModel.field_symbol.
  rewrite Hkw. split.
  - intros [b ->]. rewrite Hup by reflexivity.
    cbn. eexists. split; [reflexivity|].
    apply elem_of_cons. left. reflexivity.
  - intros [-> | [[b ->] | [[z ->] | [l ->]]]]; rewrite Hup by reflexivity; reflexivity.
Qed.

Lemma X24_portfolio_params_bad_element_witness :
  PortfolioModel.QueryParams_new Demo.collaborators ["yahoo"; "fmp"]
    {[ "symbol" := VList [VStr "aapl"; VInt 5]; "provider" := VStr "nowhere" ]}
  = Raise (new_exn "AttributeError" "'int' object has no attribute 'strip'")
  ∧ ∃ errs,
      PortfolioModel.QueryParams_new Demo.collaborators ["yahoo"; "fmp"]
        {[ "symbol" := VList [VStr "aapl"; VBytes "msft"]; "provider" := VStr "nowhere" ]}
      = Raise (Pydantic.ValidationError "PortfolioQueryParams" errs)
      ∧ ("symbol", "Every element in `symbol` list must be a `str`") ∈ errs.
Proof.
  split.
  - apply (X24_portfolio_params_bad_element Demo.collaborators ["yahoo"; "fmp"]
             {[ "symbol" := VList [VStr "aapl"; VInt 5]; "provider" := VStr "nowhere" ]}
             ["aapl"] (VInt 5) []); [reflexivity|].
    right. right. left. exists 5%Z. reflexivity.
  - apply (X24_portfolio_params_bad_element Demo.collaborators ["yahoo"; "fmp"]
             {[ "symbol" := VList [VStr "aapl"; VBytes "msft"];
                "provider" := VStr "nowhere" ]}
             ["aapl"] (VBytes "msft") []); [reflexivity|].
    exists "msft". reflexivity.
Defined.
